(** * Tachi SDK for Python: the pay-per-crawl fetch protocol

    A shallow embedding of [tachi_sdk/__init__.py] (the v1 Python SDK):
    the 402 payment-terms parser [_parse_payment_info], the retrying HTTP
    client [_make_http_request], the settlement step [_process_payment],
    the orchestrator [fetch_with_tachi] and the balance query
    [get_usdc_balance].

    Layout of the development:
    - Python values and the built-in conversions the SDK calls
      ([str], [repr], [int], truthiness, [dict.get]);
    - [decimal.Decimal] restricted to what the SDK uses (construction,
      [/], [*], [str], [int]) under the default context;
    - Keccak-256 and [Web3.to_checksum_address];
    - the collaborators (HTTP session, clock, ledger node, signer) as
      events of a small program monad, interpreted by a handler over an
      arbitrary world, with the log of performed calls;
    - the SDK functions, written in that monad, with the configuration,
      the constructor and the convenience functions of the module;
    - the properties: the claims of the specification first, then further
      properties of the same functions (retry schedule, errors, custody of
      transactions, bounds of a fetch) and the exactness of the amount paid.

    Scope of the value model: text is ASCII, and JSON bodies hold no
    non-integer numbers (Python [float] is not represented). *)

From Stdlib Require Import ZArith NArith List String Ascii Bool Lia DecimalString.
From Stdlib Require DecimalFacts DecimalPos DecimalN.
From stdpp Require Import base option list gmap strings.
Import ListNotations.

Local Open Scope string_scope.
Local Open Scope list_scope.
Local Open Scope Z_scope.
Local Set Warnings "-register-all".

(** ** Characters and text *)

Definition ord (c : ascii) : Z := Z.of_N (N_of_ascii c).
Definition chr (z : Z) : ascii := ascii_of_N (Z.to_N z).

Definition chars (s : string) : list ascii := list_ascii_of_string s.
Definition of_chars (l : list ascii) : string := string_of_list_ascii l.

Definition is_digit (c : ascii) : bool := (48 <=? ord c) && (ord c <=? 57).
Definition is_upper (c : ascii) : bool := (65 <=? ord c) && (ord c <=? 90).
Definition is_lower (c : ascii) : bool := (97 <=? ord c) && (ord c <=? 122).

(** The ASCII characters for which [str.isspace] holds; [str.strip] removes
    them from both ends. *)
Definition is_space (c : ascii) : bool :=
  ((9 <=? ord c) && (ord c <=? 13)) || ((28 <=? ord c) && (ord c <=? 32)).

Definition is_hex_digit (c : ascii) : bool :=
  is_digit c || ((97 <=? ord c) && (ord c <=? 102)) || ((65 <=? ord c) && (ord c <=? 70)).

Definition lower_char (c : ascii) : ascii := if is_upper c then chr (ord c + 32) else c.
Definition upper_char (c : ascii) : ascii := if is_lower c then chr (ord c - 32) else c.

Definition lower (s : string) : string := of_chars (map lower_char (chars s)).

Fixpoint lstrip (l : list ascii) : list ascii :=
  match l with
  | c :: r => if is_space c then lstrip r else l
  | [] => []
  end.

Definition strip (s : string) : list ascii := rev (lstrip (rev (lstrip (chars s)))).

(** [str(n)] for a Python [int]. *)
Definition str_int (n : Z) : string := NilZero.string_of_int (Z.to_int n).

(** Two lower-case hexadecimal digits of a byte, and [hex(n)] digits. *)
Definition hex_digit (n : Z) : ascii := if n <? 10 then chr (48 + n) else chr (87 + n).

Definition hex_byte (b : Z) : list ascii := [hex_digit (b / 16); hex_digit (b mod 16)].

Fixpoint hex_digits_fuel (fuel : nat) (n : Z) (acc : list ascii) : list ascii :=
  match fuel with
  | O => acc
  | S f => if n <? 16 then hex_digit n :: acc
           else hex_digits_fuel f (n / 16) (hex_digit (n mod 16) :: acc)
  end.

(** [hex(n)]: "0x.." for [0 <= n], "-0x.." below. *)
Definition py_hex (n : Z) : string :=
  let a := Z.abs n in
  let ds := of_chars (hex_digits_fuel (S (Z.to_nat (Z.log2 a))) a []) in
  if n <? 0 then "-0x" +:+ ds else "0x" +:+ ds.

(** [sep.join(parts)]. *)
Fixpoint join (sep : string) (parts : list string) : string :=
  match parts with
  | [] => ""
  | [p] => p
  | p :: rest => p +:+ sep +:+ join sep rest
  end.

(** [repr] of a [str]: single quotes unless the text holds a single quote and
    no double quote; backslash, the chosen quote, tab, newline and carriage
    return are escaped, other non-printable characters are written [\xNN]. *)
Definition repr_char (quote c : ascii) : list ascii :=
  if Ascii.eqb c "\" then ["\"; "\"]%char
  else if Ascii.eqb c quote then ["\"%char; c]
  else if ord c =? 9 then ["\"; "t"]%char
  else if ord c =? 10 then ["\"; "n"]%char
  else if ord c =? 13 then ["\"; "r"]%char
  else if (ord c <? 32) || (126 <? ord c) then ["\"; "x"]%char ++ hex_byte (ord c)
  else [c].

Definition repr_str (s : string) : string :=
  let l := chars s in
  let has q := existsb (Ascii.eqb q) l in
  let dq := chr 34 in
  let quote : ascii := if has "'"%char && negb (has dq) then dq else "'"%char in
  of_chars (quote :: concat (map (repr_char quote) l) ++ [quote]).

(** ** Python values

    The values a header or a decoded JSON body can hold.  A [dict] keeps its
    insertion order; keys are unique, as [json.loads] produces them. *)

Inductive pyval : Type :=
| PNone
| PBool (b : bool)
| PInt (n : Z)
| PStr (s : string)
| PList (l : list pyval)
| PDict (d : list (string * pyval)).

Definition type_name (v : pyval) : string :=
  match v with
  | PNone => "NoneType"
  | PBool _ => "bool"
  | PInt _ => "int"
  | PStr _ => "str"
  | PList _ => "list"
  | PDict _ => "dict"
  end.

(** [bool(v)]. *)
Definition truthy (v : pyval) : bool :=
  match v with
  | PNone => false
  | PBool b => b
  | PInt n => negb (n =? 0)
  | PStr s => negb (String.eqb s "")
  | PList l => match l with [] => false | _ => true end
  | PDict d => match d with [] => false | _ => true end
  end.

(** [a or b], with [b] already evaluated (the callers below evaluate [b] only
    when [a] is falsy). *)
Definition py_or (a b : pyval) : pyval := if truthy a then a else b.

Fixpoint py_repr (v : pyval) : string :=
  match v with
  | PNone => "None"
  | PBool true => "True"
  | PBool false => "False"
  | PInt n => str_int n
  | PStr s => repr_str s
  | PList l => "[" +:+ join ", " (map py_repr l) +:+ "]"
  | PDict d =>
      "{" +:+ join ", " (map (fun kv => repr_str (fst kv) +:+ ": " +:+ py_repr (snd kv)) d) +:+ "}"
  end.

(** [str(v)], also what an f-string writes for [{v}]. *)
Definition py_str (v : pyval) : string :=
  match v with
  | PStr s => s
  | _ => py_repr v
  end.

(** Look-up in an insertion-ordered dict. *)
Fixpoint assoc (k : string) (d : list (string * pyval)) : option pyval :=
  match d with
  | [] => None
  | (k', v) :: r => if String.eqb k k' then Some v else assoc k r
  end.

(** ** Exceptions

    The SDK's own hierarchy ([TachiError] and its two subclasses) with the
    [code] and [details] attributes, and the library exceptions that reach
    it.  [details] is an untyped dict in the source; each shape the SDK
    builds has a constructor here. *)

Record PaymentInfo : Type := mkPaymentInfo {
  amount : pyval;
  currency : pyval;
  network : pyval;
  chain_id : Z;
  recipient : string;
  token_address : string;
  token_id : pyval
}.

Inductive details : Type :=
| NoDetails
| InfoDetails (payment_info : PaymentInfo)
| RequestDetails (url last_error : string)
| VerificationDetails (transaction_hash : string) (status : Z)
| BalanceDetails (required : pyval) (available : string)
| FailureDetails (payment_info : PaymentInfo) (error : string).

Inductive pyclass : Type :=
| ValueError
| TypeError
| AttributeError
| OverflowError
| InvalidOperation          (* decimal.InvalidOperation *)
| DecimalOverflow           (* decimal.Overflow *)
| DivisionByZero            (* decimal.DivisionByZero *)
| RequestException          (* requests.RequestException and its subclasses *)
| OtherException (name : string).

Inductive exn : Type :=
| TachiError (message code : string) (d : details)
| PaymentError (message : string) (d : details)
| NetworkError (message : string) (d : details)
| PyError (cls : pyclass) (message : string).

(** [str(error)]. *)
Definition exn_str (e : exn) : string :=
  match e with
  | TachiError m _ _ | PaymentError m _ | NetworkError m _ | PyError _ m => m
  end.

(** The [code] attribute set by the constructors of the hierarchy. *)
Definition exn_code (e : exn) : option string :=
  match e with
  | TachiError _ c _ => Some c
  | PaymentError _ _ => Some "PAYMENT_ERROR"
  | NetworkError _ _ => Some "NETWORK_ERROR"
  | PyError _ _ => None
  end.

Definition exn_details (e : exn) : details :=
  match e with
  | TachiError _ _ d | PaymentError _ d | NetworkError _ d => d
  | PyError _ _ => NoDetails
  end.

Definition is_PaymentError (e : exn) : bool :=
  match e with PaymentError _ _ => true | _ => false end.

Definition is_NetworkError (e : exn) : bool :=
  match e with NetworkError _ _ => true | _ => false end.

(** [isinstance(e, requests.RequestException)]. *)
Definition is_RequestException (e : exn) : bool :=
  match e with PyError RequestException _ => true | _ => false end.

(** Outcome of a call that either returns or raises. *)
Inductive result (A : Type) : Type :=
| Ok (a : A)
| Raise (e : exn).
Arguments Ok {A} a.
Arguments Raise {A} e.

#[export] Instance result_ret : MRet result := fun _ a => Ok a.
#[export] Instance result_bind : MBind result := fun _ _ f r =>
  match r with Ok a => f a | Raise e => Raise e end.

Definition raise {A} (cls : pyclass) (msg : string) : result A := Raise (PyError cls msg).

(** [obj.get(key, default)] on a decoded JSON value: only a dict has [get]. *)
Definition py_get (obj : pyval) (key : string) (dflt : pyval) : result pyval :=
  match obj with
  | PDict d => Ok (default dflt (assoc key d))
  | _ => raise AttributeError ("'" +:+ type_name obj +:+ "' object has no attribute 'get'")
  end.

(** ** [int(v)]

    A [str] is stripped of surrounding blanks (tab to carriage return, and
    space), takes an optional sign, then decimal digits with single
    underscores between digits.  The interpreter's limit on the number of
    digits of a converted string is not modelled. *)

Definition is_blank (c : ascii) : bool := ((9 <=? ord c) && (ord c <=? 13)) || (ord c =? 32).

Fixpoint drop_blanks (l : list ascii) : list ascii :=
  match l with
  | c :: r => if is_blank c then drop_blanks r else l
  | [] => []
  end.

Fixpoint digits_value (acc : Z) (l : list ascii) : Z :=
  match l with
  | [] => acc
  | c :: r => digits_value (10 * acc + (ord c - 48)) r
  end.

Fixpoint scan_int (prev_digit : bool) (l : list ascii) : option (list ascii) :=
  match l with
  | [] => if prev_digit then Some [] else None
  | c :: r =>
      if is_digit c then cons c <$> scan_int true r
      else if Ascii.eqb c "_" && prev_digit then scan_int false r
      else None
  end.

Definition split_sign (l : list ascii) : bool * list ascii :=
  match l with
  | c :: r =>
      if Ascii.eqb c "-" then (true, r)
      else if Ascii.eqb c "+" then (false, r)
      else (false, l)
  | [] => (false, [])
  end.

Definition int_of_str (s : string) : result Z :=
  let l := rev (drop_blanks (rev (drop_blanks (chars s)))) in
  let '(neg, body) := split_sign l in
  match scan_int false body with
  | Some ds => Ok (if neg then - digits_value 0 ds else digits_value 0 ds)
  | None => raise ValueError ("invalid literal for int() with base 10: " +:+ repr_str s)
  end.

Definition py_int (v : pyval) : result Z :=
  match v with
  | PInt n => Ok n
  | PBool b => Ok (if b then 1 else 0)
  | PStr s => int_of_str s
  | _ => raise TypeError
           ("int() argument must be a string, a bytes-like object or a real number, not '"
              +:+ type_name v +:+ "'")
  end.

(** ** [decimal.Decimal]

    Construction is exact; [/] and [*] round to the default context:
    28 significant digits, round-half-even, exponents within
    [-999999, 999999], with [InvalidOperation], [DivisionByZero] and
    [Overflow] trapped (raised), the other signals ignored. *)

Inductive PyDecimal : Type :=
| Finite (sign : bool) (coeff : N) (exp : Z)
| Infinity (sign : bool)
| NaN (sign signaling : bool) (payload : N).

Definition prec : Z := 28.
Definition Emax : Z := 999999.
Definition Emin : Z := -999999.
Definition Etiny : Z := Emin - prec + 1.
Definition Etop : Z := Emax - prec + 1.

(** Bounds of an exactly constructed value (the constructor works in the
    widest context of the implementation). *)
Definition MAX_EMAX : Z := 999999999999999999.
Definition MAX_ETINY : Z := -1999999999999999997.

(** [len(self._int)] and [self._int]; a NaN payload of [0] is the empty
    digit string. *)
Definition ndigits (n : N) : Z := Z.of_nat (Decimal.nb_digits (N.to_uint n)).
Definition str_N (n : N) : string := NilZero.string_of_uint (N.to_uint n).
Definition str_payload (n : N) : string := if (n =? 0)%N then "" else str_N n.

Definition pow10 (k : Z) : N := (10 ^ Z.to_N k)%N.

Definition conversion_syntax {A} : result A :=
  raise InvalidOperation "[<class 'decimal.ConversionSyntax'>]".
Definition invalid_operation {A} : result A :=
  raise InvalidOperation "[<class 'decimal.InvalidOperation'>]".
Definition division_undefined {A} : result A :=
  raise InvalidOperation "[<class 'decimal.DivisionUndefined'>]".
Definition division_by_zero {A} : result A :=
  raise DivisionByZero "[<class 'decimal.DivisionByZero'>]".
Definition overflow {A} : result A :=
  raise DecimalOverflow "[<class 'decimal.Overflow'>]".

(** An exactly constructed finite value must fit the widest context. *)
Definition exact (s : bool) (c : N) (e : Z) : result PyDecimal :=
  if (c =? 0)%N
  then if (e >? MAX_EMAX) || (e <? MAX_ETINY) then invalid_operation else Ok (Finite s c e)
  else if (ndigits c + e - 1 >? MAX_EMAX) || (e <? MAX_ETINY) then invalid_operation
       else Ok (Finite s c e).

Fixpoint span (p : ascii -> bool) (l : list ascii) : list ascii * list ascii :=
  match l with
  | c :: r => if p c then let '(a, b) := span p r in (c :: a, b) else ([], l)
  | [] => ([], [])
  end.

Definition all_digits (l : list ascii) : bool := forallb is_digit l.

(** The exponent part [E[-+]?\d+] up to the end of the text. *)
Definition parse_exponent (l : list ascii) : option Z :=
  match l with
  | [] => Some 0
  | c :: r =>
      if Ascii.eqb c "e" then
        let '(neg, ds) := split_sign r in
        match ds with
        | [] => None
        | _ => if all_digits ds
               then Some (if neg then - digits_value 0 ds else digits_value 0 ds)
               else None
        end
      else None
  end.

(** The numeric alternative of the constructor's grammar: digits with an
    optional fraction and exponent, at least one digit in all. *)
Definition parse_number (s : bool) (l : list ascii) : option (result PyDecimal) :=
  let '(ip, r1) := span is_digit l in
  let '(fp, r2) :=
    match r1 with
    | c :: r => if Ascii.eqb c "." then span is_digit r else ([], r1)
    | [] => ([], r1)
    end in
  match ip, fp with
  | [], [] => None
  | _, _ =>
      e ← parse_exponent r2;
      Some (exact s (Z.to_N (digits_value 0 (ip ++ fp))) (e - Z.of_nat (length fp)))
  end.

Definition parse_special (s : bool) (l : list ascii) : option (result PyDecimal) :=
  let spelled w := String.eqb (of_chars l) w in
  if spelled "inf" || spelled "infinity" then Some (Ok (Infinity s))
  else
    let '(sig, r) :=
      match l with
      | c :: r => if Ascii.eqb c "s" then (true, r) else (false, l)
      | [] => (false, l)
      end in
    if String.eqb (of_chars (take 3 r)) "nan" then
      let diag := drop 3 r in
      if all_digits diag then Some (Ok (NaN s sig (Z.to_N (digits_value 0 diag)))) else None
    else None.

(** [Decimal(text)]: blanks stripped at both ends, underscores removed, the
    grammar matched without regard to case. *)
Definition Decimal_of_str (v : string) : result PyDecimal :=
  let l := map lower_char (List.filter (fun c => negb (Ascii.eqb c "_")) (strip v)) in
  let '(s, body) := split_sign l in
  match parse_number s body with
  | Some r => r
  | None =>
      match parse_special s body with
      | Some r => r
      | None => conversion_syntax
      end
  end.

Definition Decimal_of_int (n : Z) : PyDecimal := Finite (n <? 0) (Z.abs_N n) 0.

(** [Decimal(sequence)]: [(sign, digits, exponent)] written out as text and
    parsed as above.  The sign, then the third element, then the digits are
    checked, in that order; integers pass through machine words of 64 bits. *)

Definition fits_word (n : Z) : bool := (- 2 ^ 63 <=? n) && (n <? 2 ^ 63).

Definition as_long (what : string) (v : pyval) : option (result Z) :=
  match v with
  | PInt n =>
      Some (if fits_word n then Ok n
            else raise OverflowError ("Python int too large to convert to C " +:+ what))
  | PBool b => Some (Ok (if b then 1 else 0))
  | _ => None
  end.

Definition tuple_sign (v : pyval) : result bool :=
  let bad := raise ValueError "sign must be an integer with the value 0 or 1" in
  match as_long "long" v with
  | Some r => n ← r; if n =? 0 then Ok false else if n =? 1 then Ok true else bad
  | None => bad
  end.

(** The third element: an exponent, or the marker of a special value
    ([None] for infinity, [Some signaling] for a NaN). *)
Definition tuple_exponent (v : pyval) : result (Z + option bool) :=
  match v with
  | PStr s =>
      if String.eqb s "F" then Ok (inr None)
      else if String.eqb s "n" then Ok (inr (Some false))
      else if String.eqb s "N" then Ok (inr (Some true))
      else raise ValueError "string argument in the third position must be 'F', 'n' or 'N'"
  | _ =>
      match as_long "ssize_t" v with
      | Some r => n ← r; Ok (inl n)
      | None => raise ValueError "exponent must be an integer"
      end
  end.

Fixpoint tuple_digits (l : list pyval) (acc : Z) : result Z :=
  match l with
  | [] => Ok acc
  | v :: r =>
      match as_long "long" v with
      | Some d =>
          n ← d;
          if (0 <=? n) && (n <=? 9) then tuple_digits r (10 * acc + n)
          else raise ValueError "coefficient must be a tuple of digits"
      | None => raise ValueError "coefficient must be a tuple of digits"
      end
  end.

Definition Decimal_of_list (l : list pyval) : result PyDecimal :=
  match l with
  | [v0; v1; v2] =>
      s ← tuple_sign v0;
      e ← tuple_exponent v2;
      match v1 with
      | PList ds =>
          c ← tuple_digits ds 0;
          match e with
          | inl n => exact s (Z.to_N c) n
          | inr None => Ok (Infinity s)
          | inr (Some sig) => Ok (NaN s sig (Z.to_N c))
          end
      | _ => raise ValueError "coefficient must be a tuple of digits"
      end
  | _ => raise ValueError "argument must be a sequence of length 3"
  end.

(** [Decimal(v)]. *)
Definition Decimal_of (v : pyval) : result PyDecimal :=
  match v with
  | PStr s => Decimal_of_str s
  | PInt n => Ok (Decimal_of_int n)
  | PBool b => Ok (Decimal_of_int (if b then 1 else 0))
  | PList l => Decimal_of_list l
  | _ => raise TypeError ("conversion from " +:+ type_name v +:+ " to Decimal is not supported")
  end.

(** *** Rounding to the context *)

Definition _fix_nan (s sig : bool) (payload : N) : PyDecimal :=
  if ndigits payload >? prec then NaN s sig (payload mod pow10 prec)%N else NaN s sig payload.

(** Keep [keep] leading digits of [c], rounding half to even. *)
Definition round_half_even (c : N) (keep : Z) : N :=
  let k := ndigits c - keep in
  let q := (c / pow10 k)%N in
  let r := (c mod pow10 k)%N in
  let half := (5 * pow10 (k - 1))%N in
  if (half <? r)%N || ((r =? half)%N && N.odd q) then (q + 1)%N else q.

Definition _fix (d : PyDecimal) : result PyDecimal :=
  match d with
  | NaN s sig p => Ok (_fix_nan s sig p)
  | Infinity s => Ok d
  | Finite s c e =>
      if (c =? 0)%N then Ok (Finite s 0 (Z.min (Z.max e Etiny) Emax))
      else
        let exp_min := ndigits c + e - prec in
        if exp_min >? Etop then overflow
        else
          let exp_min := if exp_min <? Etiny then Etiny else exp_min in
          if e <? exp_min then
            let digits := ndigits c + e - exp_min in
            let '(c, digits) := if digits <? 0 then (1%N, 0) else (c, digits) in
            let coeff := round_half_even c digits in
            let '(coeff, exp_min) :=
              if ndigits coeff >? prec then ((coeff / 10)%N, exp_min + 1) else (coeff, exp_min) in
            if exp_min >? Etop then overflow else Ok (Finite s coeff exp_min)
          else Ok d
  end.

(** NaN operands: a signaling NaN raises, a quiet one is the result. *)
Definition _check_nans (a b : PyDecimal) : option (result PyDecimal) :=
  match a, b with
  | NaN _ true _, _ => Some invalid_operation
  | _, NaN _ true _ => Some invalid_operation
  | NaN s sig p, _ => Some (Ok (_fix_nan s sig p))
  | _, NaN s sig p => Some (Ok (_fix_nan s sig p))
  | _, _ => None
  end.

Definition dec_sign (d : PyDecimal) : bool :=
  match d with Finite s _ _ | Infinity s | NaN s _ _ => s end.

Definition is_zero (d : PyDecimal) : bool :=
  match d with Finite _ c _ => (c =? 0)%N | _ => false end.

(** The quotient is exact: bring the exponent up towards the ideal one while
    the coefficient ends in zero. *)
Fixpoint strip_zeros (fuel : nat) (coeff : N) (exp ideal_exp : Z) : N * Z :=
  match fuel with
  | O => (coeff, exp)
  | S f =>
      if (exp <? ideal_exp) && (coeff mod 10 =? 0)%N
      then strip_zeros f (coeff / 10)%N (exp + 1) ideal_exp
      else (coeff, exp)
  end.

(** [a / b]. *)
Definition truediv (a b : PyDecimal) : result PyDecimal :=
  let sign := xorb (dec_sign a) (dec_sign b) in
  match _check_nans a b with
  | Some r => r
  | None =>
      match a, b with
      | Infinity _, Infinity _ => invalid_operation
      | Infinity _, _ => Ok (Infinity sign)
      | _, Infinity _ => Ok (Finite sign 0 Etiny)
      | Finite _ ca ea, Finite _ cb eb =>
          if (cb =? 0)%N then
            if (ca =? 0)%N then division_undefined else division_by_zero
          else if (ca =? 0)%N then _fix (Finite sign 0 (ea - eb))
          else
            let shift := ndigits cb - ndigits ca + prec + 1 in
            let exp := ea - eb - shift in
            let '(coeff, remainder) :=
              if 0 <=? shift
              then N.div_eucl (ca * pow10 shift) cb
              else N.div_eucl ca (cb * pow10 (- shift)) in
            let '(coeff, exp) :=
              if negb (remainder =? 0)%N
              then (if (coeff mod 5 =? 0)%N then (coeff + 1)%N else coeff, exp)
              else strip_zeros (Z.to_nat (ea - eb - exp)) coeff exp (ea - eb) in
            _fix (Finite sign coeff exp)
      | _, _ => invalid_operation
      end
  end.

(** [a * b]. *)
Definition mul (a b : PyDecimal) : result PyDecimal :=
  let sign := xorb (dec_sign a) (dec_sign b) in
  match _check_nans a b with
  | Some r => r
  | None =>
      match a, b with
      | Infinity _, _ => if is_zero b then invalid_operation else Ok (Infinity sign)
      | _, Infinity _ => if is_zero a then invalid_operation else Ok (Infinity sign)
      | Finite _ ca ea, Finite _ cb eb => _fix (Finite sign (ca * cb) (ea + eb))
      | _, _ => invalid_operation
      end
  end.

(** [str(d)]: plain notation while the exponent is at most zero and the value
    is not too small, scientific notation otherwise. *)
Definition zeros (k : Z) : string := of_chars (repeat "0"%char (Z.to_nat k)).

Definition str_Decimal (d : PyDecimal) : string :=
  let sgn (s : bool) := if s then "-" else "" in
  match d with
  | Infinity s => sgn s +:+ "Infinity"
  | NaN s false p => sgn s +:+ "NaN" +:+ str_payload p
  | NaN s true p => sgn s +:+ "sNaN" +:+ str_payload p
  | Finite s c e =>
      let int_ := chars (str_N c) in
      let len := ndigits c in
      let leftdigits := e + len in
      let dotplace := if (e <=? 0) && (leftdigits >? -6) then leftdigits else 1 in
      let '(intpart, fracpart) :=
        if dotplace <=? 0 then ("0", "." +:+ zeros (- dotplace) +:+ of_chars int_)
        else if dotplace >=? len then (of_chars int_ +:+ zeros (dotplace - len), "")
        else (of_chars (take (Z.to_nat dotplace) int_), "." +:+ of_chars (drop (Z.to_nat dotplace) int_)) in
      let exp :=
        if leftdigits =? dotplace then ""
        else "E" +:+ (if 0 <=? leftdigits - dotplace then "+" else "") +:+ str_int (leftdigits - dotplace) in
      sgn s +:+ intpart +:+ fracpart +:+ exp
  end.

(** [int(d)], truncating towards zero. *)
Definition int_Decimal (d : PyDecimal) : result Z :=
  match d with
  | NaN _ _ _ => raise ValueError "cannot convert NaN to integer"
  | Infinity _ => raise OverflowError "cannot convert Infinity to integer"
  | Finite s c e =>
      let m :=
        if 0 <=? e then Z.of_N c * 10 ^ e
        else if ndigits c <=? - e then 0      (* no digit left of the point *)
        else Z.of_N c / 10 ^ (- e) in
      Ok (if s then - m else m)
  end.

(** ** Keccak-256 and checksummed addresses

    [Web3.to_checksum_address] (eth_utils): the value is normalised to "0x"
    and forty lower-case hexadecimal digits, or rejected; each letter is then
    written in upper case when the matching digit of the Keccak-256 hash of
    the forty digits exceeds 7. *)

Module Keccak.

Definition mask64 : Z := 2 ^ 64 - 1.

Definition rol (v : Z) (n : Z) : Z :=
  Z.land (Z.lor (Z.shiftl v n) (Z.shiftr v (64 - n))) mask64.

Definition round_constants : list Z :=
  [0x0000000000000001; 0x0000000000008082; 0x800000000000808A; 0x8000000080008000;
   0x000000000000808B; 0x0000000080000001; 0x8000000080008081; 0x8000000000008009;
   0x000000000000008A; 0x0000000000000088; 0x0000000080008009; 0x000000008000000A;
   0x000000008000808B; 0x800000000000008B; 0x8000000000008089; 0x8000000000008003;
   0x8000000000008002; 0x8000000000000080; 0x000000000000800A; 0x800000008000000A;
   0x8000000080008081; 0x8000000000008080; 0x0000000080000001; 0x8000000080008008].

(** Rotation offsets, lane [(x, y)] at index [x + 5 * y]. *)
Definition rotation_offsets : list Z :=
  [0; 1; 62; 28; 27;  36; 44; 6; 55; 20;  3; 10; 43; 25; 39;
   41; 45; 15; 21; 8;  18; 2; 61; 56; 14].

Definition lane (A : list Z) (x y : nat) : Z := nth (x mod 5 + 5 * y)%nat A 0.

Definition positions : list nat := seq 0 25.

Definition theta (A : list Z) : list Z :=
  let C x := fold_right Z.lxor 0 (map (lane A x) (seq 0 5)) in
  let D x := Z.lxor (C (x + 4)%nat) (rol (C (x + 1)%nat) 1) in
  map (fun i => Z.lxor (nth i A 0) (D (i mod 5)%nat)) positions.

(** Lane [(x, y)] moves to [(y, 2x + 3y)], rotated; read backwards here. *)
Definition rho_pi (A : list Z) : list Z :=
  map (fun i =>
         let X := (i mod 5)%nat in
         let Y := (i / 5)%nat in
         let x := ((X + 3 * Y) mod 5)%nat in
         rol (lane A x X) (nth (x + 5 * X)%nat rotation_offsets 0)) positions.

Definition chi (B : list Z) : list Z :=
  map (fun i =>
         let x := (i mod 5)%nat in
         let y := (i / 5)%nat in
         Z.lxor (nth i B 0)
           (Z.land (Z.lxor (lane B (x + 1) y) mask64) (lane B (x + 2) y))) positions.

Definition iota (rc : Z) (A : list Z) : list Z :=
  match A with
  | a :: r => Z.lxor a rc :: r
  | [] => []
  end.

Definition keccak_f (A : list Z) : list Z :=
  fold_left (fun A rc => iota rc (chi (rho_pi (theta A)))) round_constants A.

Definition rate : nat := 136.

Definition pad (data : list Z) : list Z :=
  let n := (rate - length data mod rate)%nat in
  match n with
  | 1%nat => data ++ [0x81]
  | _ => data ++ [0x01] ++ repeat 0 (n - 2) ++ [0x80]
  end.

Fixpoint le_word (bytes : list Z) : Z :=
  match bytes with
  | [] => 0
  | b :: r => b + 256 * le_word r
  end.

Fixpoint words (n : nat) (bytes : list Z) : list Z :=
  match n with
  | O => []
  | S k => le_word (take 8 bytes) :: words k (drop 8 bytes)
  end.

Fixpoint xor_into (A block : list Z) : list Z :=
  match A, block with
  | a :: A', b :: block' => Z.lxor a b :: xor_into A' block'
  | _, _ => A
  end.

Fixpoint absorb (blocks : nat) (A data : list Z) : list Z :=
  match blocks with
  | O => A
  | S k => absorb k (keccak_f (xor_into A (words 17 (take rate data)))) (drop rate data)
  end.

Definition word_bytes (w : Z) : list Z :=
  map (fun i => Z.land (Z.shiftr w (8 * Z.of_nat i)) 255) (seq 0 8).

(** The 32 bytes of the digest. *)
Definition keccak256 (data : list Z) : list Z :=
  let p := pad data in
  let A := absorb (length p / rate) (repeat 0 25) p in
  concat (map word_bytes (take 4 A)).

(** [keccak(text=s).hex()]: the 64 hexadecimal digits of the digest. *)
Definition keccak_hex (s : string) : list ascii :=
  concat (map hex_byte (keccak256 (map ord (chars s)))).

End Keccak.

Definition starts_0x (l : list ascii) : bool :=
  match l with
  | z :: c :: _ => Ascii.eqb z "0" && (Ascii.eqb c "x" || Ascii.eqb c "X")
  | _ => false
  end.

Definition remove_0x_prefix (l : list ascii) : list ascii :=
  if starts_0x l then drop 2 l else l.

Definition add_0x_prefix (l : list ascii) : list ascii :=
  if starts_0x l then l else "0"%char :: "x"%char :: l.

(** A non-empty text of hexadecimal digits after an optional "0x". *)
Definition is_hexstr (l : list ascii) : bool :=
  match l with
  | [] => false
  | _ => forallb is_hex_digit (remove_0x_prefix l)
  end.

(** "0x" optional, then exactly forty hexadecimal digits. *)
Definition is_hex_address (l : list ascii) : bool :=
  let body :=
    match l with
    | z :: c :: r => if Ascii.eqb z "0" && Ascii.eqb c "x" then r else l
    | _ => l
    end in
  (length body =? 40)%nat && forallb is_hex_digit body.

Definition to_hex (v : pyval) : result (list ascii) :=
  match v with
  | PStr s =>
      let l := chars s in
      match remove_0x_prefix l with
      | [] => Ok (add_0x_prefix (map lower_char l))
      | _ => if is_hexstr l then Ok (add_0x_prefix (map lower_char l))
             else raise ValueError
                    ("when sending a str, it must be a hex string. Got: " +:+ repr_str s)
      end
  | PBool b => Ok (chars (if b then "0x1" else "0x0"))
  | PInt n => Ok (chars (py_hex n))
  | _ => raise TypeError
           ("Unsupported type: '<class '" +:+ type_name v +:+
            "'>'. Must be one of: bool, str, bytes, bytearray or int.")
  end.

Definition to_normalized_address (v : pyval) : result (list ascii) :=
  h ← to_hex v;
  let hex_address := map lower_char h in
  if is_hex_address hex_address then Ok hex_address
  else raise ValueError
         ("Unknown format " +:+ py_repr v +:+ ", attempted to normalize to "
            +:+ repr_str (of_chars hex_address)).

(** [int(c, 16)] for a hexadecimal digit. *)
Definition hex_value (c : ascii) : Z :=
  if is_digit c then ord c - 48 else if is_lower c then ord c - 87 else ord c - 55.

Definition to_checksum_address (v : pyval) : result string :=
  norm_address ← to_normalized_address v;
  let digits := remove_0x_prefix norm_address in
  let address_hash := Keccak.keccak_hex (of_chars digits) in
  Ok (of_chars (add_0x_prefix
              (map (fun hc => if 7 <? hex_value (fst hc) then upper_char (snd hc) else snd hc)
                   (combine address_hash digits)))).

(** ** Data of the SDK *)

Module requests.

(** [requests.Response].  [headers] is the store of a case-insensitive dict:
    the lower-cased name maps to the name as sent and the value.  [json] is
    the decoded body, [None] when [Response.json()] raises
    [JSONDecodeError]. *)
Record Response : Type := mkResponse {
  status_code : Z;
  text : string;
  headers : gmap string (string * string);
  json : option pyval
}.

(** [headers.get(name)]. *)
Definition get (h : gmap string (string * string)) (name : string) : option string :=
  snd <$> h !! lower name.

(** [dict(headers)]. *)
Definition to_dict (h : gmap string (string * string)) : gmap string string :=
  list_to_map (snd <$> map_to_list h).

End requests.

Module Config.

Record TachiConfig : Type := mkTachiConfig {
  network : string;
  rpc_url : string;
  private_key : option string;
  account_address : option string;
  usdc_address : option string;
  payment_processor_address : option string;
  user_agent : string;
  timeout : Z;
  max_retries : Z
}.

(** [__post_init__]: the default token contract of the network. *)
Definition __post_init__ (c : TachiConfig) : result TachiConfig :=
  let set a :=
    mkTachiConfig (network c) (rpc_url c) (private_key c) (account_address c) (Some a)
      (payment_processor_address c) (user_agent c) (timeout c) (max_retries c) in
  match usdc_address c with
  | Some _ => Ok c
  | None =>
      if String.eqb (network c) "base"
      then a ← to_checksum_address (PStr "0x833589fCD6eDb6E08f4c7C32D4f71b54bdA02913"); Ok (set a)
      else if String.eqb (network c) "base-sepolia"
      then a ← to_checksum_address (PStr "0x036CbD53842c5426634e7929541eC2318f3dCF7e"); Ok (set a)
      else Ok c
  end.

End Config.
Import Config.

(** [eth_account]'s local account: its address and the key it signs with. *)
Record Account : Type := mkAccount {
  address : string;
  key : string
}.

Record SignedTransaction : Type := mkSignedTransaction {
  rawTransaction : list Z
}.

(** [HexBytes.hex()]: "0x" and two digits per byte. *)
Definition HexBytes_hex (h : list Z) : string :=
  of_chars ("0"%char :: "x"%char :: concat (map hex_byte h)).

Record TachiResponse : Type := mkTachiResponse {
  content : string;
  status_code : Z;
  headers : gmap string string;
  payment_required : bool;
  payment_amount : pyval;
  transaction_hash : option string
}.

(** The instance: its configuration and the account set by
    [_initialize_account] ([None] without a private key).  The web3
    connection and the HTTP session are the collaborators below. *)
Record TachiSDK : Type := mkTachiSDK {
  config : TachiConfig;
  account : option Account
}.

(** ** Collaborators

    Every call that leaves the SDK is an event, answered by the environment.
    A call that can raise is answered by a [result]. *)

Inductive ContractCall : Type :=
| approve (token spender : string) (amount : Z)
| payPublisher (processor publisher : string) (amount : Z).

(** The dict passed to [build_transaction]. *)
Record TxParams : Type := mkTxParams {
  from : string;
  gas : Z;
  gasPrice : Z;
  nonce : Z
}.

Inductive event : Type -> Type :=
(* requests.Session.request *)
| SessionRequest (method url : string) (headers : gmap string string)
    (data : option string) (timeout : Z) : event (result requests.Response)
(* time.sleep *)
| Sleep (seconds : Z) : event unit
(* Web3(HTTPProvider(rpc_url)).is_connected() *)
| IsConnected (rpc_url : string) : event bool
(* Account.from_key *)
| FromKey (private_key : string) : event (result Account)
(* w3.eth.contract(address=..., abi=...) *)
| Contract (address : option string) : event (result unit)
(* contract.functions.balanceOf(owner).call() *)
| BalanceOf (token : option string) (owner : string) : event (result Z)
(* contract.functions.allowance(owner, spender).call() *)
| Allowance (token owner spender : string) : event (result Z)
(* contract.functions.<name>(args): the call checked against the ABI *)
| ContractFunction (call : ContractCall) : event (result unit)
(* w3.eth.gas_price *)
| GasPrice : event (result Z)
(* w3.eth.get_transaction_count *)
| GetTransactionCount (address : string) : event (result Z)
| BuildTransaction (call : ContractCall) (params : TxParams) : event (result pyval)
| SignTransaction (signer : Account) (tx : pyval) : event (result SignedTransaction)
| SendRawTransaction (raw : list Z) : event (result (list Z))
| WaitForTransactionReceipt (tx_hash : list Z) : event (result pyval).

(** Programs over the events: return, raise, or perform a call and go on with
    its answer. *)
Inductive prog (R : Type) : Type :=
| Return (r : R)
| Throw (e : exn)
| Perform {X : Type} (ev : event X) (k : X -> prog R).
Arguments Return {R} r.
Arguments Throw {R} e.
Arguments Perform {R X} ev k.

Fixpoint bind {A B : Type} (p : prog A) (f : A -> prog B) : prog B :=
  match p with
  | Return a => f a
  | Throw e => Throw e
  | Perform ev k => Perform ev (fun x => bind (k x) f)
  end.

#[export] Instance prog_ret : MRet prog := fun _ a => Return a.
#[export] Instance prog_bind : MBind prog := fun _ _ f p => bind p f.

(** [try: p  except Exception as error: h error]. *)
Fixpoint try_except {A : Type} (p : prog A) (h : exn -> prog A) : prog A :=
  match p with
  | Return a => Return a
  | Throw e => h e
  | Perform ev k => Perform ev (fun x => try_except (k x) h)
  end.

(** A pure computation that may raise. *)
Definition lift {A : Type} (r : result A) : prog A :=
  match r with
  | Ok a => Return a
  | Raise e => Throw e
  end.

(** A call whose answer is returned as it is. *)
Definition perform {X : Type} (ev : event X) : prog X := Perform ev Return.

(** A call that returns or raises. *)
Definition call {A : Type} (ev : event (result A)) : prog A := Perform ev lift.

(** The environment: answers to the calls, from a world it may change. *)
Definition handler (W : Type) : Type := forall X : Type, event X -> W -> X * W.

(** One performed call with its answer. *)
Inductive entry : Type :=
| Called {X : Type} (ev : event X) (answer : X).

(** The outcome of a program in an environment, the final world and the log
    of the calls in the order they were made. *)
Fixpoint run {W R : Type} (h : handler W) (p : prog R) (w : W) : result R * W * list entry :=
  match p with
  | Return r => (Ok r, w, [])
  | Throw e => (Raise e, w, [])
  | Perform ev k =>
      let '(x, w') := h _ ev w in
      let '(r, w'', log) := run h (k x) w' in
      (r, w'', Called ev x :: log)
  end.

Definition outcome {W R : Type} (h : handler W) (p : prog R) (w : W) : result R :=
  fst (fst (run h p w)).

Definition calls {W R : Type} (h : handler W) (p : prog R) (w : W) : list entry :=
  snd (run h p w).

(** Observations on the log. *)
Definition is_request (e : entry) : bool :=
  match e with Called (SessionRequest _ _ _ _ _) _ => true | _ => false end.

Definition is_send (e : entry) : bool :=
  match e with Called (SendRawTransaction _) _ => true | _ => false end.

(** Building or signing a transaction, or sending one. *)
Definition is_transaction_step (e : entry) : bool :=
  match e with
  | Called (ContractFunction _) _ | Called (BuildTransaction _ _) _
  | Called (SignTransaction _ _) _ | Called (SendRawTransaction _) _ => true
  | _ => false
  end.

(** A step of the approval: the [approve] call checked or built. *)
Definition is_approval_step (e : entry) : bool :=
  match e with
  | Called (ContractFunction (approve _ _ _)) _
  | Called (BuildTransaction (approve _ _ _) _) _ => true
  | _ => false
  end.

(** A read of the ledger. *)
Definition is_ledger_query (e : entry) : bool :=
  match e with
  | Called (BalanceOf _ _) _ | Called (Allowance _ _ _) _
  | Called GasPrice _ | Called (GetTransactionCount _) _ => true
  | _ => false
  end.

Definition sleeps (log : list entry) : list Z :=
  omap (fun e => match e with Called (Sleep n) _ => Some n | _ => None end) log.

Definition requests_made (log : list entry) : nat := length (List.filter is_request log).

Definition transactions_sent (log : list entry) : nat := length (List.filter is_send log).

(** ** The SDK

    Logging is left out: it has no effect on results; the one logged value
    whose computation can raise ([Decimal(balance) / Decimal(10**6)]) is
    still computed where the source computes it. *)

Definition _initialize_web3 (c : TachiConfig) : prog unit :=
  connected ← perform (IsConnected (rpc_url c));
  if connected : bool then Return tt
  else Throw (NetworkError ("Failed to connect to RPC endpoint: " +:+ rpc_url c) NoDetails).

Definition _initialize_account (c : TachiConfig) : prog (option Account) :=
  match private_key c with
  | Some k =>
      if truthy (PStr k) then a ← call (FromKey k); Return (Some a)
      else Return None
  | None => Return None
  end.

Definition __init__ (c : TachiConfig) : prog TachiSDK :=
  _ ← _initialize_web3 c;
  a ← _initialize_account c;
  Return (mkTachiSDK c a).

(** [range(start, stop)]. *)
Definition range (start stop : Z) : list Z :=
  map (fun i => start + Z.of_nat i) (seq 0 (Z.to_nat (stop - start))).

(** The body of [for attempt in range(1, max_retries + 1)], with the
    statement after the loop as the empty case. *)
Fixpoint attempt_loop (self : TachiSDK) (url method : string) (headers : gmap string string)
    (body : option string) (attempts : list Z) (last_error : option exn) : prog requests.Response :=
  match attempts with
  | [] =>
      Throw (NetworkError
               ("Request failed: " +:+ from_option exn_str "None" last_error) NoDetails)
  | attempt :: rest =>
      r ← perform (SessionRequest method url headers body (timeout (config self)));
      match r with
      | Ok response => Return response
      | Raise error =>
          if is_RequestException error then
            if attempt =? max_retries (config self) then
              Throw (NetworkError
                       ("Request failed after " +:+ str_int (max_retries (config self))
                          +:+ " attempts")
                       (RequestDetails url (exn_str error)))
            else
              _ ← perform (Sleep (2 ^ attempt));
              attempt_loop self url method headers body rest (Some error)
          else Throw error
      end
  end.

Definition _make_http_request (self : TachiSDK) (url method : string)
    (headers : gmap string string) (body : option string) : prog requests.Response :=
  let headers := <["User-Agent" := user_agent (config self)]> headers in
  attempt_loop self url method headers body (range 1 (max_retries (config self) + 1)) None.

(** [headers.get(name)] as a value: the text or [None]. *)
Definition header (response : requests.Response) (name : string) : pyval :=
  from_option PStr PNone (requests.get (requests.headers response) name).

(** [body.get('payment', {}).get(key, dflt)]. *)
Definition payment_field (body : pyval) (key : string) (dflt : pyval) : result pyval :=
  payment ← py_get body "payment" (PDict []);
  py_get payment key dflt.

(** [a or b], [b] evaluated only when [a] is falsy. *)
Definition or_else (a : pyval) (b : result pyval) : result pyval :=
  if truthy a then Ok a else b.

(** [currency == 'USDC']. *)
Definition is_USDC (currency : pyval) : bool :=
  match currency with
  | PStr c => String.eqb c "USDC"
  | _ => false
  end.

Definition _parse_payment_info (response : requests.Response) : result PaymentInfo :=
  let body := default (PDict []) (requests.json response) in
  let price := header response "x402-price" in
  let currency := header response "x402-currency" in
  let recipient := header response "x402-recipient" in
  let token_address := header response "x402-contract" in
  let chain_id := header response "x402-chain-id" in
  amount ← or_else price (payment_field body "amount" (PStr "0"));
  amount ←
    (if truthy price && is_USDC currency
     then d ← Decimal_of price;
          q ← truediv d (Decimal_of_int (10 ^ 6));
          Ok (PStr (str_Decimal q))
     else Ok amount);
  currency ← or_else currency (payment_field body "currency" (PStr "USDC"));
  network ← payment_field body "network" (PStr "Base");
  chain_id ← or_else chain_id (payment_field body "chainId" (PInt 8453));
  chain_id ← py_int chain_id;
  recipient ← or_else recipient (payment_field body "recipient" (PStr ""));
  recipient ← to_checksum_address recipient;
  token_address ← or_else token_address (payment_field body "tokenAddress" (PStr ""));
  token_address ← to_checksum_address token_address;
  token_id ← payment_field body "tokenId" PNone;
  let payment_info :=
    mkPaymentInfo amount currency network chain_id recipient token_address token_id in
  if negb (truthy (PStr recipient)) || negb (truthy (PStr token_address))
  then Raise (PaymentError "Invalid payment information in 402 response"
                (InfoDetails payment_info))
  else Ok payment_info.

(** [int(Decimal(payment_info['amount']) * Decimal(10**6))]. *)
Definition amount_in_wei (payment_info : PaymentInfo) : result Z :=
  d ← Decimal_of (amount payment_info);
  m ← mul d (Decimal_of_int (10 ^ 6));
  int_Decimal m.

(** [str(Decimal(balance) / Decimal(10**6))]. *)
Definition balance_in_usdc (balance : Z) : result string :=
  q ← truediv (Decimal_of_int balance) (Decimal_of_int (10 ^ 6));
  Ok (str_Decimal q).

Definition _process_payment (self : TachiSDK) (payment_info : PaymentInfo) : prog string :=
  match account self with
  | None =>
      Throw (PaymentError "Account not initialized. Private key required for payments."
               NoDetails)
  | Some account =>
      amount_in_wei ← lift (amount_in_wei payment_info);
      try_except
        (_ ← call (Contract (Some (token_address payment_info)));
         balance ← call (BalanceOf (Some (token_address payment_info)) (address account));
         available ← lift (balance_in_usdc balance);
         if balance <? amount_in_wei then
           Throw (PaymentError
                    ("Insufficient USDC balance. Required: " +:+ py_str (amount payment_info)
                       +:+ ", Available: " +:+ available)
                    (BalanceDetails (amount payment_info) available))
         else
           allowance ← call (Allowance (token_address payment_info) (address account)
                               (recipient payment_info));
           _ ← (if allowance <? amount_in_wei then
                  let approval :=
                    approve (token_address payment_info) (recipient payment_info)
                      amount_in_wei in
                  _ ← call (ContractFunction approval);
                  gas_price ← call GasPrice;
                  nonce ← call (GetTransactionCount (address account));
                  approve_tx ← call (BuildTransaction approval
                                       (mkTxParams (address account) 100000 gas_price nonce));
                  signed_approve_tx ← call (SignTransaction account approve_tx);
                  approve_tx_hash ← call (SendRawTransaction (rawTransaction signed_approve_tx));
                  _ ← call (WaitForTransactionReceipt approve_tx_hash);
                  Return tt
                else Return tt);
           _ ← call (Contract (Some (recipient payment_info)));
           let publisher_address :=
             match payment_processor_address (config self) with
             | Some a => if truthy (PStr a) then a else recipient payment_info
             | None => recipient payment_info
             end in
           let payment :=
             payPublisher (recipient payment_info) publisher_address amount_in_wei in
           _ ← call (ContractFunction payment);
           gas_price ← call GasPrice;
           nonce ← call (GetTransactionCount (address account));
           payment_tx ← call (BuildTransaction payment
                                (mkTxParams (address account) 200000 gas_price nonce));
           signed_payment_tx ← call (SignTransaction account payment_tx);
           payment_tx_hash ← call (SendRawTransaction (rawTransaction signed_payment_tx));
           _ ← call (WaitForTransactionReceipt payment_tx_hash);
           Return (HexBytes_hex payment_tx_hash))
        (fun error =>
           Throw (PaymentError ("Payment transaction failed: " +:+ exn_str error)
                    (FailureDetails payment_info (exn_str error))))
  end.

Definition fetch_with_tachi (self : TachiSDK) (url method : string)
    (headers : option (gmap string string)) (body : option string) : prog TachiResponse :=
  let headers := default ∅ headers in
  initial_response ← _make_http_request self url method headers body;
  if negb (requests.status_code initial_response =? 402) then
    Return (mkTachiResponse
              (requests.text initial_response)
              (requests.status_code initial_response)
              (requests.to_dict (requests.headers initial_response))
              false PNone None)
  else
    payment_info ← lift (_parse_payment_info initial_response);
    transaction_hash ← _process_payment self payment_info;
    let auth_headers := <["Authorization" := "Bearer " +:+ transaction_hash]> headers in
    paid_response ← _make_http_request self url method auth_headers body;
    if negb (requests.status_code paid_response =? 200) then
      Throw (PaymentError
               ("Payment verification failed: " +:+ str_int (requests.status_code paid_response))
               (VerificationDetails transaction_hash (requests.status_code paid_response)))
    else
      Return (mkTachiResponse
                (requests.text paid_response)
                (requests.status_code paid_response)
                (requests.to_dict (requests.headers paid_response))
                true (amount payment_info) (Some transaction_hash)).

(** The dict returned by [get_usdc_balance]. *)
Record Balance : Type := mkBalance {
  wei : Z;
  formatted : string
}.

Definition get_usdc_balance (self : TachiSDK) : prog Balance :=
  match account self with
  | None => Throw (TachiError "Account not initialized. Private key required." "CONFIG_ERROR"
                     NoDetails)
  | Some account =>
      _ ← call (Contract (usdc_address (config self)));
      balance ← call (BalanceOf (usdc_address (config self)) (address account));
      formatted ← lift (balance_in_usdc balance);
      Return (mkBalance balance formatted)
  end.

(** [get_account_address]. *)
Definition get_account_address (self : TachiSDK) : option string :=
  address <$> account self.

(** ** A scripted environment

    A world for running the SDK on concrete inputs: the answers of the HTTP
    server in the order they will be given (a transport failure once the
    script is exhausted), a token balance and allowance, and the raw
    transactions sent so far.  An [approve] that is sent raises the
    allowance; transaction hashes number the transactions. *)

Record World : Type := mkWorld {
  script : list (result requests.Response);
  balance : Z;
  allowance : Z;
  sent : list (list Z)
}.

Definition connection_refused : exn := PyError RequestException "Connection refused".

Definition encode_call (c : ContractCall) : list Z :=
  match c with
  | approve _ _ amount => [1; amount]
  | payPublisher _ _ amount => [2; amount]
  end.

Definition describe_call (c : ContractCall) (p : TxParams) : pyval :=
  PDict [("data", PList (map PInt (encode_call c)));
         ("from", PStr (from p)); ("gas", PInt (gas p));
         ("gasPrice", PInt (gasPrice p)); ("nonce", PInt (nonce p))].

Definition raw_of (tx : pyval) : list Z :=
  match tx with
  | PDict ((k, PList [PInt kind; PInt amount]) :: _) =>
      if String.eqb k "data" then [kind; amount] else []
  | _ => []
  end.

Definition scripted : handler World := fun X ev =>
  match ev in event X return World -> X * World with
  | SessionRequest _ _ _ _ _ => fun w =>
      match script w with
      | r :: rest => (r, mkWorld rest (balance w) (allowance w) (sent w))
      | [] => (Raise connection_refused, w)
      end
  | Sleep _ => fun w => (tt, w)
  | IsConnected _ => fun w => (true, w)
  | FromKey k => fun w => (Ok (mkAccount "0x1111111111111111111111111111111111111111" k), w)
  | Contract _ => fun w => (Ok tt, w)
  | BalanceOf _ _ => fun w => (Ok (balance w), w)
  | Allowance _ _ _ => fun w => (Ok (allowance w), w)
  | ContractFunction _ => fun w => (Ok tt, w)
  | GasPrice => fun w => (Ok 1000, w)
  | GetTransactionCount _ => fun w => (Ok (Z.of_nat (length (sent w))), w)
  | BuildTransaction c p => fun w => (Ok (describe_call c p), w)
  | SignTransaction _ tx => fun w => (Ok (mkSignedTransaction (raw_of tx)), w)
  | SendRawTransaction raw => fun w =>
      let allowance' :=
        match raw with
        | [1; amount] => amount
        | _ => allowance w
        end in
      (Ok [171; Z.of_nat (length (sent w))],
       mkWorld (script w) (balance w) allowance' (sent w ++ [raw]))
  | WaitForTransactionReceipt _ => fun w => (Ok (PDict [("status", PInt 1)]), w)
  end.

(** The same environment with the network down: every request fails. *)
Definition unplugged : handler World := fun X ev =>
  match ev in event X return World -> X * World with
  | SessionRequest _ _ _ _ _ => fun w => (Raise connection_refused, w)
  | ev' => scripted _ ev'
  end.

(** The case-insensitive store of a list of headers. *)
Definition headers_of (l : list (string * string)) : gmap string (string * string) :=
  list_to_map (map (fun kv => (lower (fst kv), kv)) l).

Definition usdc_sepolia : string := "0x036CbD53842c5426634e7929541eC2318f3dCF7e".
Definition processor : string := "0x833589fCD6eDb6E08f4c7C32D4f71b54bdA02913".

(** A 402 answer with its terms in the headers. *)
Definition payment_required_response (price currency : string) : requests.Response :=
  requests.mkResponse 402 "Payment Required"
    (headers_of [("x402-price", price); ("x402-currency", currency);
                 ("x402-recipient", processor); ("x402-contract", usdc_sepolia);
                 ("x402-chain-id", "84532")])
    None.

(** The terms parsed from such an answer. *)
Definition terms (amount currency : pyval) : PaymentInfo :=
  mkPaymentInfo amount currency (PStr "Base") 84532 processor usdc_sepolia PNone.

Definition page (status : Z) (body : string) : requests.Response :=
  requests.mkResponse status body (headers_of [("Content-Type", "text/html")]) None.

Definition sepolia_config (key : option string) (retries : Z) : TachiConfig :=
  mkTachiConfig "base-sepolia" "https://sepolia.base.org" key None (Some usdc_sepolia) None
    "TachiSDK-Python/1.0" 30 retries.

Definition crawler (retries : Z) : TachiSDK :=
  mkTachiSDK (sepolia_config (Some "0xkey") retries)
    (Some (mkAccount "0x1111111111111111111111111111111111111111" "0xkey")).

(** ** Vocabulary of the statements *)

(** What the library conversions raise is never one of the SDK's errors. *)
Definition library_outcome {A : Type} (r : result A) : Prop :=
  match r with
  | Ok _ | Raise (PyError _ _) => True
  | Raise _ => False
  end.

(** A transport that fails on every attempt: whatever the request and the
    state of the world, the session raises a [RequestException]. *)
Definition transport_fails {W : Type} (h : handler W) : Prop :=
  forall method url headers data timeout w,
    exists d, fst (h _ (SessionRequest method url headers data timeout) w)
              = Raise (PyError RequestException d).

(** The answer of the balance query, and of the allowance query. *)
Definition balance_answer (e : entry) : option Z :=
  match e with
  | Called (BalanceOf _ _) (Ok b) => Some b
  | _ => None
  end.

Definition allowance_answer (e : entry) : option Z :=
  match e with
  | Called (Allowance _ _ _) (Ok a) => Some a
  | _ => None
  end.

Definition balance_read (log : list entry) : option Z := head (omap balance_answer log).
Definition allowance_read (log : list entry) : option Z := head (omap allowance_answer log).

(** The hash a submission returned; the last one of a log. *)
Definition sent_hash (e : entry) : option (list Z) :=
  match e with
  | Called (SendRawTransaction _) (Ok h) => Some h
  | _ => None
  end.

Definition last_sent (log : list entry) : option (list Z) := last (omap sent_hash log).

(** The headers a request carried, and the response it got. *)
Definition request_headers (e : entry) : option (gmap string string) :=
  match e with
  | Called (SessionRequest _ _ hs _ _) _ => Some hs
  | _ => None
  end.

Definition response_of (e : entry) : option requests.Response :=
  match e with
  | Called (SessionRequest _ _ _ _ _) (Ok r) => Some r
  | _ => None
  end.

(** A call of the HTTP client: a request or a pause. *)
Definition is_http (e : entry) : bool :=
  match e with
  | Called (SessionRequest _ _ _ _ _) _ | Called (Sleep _) _ => true
  | _ => false
  end.

(** What was called after the last submission of a transaction (the whole log
    when nothing was submitted). *)
Fixpoint after_last_send (log : list entry) : list entry :=
  match log with
  | [] => []
  | e :: rest => if existsb is_send log then after_last_send rest else log
  end.

(** A call of [_make_http_request] logs only requests and pauses; every
    request carries the headers it was given plus the user agent; when it
    returns, the response is the answer to the last request and no earlier
    request was answered; when it raises, no request was answered. *)
Definition http_log (req : entry -> Prop) (headers : gmap string string)
    (r : result requests.Response) (l : list entry) : Prop :=
  Forall (fun e => is_http e = true) l
  /\ Forall (fun hs => hs = headers) (omap request_headers l)
  /\ match r with
     | Ok response =>
         exists l0 e, l = l0 ++ [e] /\ req e /\ response_of e = Some response
                      /\ omap response_of l0 = []
     | Raise _ => omap response_of l = []
     end.

(** ** Example inputs *)

Definition bare_402 : requests.Response :=
  requests.mkResponse 402 "Payment Required" ∅ (Some (PDict [])).

(** A configuration with an account address and no private key. *)
Definition read_only_config : TachiConfig :=
  mkTachiConfig "base-sepolia" "https://sepolia.base.org" None
    (Some "0x1111111111111111111111111111111111111111") (Some usdc_sepolia) None
    "TachiSDK-Python/1.0" 30 3.

(** A 402 answer whose price header is present but empty, the amount being
    in the body. *)
Definition empty_price_402 : requests.Response :=
  requests.mkResponse 402 "Payment Required"
    (headers_of [("x402-price", ""); ("x402-recipient", processor);
                 ("x402-contract", usdc_sepolia)])
    (Some (PDict [("payment", PDict [("amount", PStr "5")])])).

(** ** The converted fields of the terms *)

(** The fields of the terms that are converted: each is the header when it
    is present and not empty, the entry of the body's [payment] object
    otherwise.

    [int(chain_id or body.get('payment', {}).get('chainId', 8453))]. *)
Definition parsed_chain_id (response : requests.Response) : result Z :=
  let body := default (PDict []) (requests.json response) in
  chain_id ← or_else (header response "x402-chain-id")
               (payment_field body "chainId" (PInt 8453));
  py_int chain_id.

(** [Web3.to_checksum_address(recipient or
    body.get('payment', {}).get('recipient', ''))]. *)
Definition parsed_recipient (response : requests.Response) : result string :=
  let body := default (PDict []) (requests.json response) in
  recipient ← or_else (header response "x402-recipient")
                (payment_field body "recipient" (PStr ""));
  to_checksum_address recipient.

(** [Web3.to_checksum_address(token_address or
    body.get('payment', {}).get('tokenAddress', ''))]. *)
Definition parsed_token_address (response : requests.Response) : result string :=
  let body := default (PDict []) (requests.json response) in
  token_address ← or_else (header response "x402-contract")
                    (payment_field body "tokenAddress" (PStr ""));
  to_checksum_address token_address.

(** [body.get('payment', {})]: the object the body fields are read from. *)
Definition payment_object (response : requests.Response) : result pyval :=
  py_get (default (PDict []) (requests.json response)) "payment" (PDict []).

(** ** Further vocabulary *)

(** The arguments of a request: method, URL, headers, body and timeout. *)
Definition request_of (e : entry)
    : option (string * string * gmap string string * option string * Z) :=
  match e with
  | Called (SessionRequest method url hs data tmo) _ => Some (method, url, hs, data, tmo)
  | _ => None
  end.

(** The exception a request was answered with. *)
Definition failure_of (e : entry) : option exn :=
  match e with
  | Called (SessionRequest _ _ _ _ _) (Raise error) => Some error
  | _ => None
  end.

(** A 402 answer whose terms are in the body only. *)
Definition body_only_402 : requests.Response :=
  requests.mkResponse 402 "Payment Required"
    (headers_of [("Content-Type", "application/json")])
    (Some (PDict [("payment", PDict [("recipient", PStr processor);
                                     ("tokenAddress", PStr usdc_sepolia)])])).

(** A 402 answer with the five headers and a JSON body that is a list. *)
Definition list_body_402 : requests.Response :=
  requests.mkResponse 402 "Payment Required"
    (headers_of [("x402-price", "1000000"); ("x402-currency", "USDC");
                 ("x402-recipient", processor); ("x402-contract", usdc_sepolia);
                 ("x402-chain-id", "84532")])
    (Some (PList [])).

(** The names of the headers that carry terms. *)
Definition x402_headers : list string :=
  ["x402-price"; "x402-currency"; "x402-recipient"; "x402-contract"; "x402-chain-id"].

(** [AttributeError] of a [get] on a value that is not a dict. *)
Definition no_get (v : pyval) : exn :=
  PyError AttributeError ("'" +:+ type_name v +:+ "' object has no attribute 'get'").

(** The call and the parameters of a transaction that was built, and the
    transaction the build returned. *)
Definition build_of (e : entry) : option (ContractCall * TxParams) :=
  match e with
  | Called (BuildTransaction c p) _ => Some (c, p)
  | _ => None
  end.

Definition built_tx (e : entry) : option pyval :=
  match e with
  | Called (BuildTransaction _ _) (Ok tx) => Some tx
  | _ => None
  end.

(** The signer and the transaction of a signature, and the raw bytes the
    signature returned. *)
Definition signed_tx (e : entry) : option (Account * pyval) :=
  match e with
  | Called (SignTransaction signer tx) _ => Some (signer, tx)
  | _ => None
  end.

Definition signed_raw (e : entry) : option (list Z) :=
  match e with
  | Called (SignTransaction _ _) (Ok signed) => Some (rawTransaction signed)
  | _ => None
  end.

(** The raw bytes of a submission, and the hash whose receipt was obtained. *)
Definition sent_raw (e : entry) : option (list Z) :=
  match e with
  | Called (SendRawTransaction raw) _ => Some raw
  | _ => None
  end.

Definition confirmed_hash (e : entry) : option (list Z) :=
  match e with
  | Called (WaitForTransactionReceipt tx_hash) (Ok _) => Some tx_hash
  | _ => None
  end.

(** The answers of the gas price and of the transaction count queries. *)
Definition gas_price_answer (e : entry) : option Z :=
  match e with
  | Called GasPrice (Ok p) => Some p
  | _ => None
  end.

Definition nonce_answer (e : entry) : option Z :=
  match e with
  | Called (GetTransactionCount _) (Ok n) => Some n
  | _ => None
  end.

(** [self.config.payment_processor_address or payment_info['recipient']]. *)
Definition publisher_of (self : TachiSDK) (payment_info : PaymentInfo) : string :=
  match payment_processor_address (config self) with
  | Some a => if truthy (PStr a) then a else recipient payment_info
  | None => recipient payment_info
  end.

(** The account [Account.from_key] returned. *)
Definition key_answer (e : entry) : option Account :=
  match e with
  | Called (FromKey _) (Ok a) => Some a
  | _ => None
  end.

(** A node that does not answer: the same environment with
    [is_connected()] false. *)
Definition offline : handler World := fun X ev =>
  match ev in event X return World -> X * World with
  | IsConnected _ => fun w => (false, w)
  | ev' => scripted _ ev'
  end.

(** ** The convenience functions of the module *)

(** The keyword arguments a caller may add to the factories: the fields of
    [TachiConfig] that the factories do not set themselves ([None]: not
    given).  Other keywords are a [TypeError] of the call and are not
    modelled. *)
Record Kwargs : Type := mkKwargs {
  kw_account_address : option string;
  kw_usdc_address : option string;
  kw_user_agent : option string;
  kw_timeout : option Z;
  kw_max_retries : option Z
}.

(** [TachiConfig(network=..., rpc_url=..., private_key=...,
    payment_processor_address=..., **kwargs)]: the generated constructor
    with the defaults of the fields, then [__post_init__]. *)
Definition new_TachiConfig (network rpc_url : string) (private_key : option string)
    (payment_processor_address : option string) (kwargs : Kwargs) : result TachiConfig :=
  __post_init__
    (mkTachiConfig network rpc_url private_key (kw_account_address kwargs)
       (kw_usdc_address kwargs) payment_processor_address
       (default "TachiSDK-Python/1.0" (kw_user_agent kwargs))
       (default 30 (kw_timeout kwargs))
       (default 3 (kw_max_retries kwargs))).

Definition create_base_sdk (rpc_url : string) (private_key : option string)
    (payment_processor_address : option string) (kwargs : Kwargs) : prog TachiSDK :=
  config ← lift (new_TachiConfig "base" rpc_url private_key payment_processor_address kwargs);
  __init__ config.

Definition create_base_sepolia_sdk (rpc_url : string) (private_key : option string)
    (payment_processor_address : option string) (kwargs : Kwargs) : prog TachiSDK :=
  config ← lift (new_TachiConfig "base-sepolia" rpc_url private_key
                   payment_processor_address kwargs);
  __init__ config.

(** The function [fetch_with_tachi] of the module: a new instance for each
    call. *)
Module convenience.

Definition fetch_with_tachi (url : string) (config : TachiConfig) (method : string)
    (headers : option (gmap string string)) (body : option string) : prog TachiResponse :=
  sdk ← __init__ config;
  fetch_with_tachi sdk url method headers body.

End convenience.

(** A character of the plain notation: a digit or the point. *)
Definition plain (c : ascii) : Prop := is_digit c = true \/ c = "."%char.

(** The amount of a contract call. *)
Definition amount_of (c : ContractCall) : Z :=
  match c with
  | approve _ _ amount | payPublisher _ _ amount => amount
  end.

(** * Properties *)

(** ** Running composed programs *)

Lemma run_bind {W A B : Type} (h : handler W) (p : prog A) (f : A -> prog B) (w : W) :
  run h (bind p f) w =
    let '(r, w1, l1) := run h p w in
    match r with
    | Ok a => let '(r2, w2, l2) := run h (f a) w1 in (r2, w2, l1 ++ l2)
    | Raise e => (Raise e, w1, l1)
    end.
Proof.
  revert w. induction p as [a | e | X ev k IH]; intros w; simpl.
  - destruct (run h (f a) w) as [[r2 w2] l2]. reflexivity.
  - reflexivity.
  - destruct (h X ev w) as [x w']. rewrite IH.
    destruct (run h (k x) w') as [[[a | e] w1] l1].
    + destruct (run h (f a) w1) as [[r2 w2] l2]. reflexivity.
    + reflexivity.
Qed.

Lemma run_try_except {W A : Type} (h : handler W) (p : prog A) (g : exn -> prog A) (w : W) :
  run h (try_except p g) w =
    let '(r, w1, l1) := run h p w in
    match r with
    | Ok a => (Ok a, w1, l1)
    | Raise e => let '(r2, w2, l2) := run h (g e) w1 in (r2, w2, l1 ++ l2)
    end.
Proof.
  revert w. induction p as [a | e | X ev k IH]; intros w; simpl.
  - reflexivity.
  - destruct (run h (g e) w) as [[r2 w2] l2]. reflexivity.
  - destruct (h X ev w) as [x w']. rewrite IH.
    destruct (run h (k x) w') as [[[a | e] w1] l1].
    + reflexivity.
    + destruct (run h (g e) w1) as [[r2 w2] l2]. reflexivity.
Qed.

Lemma run_lift {W A : Type} (h : handler W) (r : result A) (w : W) :
  run h (lift r) w = (r, w, []).
Proof. destruct r; reflexivity. Qed.

(** ** The HTTP client: bounded retry *)

(** C5, as the code has it: with [max_retries = 2] and a transport that
    fails on every attempt, the client makes exactly two requests with one
    pause of 2 between them -- the second failure raises at once, nothing
    sleeps for 4 -- and raises a [NetworkError] whose message carries the
    number of attempts and whose details carry the description of the last
    failure. *)
Theorem retry_two_attempts_one_pause {W : Type} (h : handler W) (w : W)
    (self : TachiSDK) (url method : string) (headers : gmap string string)
    (body : option string) :
  max_retries (config self) = 2 ->
  transport_fails h ->
  exists d1 d2,
    calls h (_make_http_request self url method headers body) w =
      [Called (SessionRequest method url (<["User-Agent" := user_agent (config self)]> headers)
                 body (timeout (config self)))
              (Raise (PyError RequestException d1));
       Called (Sleep 2) tt;
       Called (SessionRequest method url (<["User-Agent" := user_agent (config self)]> headers)
                 body (timeout (config self)))
              (Raise (PyError RequestException d2))]
    /\ outcome h (_make_http_request self url method headers body) w =
         Raise (NetworkError "Request failed after 2 attempts" (RequestDetails url d2)).
Proof.
  intros Hmax Hfail.
  destruct self as [[net rpc pk aa ua ppa agent tmo retries] acct].
  simpl in Hmax. subst retries.
  unfold calls, outcome, _make_http_request. simpl config. simpl max_retries.
  change (range 1 (2 + 1)) with [1; 2].
  simpl user_agent. simpl timeout.
  set (hd := <["User-Agent" := agent]> headers).
  simpl.
  destruct (Hfail method url hd body tmo w) as [d1 H1].
  destruct (h _ (SessionRequest method url hd body tmo) w) as [r1 w1].
  simpl in H1. subst r1. simpl. change (2 ^ 1) with 2.
  destruct (h _ (Sleep 2) w1) as [[] w2].
  destruct (Hfail method url hd body tmo w2) as [d2 H2].
  destruct (h _ (SessionRequest method url hd body tmo) w2) as [r2 w3].
  simpl in H2. subst r2. simpl.
  exists d1, d2. split; reflexivity.
Qed.

Lemma retry_two_attempts_one_pause_witness :
  exists d1 d2,
    calls unplugged (_make_http_request (crawler 2) "https://example.com/a" "GET" ∅ None)
      (mkWorld [] 0 0 []) =
      [Called (SessionRequest "GET" "https://example.com/a"
                 (<["User-Agent" := "TachiSDK-Python/1.0"]> ∅) None 30)
              (Raise (PyError RequestException d1));
       Called (Sleep 2) tt;
       Called (SessionRequest "GET" "https://example.com/a"
                 (<["User-Agent" := "TachiSDK-Python/1.0"]> ∅) None 30)
              (Raise (PyError RequestException d2))]
    /\ outcome unplugged (_make_http_request (crawler 2) "https://example.com/a" "GET" ∅ None)
         (mkWorld [] 0 0 []) =
         Raise (NetworkError "Request failed after 2 attempts"
                  (RequestDetails "https://example.com/a" d2)).
Proof.
  apply (retry_two_attempts_one_pause unplugged (mkWorld [] 0 0 []) (crawler 2)).
  - reflexivity.
  - intros method url headers data timeout w. exists "Connection refused". reflexivity.
Defined.

(** C5, as stated, fails: the pauses are not 2 and 4; after the second (last)
    failure the client raises without sleeping. *)
Lemma retry_no_pause_after_last_attempt :
  let log := calls unplugged
               (_make_http_request (crawler 2) "https://example.com/a" "GET" ∅ None)
               (mkWorld [] 0 0 []) in
  requests_made log = 2%nat /\ sleeps log = [2] /\ sleeps log <> [2; 4].
Proof. vm_compute. repeat split; congruence. Qed.

(** ** The terms parser *)

Lemma library_bind {A B : Type} (r : result A) (f : A -> result B) :
  library_outcome r -> (forall a, library_outcome (f a)) -> library_outcome (r ≫= f).
Proof. destruct r as [a | e]; simpl; auto. Qed.

Lemma library_exact s c e : library_outcome (exact s c e).
Proof. unfold exact. repeat case_match; exact I. Qed.

Lemma library__fix d : library_outcome (_fix d).
Proof. unfold _fix. repeat case_match; exact I. Qed.

Lemma library_parse_number s l r : parse_number s l = Some r -> library_outcome r.
Proof.
  unfold parse_number.
  destruct (span is_digit l) as [ip r1].
  destruct (match r1 with
            | c :: r => if Ascii.eqb c "." then span is_digit r else ([], r1)
            | [] => ([], r1)
            end) as [fp r2].
  destruct ip, fp; try discriminate; intros H;
    apply bind_Some in H as (e & _ & [= <-]); apply library_exact.
Qed.

Lemma library_parse_special s l r : parse_special s l = Some r -> library_outcome r.
Proof.
  unfold parse_special.
  destruct (_ || _); [intros [= <-]; exact I |].
  destruct (match l with
            | c :: r => if Ascii.eqb c "s" then (true, r) else (false, l)
            | [] => (false, l)
            end) as [sig r0].
  destruct (String.eqb _ "nan"); [| discriminate].
  destruct (all_digits _); [intros [= <-]; exact I | discriminate].
Qed.

Lemma library_Decimal_of_str s : library_outcome (Decimal_of_str s).
Proof.
  unfold Decimal_of_str.
  destruct (split_sign _) as [sg body].
  destruct (parse_number sg body) as [r |] eqn:Hn; [eauto using library_parse_number |].
  destruct (parse_special sg body) as [r |] eqn:Hs; [eauto using library_parse_special |].
  exact I.
Qed.

Lemma library_as_long what v r : as_long what v = Some r -> library_outcome r.
Proof. destruct v; simpl; intros [= <-]; try exact I. destruct (fits_word n); exact I. Qed.

Lemma library_tuple_digits l acc : library_outcome (tuple_digits l acc).
Proof.
  revert acc. induction l as [| v r IH]; intros acc; simpl; [exact I |].
  destruct (as_long "long" v) as [d |] eqn:Hd; [| exact I].
  apply library_bind; [eauto using library_as_long |].
  intros n. destruct (_ && _); [apply IH | exact I].
Qed.

Lemma library_tuple_sign v : library_outcome (tuple_sign v).
Proof.
  unfold tuple_sign. destruct (as_long "long" v) as [d |] eqn:Hd; [| exact I].
  apply library_bind; [eauto using library_as_long |].
  intros n. repeat case_match; exact I.
Qed.

Lemma library_tuple_exponent v : library_outcome (tuple_exponent v).
Proof.
  unfold tuple_exponent.
  destruct v; try exact I;
    try (destruct (as_long "ssize_t" _) as [d |] eqn:Hd; [| exact I];
         apply library_bind; [eauto using library_as_long | intros; exact I]).
  repeat case_match; exact I.
Qed.

Lemma library_Decimal_of_list l : library_outcome (Decimal_of_list l).
Proof.
  unfold Decimal_of_list.
  destruct l as [| v0 [| v1 [| v2 [| ? ?]]]]; try exact I.
  apply library_bind; [apply library_tuple_sign |]. intros s.
  apply library_bind; [apply library_tuple_exponent |]. intros e.
  destruct v1; try exact I.
  apply library_bind; [apply library_tuple_digits |]. intros c.
  destruct e as [n | [sig |]]; try exact I. apply library_exact.
Qed.

Lemma library_Decimal_of v : library_outcome (Decimal_of v).
Proof.
  destruct v; simpl; try exact I.
  - apply library_Decimal_of_str.
  - apply library_Decimal_of_list.
Qed.

Lemma library_truediv a b : library_outcome (truediv a b).
Proof.
  unfold truediv.
  destruct (_check_nans a b) as [r |] eqn:Hn.
  { unfold _check_nans in Hn. repeat case_match; simplify_eq; exact I. }
  destruct a, b; try exact I.
  repeat case_match; try exact I; apply library__fix.
Qed.

Lemma library_mul a b : library_outcome (mul a b).
Proof.
  unfold mul.
  destruct (_check_nans a b) as [r |] eqn:Hn.
  { unfold _check_nans in Hn. repeat case_match; simplify_eq; exact I. }
  destruct a, b; try exact I; try (case_match; exact I).
  apply library__fix.
Qed.

Lemma library_int_Decimal d : library_outcome (int_Decimal d).
Proof. destruct d; exact I. Qed.

Lemma library_py_int v : library_outcome (py_int v).
Proof.
  destruct v; simpl; try exact I. unfold int_of_str.
  destruct (split_sign _). destruct (scan_int _ _); exact I.
Qed.

Lemma library_py_get obj k d : library_outcome (py_get obj k d).
Proof. destruct obj; exact I. Qed.

Lemma library_payment_field body k d : library_outcome (payment_field body k d).
Proof. unfold payment_field. apply library_bind; auto using library_py_get. Qed.

Lemma library_or_else a b : library_outcome b -> library_outcome (or_else a b).
Proof. unfold or_else. destruct (truthy a); [intros _; exact I | auto]. Qed.

Lemma library_to_hex v : library_outcome (to_hex v).
Proof. destruct v; simpl; try exact I. repeat case_match; exact I. Qed.

Lemma library_to_checksum_address v : library_outcome (to_checksum_address v).
Proof.
  unfold to_checksum_address, to_normalized_address.
  apply library_bind; [| intros; exact I].
  apply library_bind; [apply library_to_hex |].
  intros h. case_match; exact I.
Qed.

Lemma bind_Ok {A B : Type} (r : result A) (f : A -> result B) (b : B) :
  r ≫= f = Ok b -> exists a, r = Ok a /\ f a = Ok b.
Proof. destruct r as [a | e]; simpl; [eauto | discriminate]. Qed.

Lemma bind_Raise {A B : Type} (r : result A) (f : A -> result B) (e : exn) :
  r ≫= f = Raise e -> r = Raise e \/ exists a, r = Ok a /\ f a = Raise e.
Proof. destruct r as [a | e']; simpl; [eauto | intros [= ->]; auto]. Qed.

Lemma library_not_PaymentError {A : Type} (r : result A) m d :
  library_outcome r -> r <> Raise (PaymentError m d).
Proof. intros H ->. exact H. Qed.

Lemma add_0x_prefix_cons l : exists c r, add_0x_prefix l = c :: r.
Proof.
  unfold add_0x_prefix. destruct (starts_0x l) eqn:H; [| eauto].
  destruct l as [| z [| c r]]; try discriminate. eauto.
Qed.

(** A checksummed address is never the empty text. *)
Lemma to_checksum_address_truthy v s :
  to_checksum_address v = Ok s -> truthy (PStr s) = true.
Proof.
  unfold to_checksum_address. intros H.
  apply bind_Ok in H as (norm & _ & H). injection H as <-.
  destruct (add_0x_prefix_cons
              (map (fun hc => if 7 <? hex_value (fst hc) then upper_char (snd hc) else snd hc)
                 (combine (Keccak.keccak_hex (of_chars (remove_0x_prefix norm)))
                    (remove_0x_prefix norm)))) as (c & r & ->).
  reflexivity.
Qed.

(** The validation that closes [_parse_payment_info] cannot fail: both
    addresses have passed [to_checksum_address], which raises on a missing or
    malformed address before the validation is reached.  So the parser never
    raises [PaymentError]. *)
Lemma _parse_payment_info_never_PaymentError response m d :
  _parse_payment_info response <> Raise (PaymentError m d).
Proof.
  unfold _parse_payment_info. intros H.
  apply bind_Raise in H as [H | (amount0 & _ & H)].
  { revert H. apply library_not_PaymentError.
    auto using library_or_else, library_payment_field. }
  apply bind_Raise in H as [H | (amount1 & _ & H)].
  { revert H. apply library_not_PaymentError.
    destruct (_ && _); [| exact I].
    apply library_bind; [apply library_Decimal_of |]. intros d0.
    apply library_bind; [apply library_truediv |]. intros q. exact I. }
  repeat match type of H with
    | _ ≫= _ = Raise _ =>
        apply bind_Raise in H as [H | (? & ? & H)];
        [ revert H; apply library_not_PaymentError;
          auto using library_or_else, library_payment_field, library_py_int,
            library_to_checksum_address
        | ]
    end.
  erewrite !to_checksum_address_truthy in H by eassumption. discriminate.
Qed.

(** C1 on the code: a 402 answer with no recipient and no token contract,
    neither in the headers nor in the body.  The parser raises the
    [ValueError] of [Web3.to_checksum_address] -- not a [PaymentError], and
    with no partially parsed terms -- and [fetch_with_tachi] lets it
    through. *)
Theorem parse_missing_addresses_raises_ValueError :
  _parse_payment_info bare_402
    = Raise (PyError ValueError "Unknown format '', attempted to normalize to '0x'")
  /\ outcome scripted
       (fetch_with_tachi (crawler 3) "https://example.com/a" "GET" None None)
       (mkWorld [Ok bare_402] 2000000 0 [])
     = Raise (PyError ValueError "Unknown format '', attempted to normalize to '0x'").
Proof. split; vm_compute; reflexivity. Qed.

(** Peel the binds of a hypothesis [... = Ok _] one at a time. *)
Ltac peel H x Hx :=
  apply bind_Ok in H as (x & Hx & H).

Lemma truthy_PStr s : s <> "" -> truthy (PStr s) = true.
Proof. intros Hs. simpl. destruct (String.eqb_spec s ""); [contradiction | reflexivity]. Qed.

Lemma parse_amount response info :
  _parse_payment_info response = Ok info ->
  exists amount0,
    or_else (header response "x402-price")
      (payment_field (default (PDict []) (requests.json response)) "amount" (PStr "0"))
    = Ok amount0
    /\ (if truthy (header response "x402-price") && is_USDC (header response "x402-currency")
        then d ← Decimal_of (header response "x402-price");
             q ← truediv d (Decimal_of_int (10 ^ 6));
             Ok (PStr (str_Decimal q))
        else Ok amount0) = Ok (amount info).
Proof.
  unfold _parse_payment_info. intros H.
  peel H amount0 H0. peel H amount1 H1.
  exists amount0. split; [exact H0 |].
  peel H cur Hcur. peel H net Hnet. peel H ch Hch. peel H chn Hchn.
  peel H rc Hrc. peel H rcc Hrcc. peel H tk Htk. peel H tkc Htkc. peel H tid Htid.
  destruct (_ || _); [discriminate |]. injection H as <-. exact H1.
Qed.

Lemma payment_field_of_object (body : pyval) (pay : list (string * pyval)) (k : string)
    (d : pyval) :
  py_get body "payment" (PDict []) = Ok (PDict pay) ->
  payment_field body k d = Ok (default d (assoc k pay)).
Proof. intros H. unfold payment_field. rewrite H. reflexivity. Qed.

(** The parser returns when the body is of the right shape and the three
    converted fields are accepted; the amount is the one given. *)
Lemma _parse_payment_info_returns (response : requests.Response)
    (pay : list (string * pyval)) (amount1 : pyval) (n : Z) (r t : string) :
  payment_object response = Ok (PDict pay) ->
  (if truthy (header response "x402-price") && is_USDC (header response "x402-currency")
   then d ← Decimal_of (header response "x402-price");
        q ← truediv d (Decimal_of_int (10 ^ 6));
        Ok (PStr (str_Decimal q))
   else or_else (header response "x402-price")
          (Ok (default (PStr "0") (assoc "amount" pay)))) = Ok amount1 ->
  parsed_chain_id response = Ok n ->
  parsed_recipient response = Ok r ->
  parsed_token_address response = Ok t ->
  _parse_payment_info response
  = Ok (mkPaymentInfo amount1
          (py_or (header response "x402-currency")
             (default (PStr "USDC") (assoc "currency" pay)))
          (default (PStr "Base") (assoc "network" pay)) n r t
          (default PNone (assoc "tokenId" pay))).
Proof.
  unfold payment_object, parsed_chain_id, parsed_recipient, parsed_token_address.
  intros Hpay Hamt Hn Hr Ht.
  apply bind_Ok in Hn as (cv & Hcv & Hn).
  apply bind_Ok in Hr as (rv & Hrv & Hr).
  apply bind_Ok in Ht as (tv & Htv & Ht).
  unfold _parse_payment_info.
  rewrite Hcv, Hrv, Htv.
  rewrite !(payment_field_of_object _ pay _ _ Hpay).
  assert (H0 : exists amount0,
             or_else (header response "x402-price")
               (Ok (default (PStr "0") (assoc "amount" pay))) = Ok amount0).
  { unfold or_else. destruct (truthy _); eauto. }
  destruct H0 as [amount0 H0]. rewrite H0.
  unfold mbind at 1, result_bind at 1.
  assert (Hamt' : (if truthy (header response "x402-price")
                      && is_USDC (header response "x402-currency")
                   then d ← Decimal_of (header response "x402-price");
                        q ← truediv d (Decimal_of_int (10 ^ 6));
                        Ok (PStr (str_Decimal q))
                   else Ok amount0) = Ok amount1).
  { destruct (_ && _); [exact Hamt | congruence]. }
  rewrite Hamt'.
  unfold mbind, result_bind, or_else, py_or.
  rewrite Hn, Hr, Ht.
  pose proof (to_checksum_address_truthy _ _ Hr) as Hr1.
  pose proof (to_checksum_address_truthy _ _ Ht) as Ht1.
  destruct (truthy (header response "x402-currency"));
    cbv beta iota; rewrite Hr1, Ht1; reflexivity.
Qed.

(** C2, as the code has it: with price 1000000 and currency USDC in the
    headers, the parser returns whenever the rest of the terms is valid --
    the body gives a [payment] object (an empty one when it is not JSON or
    has none), and the chain id, the recipient and the token address are
    accepted by [int] and [to_checksum_address] -- and the amount of the
    terms is the text "1": the exact quotient of 1000000 by 10^6 as
    [Decimal] writes it, with no fraction digits.  The payment step reads
    it back as 1000000 base units.  Whenever the parser returns terms for
    such an answer, their amount is that text. *)
Theorem parse_one_usdc (response : requests.Response) :
  requests.get (requests.headers response) "x402-price" = Some "1000000" ->
  requests.get (requests.headers response) "x402-currency" = Some "USDC" ->
  (forall pay n r t,
     payment_object response = Ok (PDict pay) ->
     parsed_chain_id response = Ok n ->
     parsed_recipient response = Ok r ->
     parsed_token_address response = Ok t ->
     exists info,
       _parse_payment_info response = Ok info
       /\ info = mkPaymentInfo (PStr "1") (PStr "USDC")
                   (default (PStr "Base") (assoc "network" pay)) n r t
                   (default PNone (assoc "tokenId" pay))
       /\ amount_in_wei info = Ok 1000000)
  /\ (d ← Decimal_of (PStr "1000000"); truediv d (Decimal_of_int (10 ^ 6)))
     = Ok (Finite false 1 0)
  /\ (forall info, _parse_payment_info response = Ok info ->
        amount info = PStr "1" /\ amount_in_wei info = Ok 1000000).
Proof.
  intros Hp Hc.
  assert (E : forall a0,
             (if truthy (PStr "1000000") && is_USDC (PStr "USDC")
              then d ← Decimal_of (PStr "1000000");
                   q ← truediv d (Decimal_of_int (10 ^ 6));
                   Ok (PStr (str_Decimal q))
              else a0) = Ok (PStr "1")).
  { intros a0. vm_compute. reflexivity. }
  assert (Hwei : forall info, amount info = PStr "1" -> amount_in_wei info = Ok 1000000).
  { intros info Ha. unfold amount_in_wei. rewrite Ha. vm_compute. reflexivity. }
  split; [| split; [vm_compute; reflexivity |]].
  - intros pay n r t Hpay Hn Hr Ht.
    eexists. split; [| split; [reflexivity |]].
    + rewrite (_parse_payment_info_returns response pay (PStr "1") n r t Hpay);
        try assumption.
      * unfold header. rewrite Hc. reflexivity.
      * unfold header. rewrite Hp, Hc. simpl from_option. apply E.
    + apply Hwei. reflexivity.
  - intros info Hparse.
    apply parse_amount in Hparse as (amount0 & _ & H).
    unfold header in H. rewrite Hp, Hc in H. simpl from_option in H.
    rewrite (E (Ok amount0)) in H.
    assert (Ha : amount info = PStr "1") by congruence.
    split; [exact Ha | apply Hwei; exact Ha].
Qed.

Lemma parse_one_usdc_witness :
  exists info,
    _parse_payment_info (payment_required_response "1000000" "USDC") = Ok info
    /\ amount info = PStr "1"
    /\ amount_in_wei info = Ok 1000000.
Proof.
  assert (Hp : requests.get (requests.headers (payment_required_response "1000000" "USDC"))
                 "x402-price" = Some "1000000") by (vm_compute; reflexivity).
  assert (Hc : requests.get (requests.headers (payment_required_response "1000000" "USDC"))
                 "x402-currency" = Some "USDC") by (vm_compute; reflexivity).
  destruct (parse_one_usdc _ Hp Hc) as (Hret & _ & _).
  destruct (Hret [] 84532 processor usdc_sepolia) as (info & Hparse & -> & Hwei).
  - reflexivity.
  - vm_compute. reflexivity.
  - vm_compute. reflexivity.
  - vm_compute. reflexivity.
  - eexists. split; [exact Hparse |]. split; [reflexivity | exact Hwei].
Defined.

(** C2, as stated, fails: the parsed amount is "1", not "1.0". *)
Lemma parse_one_usdc_is_not_1_0 :
  exists info,
    _parse_payment_info (payment_required_response "1000000" "USDC") = Ok info
    /\ amount info = PStr "1"
    /\ amount info <> PStr "1.0".
Proof.
  exists (terms (PStr "1") (PStr "USDC")).
  split; [vm_compute; reflexivity |]. split; [reflexivity | discriminate].
Qed.

(** The parser does return on such an answer: with the five headers present,
    both addresses and the chain id well-formed, and a body that is not
    JSON, the terms are the following. *)
Lemma parse_one_usdc_returns response r t k r' t' n :
  requests.json response = None ->
  requests.get (requests.headers response) "x402-price" = Some "1000000" ->
  requests.get (requests.headers response) "x402-currency" = Some "USDC" ->
  requests.get (requests.headers response) "x402-recipient" = Some r ->
  requests.get (requests.headers response) "x402-contract" = Some t ->
  requests.get (requests.headers response) "x402-chain-id" = Some k ->
  r <> "" -> t <> "" -> k <> "" ->
  to_checksum_address (PStr r) = Ok r' ->
  to_checksum_address (PStr t) = Ok t' ->
  int_of_str k = Ok n ->
  _parse_payment_info response
  = Ok (mkPaymentInfo (PStr "1") (PStr "USDC") (PStr "Base") n r' t' PNone).
Proof.
  intros Hjson Hp Hc Hr Ht Hk Hr0 Ht0 Hk0 Hr' Ht' Hn.
  unfold _parse_payment_info, header. rewrite Hjson, Hp, Hc, Hr, Ht, Hk.
  simpl from_option. simpl default.
  unfold or_else. rewrite (truthy_PStr r Hr0), (truthy_PStr t Ht0), (truthy_PStr k Hk0).
  change (truthy (PStr "1000000")) with true. change (truthy (PStr "USDC")) with true.
  change (is_USDC (PStr "USDC")) with true.
  cbv beta iota. simpl andb. cbv iota.
  assert (E : (d ← Decimal_of (PStr "1000000");
               q ← truediv d (Decimal_of_int (10 ^ 6));
               Ok (PStr (str_Decimal q))) = Ok (PStr "1")).
  { vm_compute. reflexivity. }
  unfold mbind at 1, result_bind at 1. rewrite E.
  unfold mbind, result_bind. change (py_int (PStr k)) with (int_of_str k).
  rewrite Hn, Hr', Ht'.
  change (payment_field (PDict []) "network" (PStr "Base")) with (Ok (PStr "Base")).
  change (payment_field (PDict []) "tokenId" PNone) with (Ok PNone).
  rewrite (to_checksum_address_truthy _ _ Hr'), (to_checksum_address_truthy _ _ Ht').
  reflexivity.
Qed.

(** Decide the integer comparisons of the goal by arithmetic. *)
Ltac decide_comparisons :=
  rewrite ?Z.gtb_ltb;
  repeat match goal with
    | |- context [?a <? ?b] =>
        first [ rewrite (proj2 (Z.ltb_lt a b)) by lia
              | rewrite (proj2 (Z.ltb_ge a b)) by lia ]
    end.

(** Scaling an integer by 10^6 is exact while the product fits the 28 digits
    of the context. *)
Lemma mul_million c :
  ndigits (c * 1000000) <= prec ->
  (m ← mul (Finite false c 0) (Decimal_of_int (10 ^ 6)); int_Decimal m)
  = Ok (Z.of_N c * 10 ^ 6).
Proof.
  intros Hd.
  change (Decimal_of_int (10 ^ 6)) with (Finite false 1000000 0).
  unfold mul. simpl _check_nans. cbv iota. simpl xorb. simpl Z.add.
  unfold _fix.
  destruct (N.eqb_spec (c * 1000000) 0) as [H0 | Hn0].
  - assert (c = 0%N) by lia. subst c. reflexivity.
  - assert (Hnd : 0 <= ndigits (c * 1000000)) by (unfold ndigits; lia).
    set (nd := ndigits (c * 1000000)) in *.
    unfold Etop, Etiny, Emax, Emin, prec in *.
    decide_comparisons.
    simpl. f_equal. lia.
Qed.

(** C3, as the code has it.  A price header that is present and not empty,
    with a currency header that is absent or is not 'USDC': the parser
    returns whenever the rest of the terms is valid (as for C2), and the
    amount of the terms is the text of the price header, unconverted,
    whatever the currency becomes from the body or the default; the payment
    step then multiplies that text by 10^6: a price that reads as the
    integer [c] is paid as [c * 10^6], as long as the product has at most
    28 digits.  The conversion happens only with a price header that is
    present and not empty and the currency header 'USDC': whenever terms
    are returned, a price header that is absent or empty leaves the amount
    of the body (or the default '0'), and only a non-empty price with the
    currency header 'USDC' gives the quotient by 10^6. *)
Theorem parse_keeps_unconverted_price (response : requests.Response) :
  let body := default (PDict []) (requests.json response) in
  let price_header := requests.get (requests.headers response) "x402-price" in
  let currency_header := requests.get (requests.headers response) "x402-currency" in
  (forall p pay n r t,
     price_header = Some p -> p <> "" -> currency_header <> Some "USDC" ->
     payment_object response = Ok (PDict pay) ->
     parsed_chain_id response = Ok n ->
     parsed_recipient response = Ok r ->
     parsed_token_address response = Ok t ->
     _parse_payment_info response
     = Ok (mkPaymentInfo (PStr p)
             (py_or (header response "x402-currency")
                (default (PStr "USDC") (assoc "currency" pay)))
             (default (PStr "Base") (assoc "network" pay)) n r t
             (default PNone (assoc "tokenId" pay))))
  /\ (forall info, _parse_payment_info response = Ok info ->
        (forall p, price_header = Some p -> p <> "" -> currency_header <> Some "USDC" ->
           amount info = PStr p
           /\ amount_in_wei info
              = (d ← Decimal_of_str p; m ← mul d (Decimal_of_int (10 ^ 6)); int_Decimal m)
           /\ (forall c, Decimal_of_str p = Ok (Finite false c 0) ->
                         ndigits (c * 1000000) <= prec ->
                         amount_in_wei info = Ok (Z.of_N c * 10 ^ 6)))
        /\ (price_header = None \/ price_header = Some "" ->
            payment_field body "amount" (PStr "0") = Ok (amount info))
        /\ (forall p, price_header = Some p -> p <> "" -> currency_header = Some "USDC" ->
            exists q,
              (d ← Decimal_of_str p; truediv d (Decimal_of_int (10 ^ 6))) = Ok q
              /\ amount info = PStr (str_Decimal q))).
Proof.
  intros body price_header currency_header. subst body price_header currency_header.
  assert (Hu : requests.get (requests.headers response) "x402-currency" <> Some "USDC" ->
               is_USDC (header response "x402-currency") = false).
  { intros Hc. unfold header.
    destruct (requests.get (requests.headers response) "x402-currency") as [c |]; simpl;
      [| reflexivity].
    destruct (String.eqb_spec c "USDC"); [subst; contradiction | reflexivity]. }
  split.
  - intros p pay n r t Hp Hne Hc Hpay Hn Hr Ht.
    apply (_parse_payment_info_returns response pay (PStr p) n r t Hpay);
      try assumption.
    rewrite (Hu Hc), andb_false_r. unfold header. rewrite Hp. simpl from_option.
    unfold or_else. rewrite (truthy_PStr p Hne). reflexivity.
  - intros info Hparse.
    apply parse_amount in Hparse as (amount0 & H0 & H).
    split; [| split].
    + intros p Hp Hne Hc.
      unfold header in H0, H. rewrite Hp in H0, H. simpl from_option in H0, H.
      unfold or_else in H0. rewrite (truthy_PStr p Hne) in H0, H. injection H0 as <-.
      fold (header response "x402-currency") in H. rewrite (Hu Hc) in H.
      simpl in H. injection H as H.
      assert (Hwei : amount_in_wei info
                     = (d ← Decimal_of_str p; m ← mul d (Decimal_of_int (10 ^ 6));
                        int_Decimal m)).
      { unfold amount_in_wei. rewrite <- H. reflexivity. }
      split; [congruence |]. split; [exact Hwei |].
      intros c Hdec Hfit. rewrite Hwei, Hdec. apply mul_million. exact Hfit.
    + intros Hprice.
      assert (Hf : truthy (header response "x402-price") = false).
      { unfold header. destruct Hprice as [-> | ->]; reflexivity. }
      unfold or_else in H0. rewrite Hf in H0, H. simpl in H.
      congruence.
    + intros p Hp Hne Hc.
      unfold header in H. rewrite Hp, Hc in H. simpl from_option in H.
      rewrite (truthy_PStr p Hne) in H.
      change (is_USDC (PStr "USDC")) with true in H. simpl andb in H. cbv iota in H.
      change (Decimal_of (PStr p)) with (Decimal_of_str p) in H.
      destruct (Decimal_of_str p) as [d |]; [| discriminate].
      unfold mbind, result_bind in H |- *. cbv beta iota in H |- *.
      destruct (truediv d (Decimal_of_int (10 ^ 6))) as [q |]; [| discriminate].
      exists q. split; [reflexivity | congruence].
Qed.

Lemma parse_keeps_unconverted_price_witness :
  exists info,
    _parse_payment_info (payment_required_response "1000000" "usdc") = Ok info
    /\ amount info = PStr "1000000"
    /\ amount_in_wei info = Ok 1000000000000.
Proof.
  destruct (parse_keeps_unconverted_price (payment_required_response "1000000" "usdc"))
    as [Hret Hall].
  assert (Hp : requests.get (requests.headers (payment_required_response "1000000" "usdc"))
                 "x402-price" = Some "1000000") by (vm_compute; reflexivity).
  assert (Hc : requests.get (requests.headers (payment_required_response "1000000" "usdc"))
                 "x402-currency" <> Some "USDC") by (vm_compute; discriminate).
  assert (Hparse : _parse_payment_info (payment_required_response "1000000" "usdc")
                   = Ok (terms (PStr "1000000") (PStr "usdc"))).
  { rewrite (Hret "1000000" [] 84532 processor usdc_sepolia Hp ltac:(discriminate) Hc).
    - vm_compute. reflexivity.
    - reflexivity.
    - vm_compute. reflexivity.
    - vm_compute. reflexivity.
    - vm_compute. reflexivity. }
  exists (terms (PStr "1000000") (PStr "usdc")). split; [exact Hparse |].
  destruct (Hall _ Hparse) as (Hraw & _ & _).
  destruct (Hraw "1000000" Hp ltac:(discriminate) Hc) as (Ha & _ & Hw).
  split; [exact Ha |]. apply (Hw 1000000%N).
  - vm_compute. reflexivity.
  - vm_compute. discriminate.
Defined.

(** C3, as stated, fails on a price header that is present but empty: it is
    falsy, so the amount comes from the body and is not the text of the
    header. *)
Lemma parse_empty_price_header_reads_body :
  requests.get (requests.headers empty_price_402) "x402-price" = Some ""
  /\ requests.get (requests.headers empty_price_402) "x402-currency" = None
  /\ exists info,
       _parse_payment_info empty_price_402 = Ok info
       /\ amount info = PStr "5"
       /\ amount info <> PStr "".
Proof.
  split; [vm_compute; reflexivity |]. split; [vm_compute; reflexivity |].
  exists (mkPaymentInfo (PStr "5") (PStr "USDC") (PStr "Base") 8453 processor usdc_sepolia PNone).
  split; [vm_compute; reflexivity |]. split; [reflexivity | discriminate].
Qed.

(** ** The settlement step *)

#[local] Arguments balance_in_usdc : simpl never.
#[local] Arguments py_str : simpl never.
#[local] Arguments HexBytes_hex : simpl never.
#[local] Arguments exn_str : simpl never.
#[local] Arguments String.append : simpl never.
#[local] Arguments str_int : simpl never.

(** Follow a run in hypothesis [H]: case on the answer of the next call, on
    the next pure conversion, on the next comparison. *)
Ltac step_run h H :=
  match type of H with
  | context [h ?X ?ev ?w] =>
      let a := fresh "a" in
      let w' := fresh "w" in
      destruct (h X ev w) as [a w']; try destruct a as [? | ?]; simpl in H
  | context [lift (balance_in_usdc ?b)] =>
      destruct (balance_in_usdc b) as [? | ?]; simpl in H
  | context [if ?x <? ?y then _ else _] =>
      destruct (Z.ltb_spec x y); simpl in H
  end.

Ltac run_process h H Hacc Hamt :=
  unfold _process_payment in H; rewrite Hacc, Hamt in H; simpl in H;
  repeat step_run h H; injection H as <- <- <-.

(** C4: when the balance the ledger reports is below the required amount in
    base units, [_process_payment] raises a [PaymentError] and no
    transaction is built, signed or sent. *)
Theorem insufficient_balance_sends_nothing {W : Type} (h : handler W) (w w' : W)
    (self : TachiSDK) (acct : Account) (info : PaymentInfo) (required b : Z)
    (r : result string) (log : list entry) :
  account self = Some acct ->
  amount_in_wei info = Ok required ->
  run h (_process_payment self info) w = (r, w', log) ->
  balance_read log = Some b ->
  b < required ->
  (exists m d, r = Raise (PaymentError m d))
  /\ List.filter is_transaction_step log = []
  /\ transactions_sent log = 0%nat.
Proof.
  intros Hacc Hamt Hrun Hb Hlt.
  run_process h Hrun Hacc Hamt; unfold balance_read in Hb; simpl in Hb; simplify_eq;
    try lia; (split; [eauto | split; reflexivity]).
Qed.

Lemma run_eta {W R : Type} (h : handler W) (p : prog R) (w : W) :
  run h p w = (outcome h p w, snd (fst (run h p w)), calls h p w).
Proof. unfold outcome, calls. destruct (run h p w) as [[r w'] log]. reflexivity. Qed.

Lemma insufficient_balance_sends_nothing_witness :
  let attempt := _process_payment (crawler 3) (terms (PStr "1") (PStr "USDC")) in
  let poor := mkWorld [] 500000 0 [] in
  (exists m d, outcome scripted attempt poor = Raise (PaymentError m d))
  /\ List.filter is_transaction_step (calls scripted attempt poor) = []
  /\ transactions_sent (calls scripted attempt poor) = 0%nat.
Proof.
  intros attempt poor.
  apply (insufficient_balance_sends_nothing scripted poor
           (snd (fst (run scripted attempt poor))) (crawler 3)
           (mkAccount "0x1111111111111111111111111111111111111111" "0xkey")
           (terms (PStr "1") (PStr "USDC")) 1000000 500000).
  - reflexivity.
  - vm_compute. reflexivity.
  - apply run_eta.
  - vm_compute. reflexivity.
  - lia.
Defined.

(** C8: when the allowance the ledger reports covers the required amount,
    the approval is skipped: the [approve] call is neither checked nor
    built, and the only transaction that can be sent is the payment (one
    transaction exactly when the step returns).  An approval is prepared
    only after an allowance below the required amount has been read. *)
Theorem sufficient_allowance_skips_approval {W : Type} (h : handler W) (w w' : W)
    (self : TachiSDK) (acct : Account) (info : PaymentInfo) (required : Z)
    (r : result string) (log : list entry) :
  account self = Some acct ->
  amount_in_wei info = Ok required ->
  run h (_process_payment self info) w = (r, w', log) ->
  (forall a, allowance_read log = Some a -> required <= a ->
     List.filter is_approval_step log = []
     /\ (transactions_sent log <= 1)%nat
     /\ (forall s, r = Ok s -> transactions_sent log = 1%nat))
  /\ (List.filter is_approval_step log <> [] ->
      exists a, allowance_read log = Some a /\ a < required).
Proof.
  intros Hacc Hamt Hrun.
  run_process h Hrun Hacc Hamt; unfold allowance_read, transactions_sent; simpl;
    (split;
     [ intros alw Ha Hle; simplify_eq; try lia;
       repeat split; try reflexivity; try lia; intros; simplify_eq; try reflexivity
     | intros Hne; try contradiction; try (eexists; split; [reflexivity | assumption]) ]).
Qed.

Lemma sufficient_allowance_skips_approval_witness :
  let attempt := _process_payment (crawler 3) (terms (PStr "1") (PStr "USDC")) in
  let funded := mkWorld [] 2000000 1000000 [] in
  List.filter is_approval_step (calls scripted attempt funded) = []
  /\ (transactions_sent (calls scripted attempt funded) <= 1)%nat
  /\ (forall s, outcome scripted attempt funded = Ok s ->
      transactions_sent (calls scripted attempt funded) = 1%nat).
Proof.
  intros attempt funded.
  assert (Hamt : amount_in_wei (terms (PStr "1") (PStr "USDC")) = Ok 1000000).
  { vm_compute. reflexivity. }
  destruct (sufficient_allowance_skips_approval scripted funded
              (snd (fst (run scripted attempt funded))) (crawler 3)
              (mkAccount "0x1111111111111111111111111111111111111111" "0xkey")
              (terms (PStr "1") (PStr "USDC")) 1000000
              (outcome scripted attempt funded) (calls scripted attempt funded)
              eq_refl Hamt (run_eta scripted attempt funded)) as [Hskip _].
  apply (Hskip 1000000).
  - vm_compute. reflexivity.
  - lia.
Defined.

(** When the settlement step returns, its value is the hash that the last
    submission returned, written in hexadecimal; that submission was
    confirmed; the amount was not [None]; and no HTTP call was made. *)
Lemma _process_payment_returns {W : Type} (h : handler W) (w w' : W)
    (self : TachiSDK) (info : PaymentInfo) (s : string) (log : list entry) :
  run h (_process_payment self info) w = (Ok s, w', log) ->
  exists tx_hash receipt,
    last_sent log = Some tx_hash
    /\ after_last_send log = [Called (WaitForTransactionReceipt tx_hash) (Ok receipt)]
    /\ s = HexBytes_hex tx_hash
    /\ amount info <> PNone
    /\ List.filter is_http log = [].
Proof.
  intros Hrun.
  assert (Hamount : amount info <> PNone).
  { unfold _process_payment in Hrun.
    destruct (account self); [| discriminate].
    destruct (amount_in_wei info) as [req | e] eqn:Hamt; [| discriminate].
    unfold amount_in_wei in Hamt. intros Hnone. rewrite Hnone in Hamt. discriminate. }
  destruct (account self) as [acct |] eqn:Hacc;
    [| unfold _process_payment in Hrun; rewrite Hacc in Hrun; discriminate].
  destruct (amount_in_wei info) as [req | e] eqn:Hamt;
    [| unfold _process_payment in Hrun; rewrite Hacc, Hamt in Hrun; discriminate].
  unfold _process_payment in Hrun; rewrite Hacc, Hamt in Hrun; simpl in Hrun.
  repeat step_run h Hrun; simplify_eq;
    (eexists _, _; repeat split; try reflexivity; assumption).
Qed.

(** Whatever the settlement step does, it makes no HTTP call. *)
Lemma _process_payment_no_http {W : Type} (h : handler W) (w w' : W)
    (self : TachiSDK) (info : PaymentInfo) (r : result string) (log : list entry) :
  run h (_process_payment self info) w = (r, w', log) ->
  List.filter is_http log = [].
Proof.
  intros Hrun. unfold _process_payment in Hrun.
  destruct (account self) as [acct |]; [| simpl in Hrun; simplify_eq; reflexivity].
  destruct (amount_in_wei info) as [req | e]; simpl in Hrun; [| simplify_eq; reflexivity].
  repeat step_run h Hrun; simplify_eq; reflexivity.
Qed.

(** ** The HTTP client: what a call logs *)

Lemma attempt_loop_log {W : Type} (h : handler W) (self : TachiSDK) (url method : string)
    (headers : gmap string string) (body : option string) (attempts : list Z) :
  forall (last_error : option exn) (w w' : W) r l,
    run h (attempt_loop self url method headers body attempts last_error) w = (r, w', l) ->
    http_log (fun e => request_headers e = Some headers) headers r l.
Proof.
  induction attempts as [| attempt rest IH]; intros last_error w w' r l Hrun; simpl in Hrun.
  - simplify_eq. repeat split; constructor.
  - destruct (h _ (SessionRequest method url headers body (timeout (config self))) w)
      as [[response | error] w1]; simpl in Hrun.
    + simplify_eq. repeat split; try (repeat constructor).
      exists [], (Called (SessionRequest method url headers body (timeout (config self)))
                    (Ok response)).
      repeat split.
    + destruct (is_RequestException error).
      * destruct (attempt =? max_retries (config self)); simpl in Hrun.
        { simplify_eq. repeat split; repeat constructor. }
        destruct (h _ (Sleep (2 ^ attempt)) w1) as [[] w2].
        destruct (run h (attempt_loop self url method headers body rest (Some error)) w2)
          as [[r2 w3] l2] eqn:Hrest.
        apply IH in Hrest as (Hhttp & Hhd & Hres). simplify_eq.
        repeat split.
        -- repeat constructor. exact Hhttp.
        -- simpl. constructor; [reflexivity | exact Hhd].
        -- destruct r as [response | e]; [| exact Hres].
           destruct Hres as (l0 & e & -> & He & Hr & Hnone).
           exists (Called (SessionRequest method url headers body (timeout (config self)))
                     (Raise error) :: Called (Sleep (2 ^ attempt)) () :: l0), e.
           repeat split; assumption.
      * simpl in Hrun. simplify_eq. repeat split; repeat constructor.
Qed.

Lemma _make_http_request_log {W : Type} (h : handler W) (self : TachiSDK)
    (url method : string) (headers : gmap string string) (body : option string)
    (w w' : W) r l :
  run h (_make_http_request self url method headers body) w = (r, w', l) ->
  http_log (fun e => request_headers e = Some (<["User-Agent" := user_agent (config self)]> headers))
    (<["User-Agent" := user_agent (config self)]> headers) r l.
Proof. unfold _make_http_request. apply attempt_loop_log. Qed.

(** ** The orchestrator *)

(** The stages of [fetch_with_tachi], one after the other. *)
Lemma fetch_with_tachi_run {W : Type} (h : handler W) (self : TachiSDK) (url method : string)
    (headers : option (gmap string string)) (body : option string) (w : W) :
  run h (fetch_with_tachi self url method headers body) w =
    let '(r1, w1, l1) := run h (_make_http_request self url method (default ∅ headers) body) w in
    match r1 with
    | Raise e => (Raise e, w1, l1)
    | Ok initial_response =>
        if negb (requests.status_code initial_response =? 402) then
          (Ok (mkTachiResponse
                 (requests.text initial_response)
                 (requests.status_code initial_response)
                 (requests.to_dict (requests.headers initial_response))
                 false PNone None), w1, l1)
        else
          match _parse_payment_info initial_response with
          | Raise e => (Raise e, w1, l1)
          | Ok payment_info =>
              let '(r2, w2, l2) := run h (_process_payment self payment_info) w1 in
              match r2 with
              | Raise e => (Raise e, w2, l1 ++ l2)
              | Ok transaction_hash =>
                  let '(r3, w3, l3) :=
                    run h (_make_http_request self url method
                             (<["Authorization" := "Bearer " +:+ transaction_hash]>
                                (default ∅ headers)) body) w2 in
                  match r3 with
                  | Raise e => (Raise e, w3, l1 ++ l2 ++ l3)
                  | Ok paid_response =>
                      if negb (requests.status_code paid_response =? 200) then
                        (Raise (PaymentError
                                  ("Payment verification failed: "
                                     +:+ str_int (requests.status_code paid_response))
                                  (VerificationDetails transaction_hash
                                     (requests.status_code paid_response))),
                         w3, l1 ++ l2 ++ l3)
                      else
                        (Ok (mkTachiResponse
                               (requests.text paid_response)
                               (requests.status_code paid_response)
                               (requests.to_dict (requests.headers paid_response))
                               true (amount payment_info) (Some transaction_hash)),
                         w3, l1 ++ l2 ++ l3)
                  end
              end
          end
    end.
Proof.
  unfold fetch_with_tachi, mbind, prog_bind. rewrite run_bind.
  destruct (run h (_make_http_request self url method (default ∅ headers) body) w)
    as [[[initial | e] w1] l1]; [| reflexivity].
  destruct (negb (requests.status_code initial =? 402)); simpl.
  { rewrite app_nil_r. reflexivity. }
  rewrite run_bind, run_lift.
  destruct (_parse_payment_info initial) as [info | e];
    [| rewrite app_nil_r; reflexivity].
  rewrite run_bind.
  destruct (run h (_process_payment self info) w1) as [[[tx | e] w2] l2];
    [| reflexivity].
  rewrite run_bind.
  destruct (run h (_make_http_request self url method _ body) w2) as [[[paid | e] w3] l3];
    [| reflexivity].
  destruct (negb (requests.status_code paid =? 200)); simpl;
    rewrite app_nil_r; reflexivity.
Qed.

(** *** Reading a log *)

Lemma is_http_not_ledger e :
  is_http e = true -> sent_hash e = None /\ is_send e = false.
Proof. destruct e as [X ev ans]; destruct ev; simpl; intros; try discriminate; auto. Qed.

Lemma not_http_not_request e :
  is_http e = false -> response_of e = None /\ request_headers e = None.
Proof. destruct e as [X ev ans]; destruct ev; simpl; intros; try discriminate; auto. Qed.

Lemma http_no_send l :
  Forall (fun e => is_http e = true) l -> omap sent_hash l = [] /\ existsb is_send l = false.
Proof.
  induction 1 as [| e l He _ [IH1 IH2]]; [split; reflexivity |].
  destruct (is_http_not_ledger e He) as [H1 H2]. simpl. rewrite H1, H2, IH2. auto.
Qed.

Lemma filter_nil_Forall {A : Type} (p : A -> bool) l :
  List.filter p l = [] -> Forall (fun e => p e = false) l.
Proof.
  induction l as [| e l IH]; simpl; [constructor |].
  destruct (p e) eqn:He; [discriminate | auto].
Qed.

Lemma no_http_no_request l :
  List.filter is_http l = [] -> omap response_of l = [] /\ omap request_headers l = [].
Proof.
  intros H. apply filter_nil_Forall in H.
  induction H as [| e l He _ [IH1 IH2]]; [split; reflexivity |].
  destruct (not_http_not_request e He) as [H1 H2]. simpl. rewrite H1, H2. auto.
Qed.

Lemma no_http_last l e :
  List.filter is_http l = [] -> last l = Some e -> response_of e = None.
Proof.
  intros H Hl. apply filter_nil_Forall in H.
  apply last_Some in Hl as [l' ->]. apply Forall_app in H as [_ H].
  inversion H; subst. apply not_http_not_request. assumption.
Qed.

Lemma omap_nil_last {A B : Type} (f : A -> option B) l e :
  omap f l = [] -> last l = Some e -> f e = None.
Proof.
  intros H Hl. apply last_Some in Hl as [l' ->].
  rewrite omap_app in H. apply app_eq_nil in H as [_ H]. simpl in H.
  destruct (f e); [discriminate | reflexivity].
Qed.

Lemma after_last_send_none l : existsb is_send l = false -> after_last_send l = l.
Proof. destruct l as [| e r]; [reflexivity |]. intros H. simpl in *. rewrite H. reflexivity. Qed.

Lemma after_last_send_app l l' :
  existsb is_send l = true -> existsb is_send l' = false ->
  after_last_send (l ++ l') = after_last_send l ++ l'.
Proof.
  intros Hl Hl'. induction l as [| e r IH]; [discriminate |].
  change ((e :: r) ++ l') with (e :: (r ++ l')).
  unfold after_last_send at 1 2; fold after_last_send.
  change (e :: r ++ l') with ((e :: r) ++ l').
  rewrite existsb_app, Hl. simpl orb. cbv iota.
  destruct (existsb is_send r) eqn:Hr.
  - apply IH. reflexivity.
  - rewrite (after_last_send_none r Hr). apply after_last_send_none.
    rewrite existsb_app, Hr, Hl'. reflexivity.
Qed.

Lemma after_last_send_prefix l l' :
  existsb is_send l = false -> existsb is_send l' = true ->
  after_last_send (l ++ l') = after_last_send l'.
Proof.
  intros Hl Hl'. induction l as [| e r IH]; [reflexivity |].
  simpl in Hl. apply orb_false_elim in Hl as [He Hr].
  change ((e :: r) ++ l') with (e :: (r ++ l')).
  unfold after_last_send at 1; fold after_last_send.
  change (e :: r ++ l') with ((e :: r) ++ l').
  rewrite existsb_app, Hl'. rewrite orb_true_r. apply IH. exact Hr.
Qed.

Lemma last_sent_Some_existsb l tx : last_sent l = Some tx -> existsb is_send l = true.
Proof.
  unfold last_sent. induction l as [| e r IH]; [discriminate |].
  simpl. destruct e as [X ev ans]; destruct ev; simpl; auto.
Qed.

(** C7: in every result that [fetch_with_tachi] returns, the payment amount
    and the transaction hash are both present exactly when
    [payment_required] holds, and both are [None] otherwise; and
    [payment_required] holds exactly when the first answer received had
    status 402. *)
Theorem payment_fields_iff_payment_required {W : Type} (h : handler W) (w : W)
    (self : TachiSDK) (url method : string) (headers : option (gmap string string))
    (body : option string) (res : TachiResponse) :
  outcome h (fetch_with_tachi self url method headers body) w = Ok res ->
  ((payment_amount res <> PNone /\ transaction_hash res <> None)
     <-> payment_required res = true)
  /\ (payment_required res = false ->
      payment_amount res = PNone /\ transaction_hash res = None)
  /\ exists initial_response,
       head (omap response_of (calls h (fetch_with_tachi self url method headers body) w))
         = Some initial_response
       /\ payment_required res = (requests.status_code initial_response =? 402).
Proof.
  unfold outcome, calls. rewrite fetch_with_tachi_run.
  destruct (run h (_make_http_request self url method (default ∅ headers) body) w)
    as [[[initial | e] w1] l1] eqn:H1; [| discriminate].
  apply _make_http_request_log in H1 as (_ & _ & l0 & e0 & -> & _ & Hresp & Hnone).
  assert (Hhead : forall rest,
             head (omap response_of ((l0 ++ [e0]) ++ rest)) = Some initial).
  { intros rest. rewrite !omap_app, Hnone. simpl. rewrite Hresp. reflexivity. }
  destruct (requests.status_code initial =? 402) eqn:H402; simpl.
  - destruct (_parse_payment_info initial) as [info | e]; [| discriminate].
    destruct (run h (_process_payment self info) w1) as [[[tx | e] w2] l2] eqn:H2;
      [| discriminate].
    apply _process_payment_returns in H2 as (tx_hash & receipt & _ & _ & _ & Hamount & _).
    destruct (run h (_make_http_request self url method _ body) w2)
      as [[[paid | e] w3] l3]; [| discriminate].
    destruct (negb (requests.status_code paid =? 200)); [discriminate |].
    simpl. intros [= <-]. simpl.
    split; [split; [reflexivity | intros _; split; [assumption | discriminate]] |].
    split; [discriminate |].
    exists initial. rewrite Hhead, H402. split; reflexivity.
  - intros [= <-]. simpl.
    split; [split; [intros [Hc _]; contradiction | discriminate] |].
    split; [intros _; split; reflexivity |].
    exists initial. rewrite <- (app_nil_r (l0 ++ [e0])), Hhead, H402. split; reflexivity.
Qed.

Lemma payment_fields_iff_payment_required_witness :
  let fetch := fetch_with_tachi (crawler 3) "https://example.com/a" "GET" None None in
  let w := mkWorld [Ok (payment_required_response "1000000" "USDC"); Ok (page 200 "<html>")]
             2000000 0 [] in
  exists res,
    outcome scripted fetch w = Ok res
    /\ ((payment_amount res <> PNone /\ transaction_hash res <> None)
          <-> payment_required res = true)
    /\ (payment_required res = false ->
        payment_amount res = PNone /\ transaction_hash res = None)
    /\ exists initial_response,
         head (omap response_of (calls scripted fetch w)) = Some initial_response
         /\ payment_required res = (requests.status_code initial_response =? 402).
Proof.
  intros fetch w.
  assert (E : exists res, outcome scripted fetch w = Ok res).
  { vm_compute. eexists. reflexivity. }
  destruct E as [res E]. exists res. split; [exact E |].
  exact (payment_fields_iff_payment_required scripted w (crawler 3)
           "https://example.com/a" "GET" None None res E).
Defined.

(** C9: when a paid fetch returns, the hash of its result is the hash that
    the last submission -- the payment -- returned, written in hexadecimal,
    and every request made after that submission (the replay, with its
    retries; there is at least one) carries
    [Authorization: Bearer <that hash>]. *)
Theorem proof_header_is_payment_hash {W : Type} (h : handler W) (w : W)
    (self : TachiSDK) (url method : string) (headers : option (gmap string string))
    (body : option string) (res : TachiResponse) :
  outcome h (fetch_with_tachi self url method headers body) w = Ok res ->
  payment_required res = true ->
  let log := calls h (fetch_with_tachi self url method headers body) w in
  exists tx_hash,
    last_sent log = Some tx_hash
    /\ transaction_hash res = Some (HexBytes_hex tx_hash)
    /\ omap request_headers (after_last_send log) <> []
    /\ Forall (fun hs : gmap string string =>
                 hs !! "Authorization" = Some ("Bearer " +:+ HexBytes_hex tx_hash))
         (omap request_headers (after_last_send log)).
Proof.
  unfold outcome, calls. rewrite fetch_with_tachi_run.
  destruct (run h (_make_http_request self url method (default ∅ headers) body) w)
    as [[[initial | e] w1] l1] eqn:H1; [| discriminate].
  apply _make_http_request_log in H1 as (Hhttp1 & _).
  destruct (negb (requests.status_code initial =? 402)); simpl.
  { intros [= <-]. discriminate. }
  destruct (_parse_payment_info initial) as [info | e]; [| discriminate].
  destruct (run h (_process_payment self info) w1) as [[[tx | e] w2] l2] eqn:H2;
    [| discriminate].
  apply _process_payment_returns in H2 as (tx_hash & receipt & Hsent & Hafter & -> & _ & _).
  destruct (run h (_make_http_request self url method _ body) w2)
    as [[[paid | e] w3] l3] eqn:H3; [| discriminate].
  apply _make_http_request_log in H3 as (Hhttp3 & Hhd3 & l0 & e0 & -> & Hreq & _ & _).
  destruct (negb (requests.status_code paid =? 200)); [discriminate |].
  simpl. intros [= <-] _. simpl.
  destruct (http_no_send _ Hhttp1) as [Hs1 He1].
  destruct (http_no_send _ Hhttp3) as [Hs3 He3].
  pose proof (last_sent_Some_existsb _ _ Hsent) as He2.
  exists tx_hash.
  assert (Hlog : after_last_send (l1 ++ l2 ++ l0 ++ [e0])
                 = Called (WaitForTransactionReceipt tx_hash) (Ok receipt) :: l0 ++ [e0]).
  { rewrite after_last_send_prefix; [| exact He1 |].
    - rewrite after_last_send_app; [| exact He2 | exact He3]. rewrite Hafter. reflexivity.
    - rewrite existsb_app, He2. reflexivity. }
  rewrite Hlog.
  split.
  { unfold last_sent in *.
    rewrite (omap_app _ l1), (omap_app _ l2), Hs1, Hs3. simpl. rewrite app_nil_r.
    exact Hsent. }
  split; [reflexivity |].
  split.
  { simpl. rewrite omap_app. simpl. rewrite Hreq. intros Hnil.
    apply app_eq_nil in Hnil as [_ Hnil]. discriminate. }
  simpl. eapply Forall_impl; [exact Hhd3 |].
  intros hs ->. rewrite lookup_insert_ne by discriminate. apply lookup_insert_eq.
Qed.

Lemma proof_header_is_payment_hash_witness :
  let fetch := fetch_with_tachi (crawler 3) "https://example.com/a" "GET" None None in
  let w := mkWorld [Ok (payment_required_response "1000000" "USDC"); Ok (page 200 "<html>")]
             2000000 0 [] in
  exists res tx_hash,
    outcome scripted fetch w = Ok res
    /\ last_sent (calls scripted fetch w) = Some tx_hash
    /\ transaction_hash res = Some (HexBytes_hex tx_hash)
    /\ omap request_headers (after_last_send (calls scripted fetch w)) <> []
    /\ Forall (fun hs : gmap string string =>
                 hs !! "Authorization" = Some ("Bearer " +:+ HexBytes_hex tx_hash))
         (omap request_headers (after_last_send (calls scripted fetch w))).
Proof.
  intros fetch w.
  assert (E : exists res, outcome scripted fetch w = Ok res /\ payment_required res = true).
  { vm_compute. eexists. split; reflexivity. }
  destruct E as (res & E & Hpaid).
  destruct (proof_header_is_payment_hash scripted w (crawler 3)
              "https://example.com/a" "GET" None None res E Hpaid) as (tx_hash & H).
  exists res, tx_hash. split; [exact E | exact H].
Defined.

(** C10: when the last call of a fetch is a request that was answered, a
    transaction was submitted before it, and the answer's status is not 200,
    then that transaction is the confirmed payment and the fetch raises a
    [PaymentError] whose details hold the hash of the payment and the status
    returned; it does not return a result. *)
Theorem rejected_proof_raises_PaymentError {W : Type} (h : handler W) (w : W)
    (self : TachiSDK) (url method : string) (headers : option (gmap string string))
    (body : option string) (paid_response : requests.Response) (tx_hash : list Z) :
  let log := calls h (fetch_with_tachi self url method headers body) w in
  last log ≫= response_of = Some paid_response ->
  last_sent log = Some tx_hash ->
  requests.status_code paid_response <> 200 ->
  outcome h (fetch_with_tachi self url method headers body) w
    = Raise (PaymentError
               ("Payment verification failed: "
                  +:+ str_int (requests.status_code paid_response))
               (VerificationDetails (HexBytes_hex tx_hash)
                  (requests.status_code paid_response)))
  /\ exists receipt,
       head (after_last_send log)
         = Some (Called (WaitForTransactionReceipt tx_hash) (Ok receipt)).
Proof.
  unfold outcome, calls. rewrite fetch_with_tachi_run.
  destruct (run h (_make_http_request self url method (default ∅ headers) body) w)
    as [[r1 w1] l1] eqn:H1.
  apply _make_http_request_log in H1 as (Hhttp1 & _ & _).
  destruct (http_no_send _ Hhttp1) as [Hs1 He1].
  assert (Hnone1 : last_sent l1 = Some tx_hash -> False).
  { unfold last_sent. rewrite Hs1. discriminate. }
  destruct r1 as [initial | e]; [| simpl; intros _ Hs; destruct (Hnone1 Hs)].
  destruct (negb (requests.status_code initial =? 402));
    [simpl; intros _ Hs; destruct (Hnone1 Hs) |].
  destruct (_parse_payment_info initial) as [info | e];
    [| simpl; intros _ Hs; destruct (Hnone1 Hs)].
  destruct (run h (_process_payment self info) w1) as [[r2 w2] l2] eqn:H2.
  pose proof (_process_payment_no_http _ _ _ _ _ _ _ H2) as Hno2.
  destruct r2 as [tx | e].
  - apply _process_payment_returns in H2 as (tx' & receipt & Hsent & Hafter & -> & _ & _).
    pose proof (last_sent_Some_existsb _ _ Hsent) as He2.
    destruct (run h (_make_http_request self url method _ body) w2)
      as [[r3 w3] l3] eqn:H3.
    apply _make_http_request_log in H3 as (Hhttp3 & _ & Hres3).
    destruct (http_no_send _ Hhttp3) as [Hs3 He3].
    assert (Hsent' : last_sent (l1 ++ l2 ++ l3) = Some tx').
    { unfold last_sent in *. rewrite (omap_app _ l1), (omap_app _ l2), Hs1, Hs3. simpl.
      rewrite app_nil_r. exact Hsent. }
    assert (Hlog : after_last_send (l1 ++ l2 ++ l3)
                   = Called (WaitForTransactionReceipt tx') (Ok receipt) :: l3).
    { rewrite after_last_send_prefix; [| exact He1 |].
      - rewrite after_last_send_app; [| exact He2 | exact He3]. rewrite Hafter. reflexivity.
      - rewrite existsb_app, He2. reflexivity. }
    destruct r3 as [paid | e].
    + destruct Hres3 as (l0 & e0 & -> & _ & Hresp & _).
      assert (Hlast : last (l1 ++ l2 ++ l0 ++ [e0]) = Some e0).
      { rewrite !app_assoc. apply last_snoc. }
      destruct (requests.status_code paid =? 200) eqn:H200; simpl;
        rewrite Hlast, Hsent', Hlog; simpl; rewrite Hresp;
        intros [= <-] [= <-] Hstatus.
      * apply Z.eqb_eq in H200. contradiction.
      * split; [reflexivity | eauto].
    + simpl. intros Hlast _ _. exfalso.
      rewrite app_assoc, last_app in Hlast.
      destruct (last l3) as [y |] eqn:Hl3.
      * simpl in Hlast. rewrite (omap_nil_last _ _ _ Hres3 Hl3) in Hlast. discriminate.
      * rewrite last_app in Hlast.
        destruct (last l2) as [y |] eqn:Hl2.
        -- simpl in Hlast. rewrite (no_http_last _ _ Hno2 Hl2) in Hlast. discriminate.
        -- apply last_None in Hl2. subst l2. discriminate.
  - simpl. intros Hlast Hsent _. exfalso.
    rewrite last_app in Hlast.
    destruct (last l2) as [y |] eqn:Hl2.
    + simpl in Hlast. rewrite (no_http_last _ _ Hno2 Hl2) in Hlast. discriminate.
    + apply last_None in Hl2. subst l2. rewrite app_nil_r in Hsent. exact (Hnone1 Hsent).
Qed.

Lemma rejected_proof_raises_PaymentError_witness :
  let fetch := fetch_with_tachi (crawler 3) "https://example.com/a" "GET" None None in
  let w := mkWorld [Ok (payment_required_response "1000000" "USDC"); Ok (page 404 "Not Found")]
             2000000 0 [] in
  outcome scripted fetch w
    = Raise (PaymentError "Payment verification failed: 404"
               (VerificationDetails "0xab01" 404))
  /\ exists receipt,
       head (after_last_send (calls scripted fetch w))
         = Some (Called (WaitForTransactionReceipt [171; 1]) (Ok receipt)).
Proof.
  intros fetch w.
  apply (rejected_proof_raises_PaymentError scripted w (crawler 3)
           "https://example.com/a" "GET" None None (page 404 "Not Found") [171; 1]).
  - vm_compute. reflexivity.
  - vm_compute. reflexivity.
  - discriminate.
Defined.

(** ** Without a signing credential *)

Lemma __init___without_key {W : Type} (h : handler W) (w : W) (c : TachiConfig)
    (self : TachiSDK) :
  private_key c = None \/ private_key c = Some "" ->
  outcome h (__init__ c) w = Ok self ->
  config self = c /\ account self = None.
Proof.
  intros Hkey. unfold outcome, __init__, _initialize_web3, _initialize_account. simpl.
  destruct (h _ (IsConnected (rpc_url c)) w) as [[|] w1]; simpl; [| discriminate].
  destruct Hkey as [-> | ->]; simpl; intros [= <-]; split; reflexivity.
Qed.

(** C6, as the code has it: on an instance built without a private key
    (whether or not an account address is configured) a payment raises at
    once, before any call, a [PaymentError] -- the SDK has no error of its
    own for configuration -- and the balance query raises at once a
    [TachiError] with the code CONFIG_ERROR: it needs the private key too. *)
Theorem no_private_key_no_payment_no_balance {W : Type} (h : handler W) (w : W)
    (c : TachiConfig) (self : TachiSDK) (payment_info : PaymentInfo) :
  private_key c = None \/ private_key c = Some "" ->
  outcome h (__init__ c) w = Ok self ->
  _process_payment self payment_info
    = Throw (PaymentError "Account not initialized. Private key required for payments."
               NoDetails)
  /\ get_usdc_balance self
     = Throw (TachiError "Account not initialized. Private key required." "CONFIG_ERROR"
                NoDetails)
  /\ get_account_address self = None.
Proof.
  intros Hkey Hinit.
  destruct (__init___without_key h w c self Hkey Hinit) as [_ Hacc].
  unfold _process_payment, get_usdc_balance, get_account_address. rewrite Hacc.
  repeat split.
Qed.

Lemma no_private_key_no_payment_no_balance_witness :
  exists self,
    outcome scripted (__init__ read_only_config) (mkWorld [] 2000000 0 []) = Ok self
    /\ _process_payment self (terms (PStr "1") (PStr "USDC"))
       = Throw (PaymentError "Account not initialized. Private key required for payments."
                  NoDetails)
    /\ get_usdc_balance self
       = Throw (TachiError "Account not initialized. Private key required." "CONFIG_ERROR"
                  NoDetails)
    /\ get_account_address self = None.
Proof.
  exists (mkTachiSDK read_only_config None).
  split; [reflexivity |].
  apply (no_private_key_no_payment_no_balance scripted (mkWorld [] 2000000 0 [])
           read_only_config).
  - left. reflexivity.
  - reflexivity.
Defined.

(** C6, as stated, fails: with an account address and no private key, a
    payment fails with the code PAYMENT_ERROR, not CONFIG_ERROR, and the
    balance query is not available: it raises, and no balance is read. *)
Lemma read_only_client_has_no_balance_query :
  let w := mkWorld [] 2000000 0 [] in
  exists self,
    outcome scripted (__init__ read_only_config) w = Ok self
    /\ account_address (config self) = Some "0x1111111111111111111111111111111111111111"
    /\ (exists e, outcome scripted (_process_payment self (terms (PStr "1") (PStr "USDC"))) w
                  = Raise e
                  /\ is_PaymentError e = true /\ exn_code e <> Some "CONFIG_ERROR")
    /\ (exists e, outcome scripted (get_usdc_balance self) w = Raise e
                  /\ exn_code e = Some "CONFIG_ERROR")
    /\ calls scripted (get_usdc_balance self) w = [].
Proof.
  exists (mkTachiSDK read_only_config None).
  split; [reflexivity |]. split; [reflexivity |].
  split; [eexists; split; [reflexivity | split; [reflexivity | discriminate]] |].
  split; [eexists; split; reflexivity | reflexivity].
Qed.

(** * Further properties *)

(** ** The HTTP client: the retry schedule *)

Lemma range_cons a b : a < b -> range a b = a :: range (a + 1) b.
Proof.
  intros H. unfold range.
  replace (Z.to_nat (b - a)) with (S (Z.to_nat (b - (a + 1)))) by lia.
  simpl. f_equal; [lia |].
  rewrite <- seq_shift, map_map. apply map_ext. intros i. lia.
Qed.

Lemma range_nil a b : b <= a -> range a b = [].
Proof. intros H. unfold range. replace (Z.to_nat (b - a)) with O by lia. reflexivity. Qed.

Lemma attempt_loop_schedule {W : Type} (h : handler W) (self : TachiSDK)
    (url method : string) (headers : gmap string string) (body : option string) (k : nat) :
  forall (a : Z) (last_error : option exn) (w : W),
    max_retries (config self) + 1 - a = Z.of_nat k ->
    let log := calls h (attempt_loop self url method headers body
                          (range a (max_retries (config self) + 1)) last_error) w in
    (requests_made log <= k)%nat
    /\ (k <> O -> requests_made log <> O)
    /\ sleeps log = map (fun i => 2 ^ i) (range a (a + Z.of_nat (requests_made log) - 1)).
Proof.
  induction k as [| k IH]; intros a last_error w Hk log; subst log.
  - rewrite range_nil by lia. unfold calls, requests_made, sleeps. simpl.
    rewrite range_nil by lia. repeat split; [lia | congruence].
  - rewrite range_cons by lia.
    specialize (IH (a + 1)).
    unfold calls in *. simpl.
    destruct (h _ (SessionRequest method url headers body (timeout (config self))) w)
      as [[response | error] w1]; simpl.
    + unfold requests_made, sleeps. simpl. rewrite range_nil by lia.
      repeat split; [lia | discriminate].
    + destruct (is_RequestException error); simpl.
      * destruct (Z.eqb_spec a (max_retries (config self))); simpl.
        { unfold requests_made, sleeps. simpl. rewrite range_nil by lia.
          repeat split; [lia | discriminate]. }
        destruct (h _ (Sleep (2 ^ a)) w1) as [[] w2].
        specialize (IH (Some error) w2 ltac:(lia)).
        destruct IH as (Hle & Hpos & Hsl).
        destruct (run h (attempt_loop self url method headers body
                           (range (a + 1) (max_retries (config self) + 1)) (Some error)) w2)
          as [[r2 w3] l2].
        simpl in *. unfold requests_made, sleeps in *. simpl.
        specialize (Hpos ltac:(lia)).
        repeat split; [lia | discriminate |].
        rewrite Hsl.
        rewrite (range_cons a) by lia. cbn [map]. do 3 f_equal. lia.
      * unfold requests_made, sleeps. simpl. rewrite range_nil by lia.
        repeat split; [lia | discriminate].
Qed.

(** X1: Whatever the environment, a call makes at most [max_retries] requests,
    and the pauses it takes are 2, 4, 8, ... in this order, one after each
    request but the last. *)
Theorem retry_schedule {W : Type} (h : handler W) (w : W) (self : TachiSDK)
    (url method : string) (headers : gmap string string) (body : option string) :
  let log := calls h (_make_http_request self url method headers body) w in
  (requests_made log <= Z.to_nat (max_retries (config self)))%nat
  /\ sleeps log = map (fun i => 2 ^ i) (range 1 (Z.of_nat (requests_made log))).
Proof.
  intros log. subst log. unfold _make_http_request.
  destruct (Z.le_gt_cases 0 (max_retries (config self))) as [Hn | Hn].
  - destruct (attempt_loop_schedule h self url method
                (<["User-Agent" := user_agent (config self)]> headers) body
                (Z.to_nat (max_retries (config self))) 1 None w ltac:(lia))
      as (Hle & _ & Hsl).
    split; [exact Hle |]. rewrite Hsl. do 2 f_equal. lia.
  - rewrite range_nil by lia. unfold calls, requests_made, sleeps. simpl.
    split; [lia | reflexivity].
Qed.

Lemma attempt_loop_exhausted {W : Type} (h : handler W) (self : TachiSDK)
    (url method : string) (headers : gmap string string) (body : option string) (k : nat) :
  transport_fails h ->
  forall (a : Z) (last_error : option exn) (w : W),
    max_retries (config self) - a = Z.of_nat k ->
    let p := attempt_loop self url method headers body
               (range a (max_retries (config self) + 1)) last_error in
    requests_made (calls h p w) = S k
    /\ exists d, outcome h p w
                 = Raise (NetworkError
                            ("Request failed after " +:+ str_int (max_retries (config self))
                               +:+ " attempts")
                            (RequestDetails url d))
                 /\ last (omap failure_of (calls h p w)) = Some (PyError RequestException d).
Proof.
  intros Hfail. induction k as [| k IH]; intros a last_error w Hk p; subst p;
    rewrite range_cons by lia; unfold calls, outcome in *; simpl;
    destruct (Hfail method url headers body (timeout (config self)) w) as [d Hd];
    destruct (h _ (SessionRequest method url headers body (timeout (config self))) w)
      as [r1 w1]; simpl in Hd; subst r1; simpl.
  - replace (a =? max_retries (config self)) with true by (symmetry; apply Z.eqb_eq; lia).
    simpl. split; [reflexivity |]. exists d. split; reflexivity.
  - replace (a =? max_retries (config self)) with false by (symmetry; apply Z.eqb_neq; lia).
    simpl. destruct (h _ (Sleep (2 ^ a)) w1) as [[] w2].
    specialize (IH (a + 1) (Some (PyError RequestException d)) w2 ltac:(lia)).
    destruct (run h (attempt_loop self url method headers body
                       (range (a + 1) (max_retries (config self) + 1))
                       (Some (PyError RequestException d))) w2) as [[r2 w3] l2].
    simpl in *. destruct IH as (Hreq & d' & Hout & Hlast).
    unfold requests_made in *. simpl. split; [congruence |].
    exists d'. split; [exact Hout |].
    change (last (PyError RequestException d :: omap failure_of l2)
            = Some (PyError RequestException d')).
    destruct (omap failure_of l2); [discriminate | exact Hlast].
Qed.

(** X2: With a transport that fails on every attempt and [max_retries = n >= 1],
    a call makes exactly [n] requests, pauses 2, 4, ..., 2^(n-1) between
    them, and raises the [NetworkError] that names [n] and carries the
    description of the last failure. *)
Theorem retry_exhausted {W : Type} (h : handler W) (w : W) (self : TachiSDK)
    (url method : string) (headers : gmap string string) (body : option string) :
  1 <= max_retries (config self) ->
  transport_fails h ->
  let log := calls h (_make_http_request self url method headers body) w in
  requests_made log = Z.to_nat (max_retries (config self))
  /\ sleeps log = map (fun i => 2 ^ i) (range 1 (max_retries (config self)))
  /\ exists d,
       last (omap failure_of log) = Some (PyError RequestException d)
       /\ outcome h (_make_http_request self url method headers body) w
          = Raise (NetworkError
                     ("Request failed after " +:+ str_int (max_retries (config self))
                        +:+ " attempts")
                     (RequestDetails url d)).
Proof.
  intros Hn Hfail log. subst log. unfold _make_http_request.
  destruct (attempt_loop_schedule h self url method
              (<["User-Agent" := user_agent (config self)]> headers) body
              (Z.to_nat (max_retries (config self))) 1 None w ltac:(lia))
    as (_ & _ & Hsl).
  destruct (attempt_loop_exhausted h self url method
              (<["User-Agent" := user_agent (config self)]> headers) body
              (Z.to_nat (max_retries (config self) - 1)) Hfail 1 None w ltac:(lia))
    as (Hreq & d & Hout & Hlast).
  split; [rewrite Hreq; lia |].
  split.
  { rewrite Hsl, Hreq. do 2 f_equal. lia. }
  exists d. split; assumption.
Qed.

Lemma retry_exhausted_witness :
  let log := calls unplugged
               (_make_http_request (crawler 3) "https://example.com/a" "GET" ∅ None)
               (mkWorld [] 0 0 []) in
  requests_made log = 3%nat /\ sleeps log = [2; 4].
Proof.
  intros log.
  destruct (retry_exhausted unplugged (mkWorld [] 0 0 []) (crawler 3)
              "https://example.com/a" "GET" ∅ None) as (Hreq & Hsl & _).
  - simpl. lia.
  - intros method url headers data timeout w. exists "Connection refused". reflexivity.
  - split; [exact Hreq | exact Hsl].
Defined.

(** ** The HTTP client: what ends a call *)

(** X3: The responses received during a call are the one it returns: an answer
    of any status ends the retries and is returned as it is, and it is the
    last call made; a call that raises received no answer. *)
Theorem first_answer_is_returned {W : Type} (h : handler W) (w : W) (self : TachiSDK)
    (url method : string) (headers : gmap string string) (body : option string) :
  let log := calls h (_make_http_request self url method headers body) w in
  match outcome h (_make_http_request self url method headers body) w with
  | Ok response =>
      omap response_of log = [response]
      /\ last log ≫= response_of = Some response
  | Raise _ => omap response_of log = []
  end.
Proof.
  intros log. subst log.
  pose proof (_make_http_request_log h self url method headers body w _ _ _
                (run_eta h _ w)) as (_ & _ & Hres).
  destruct (outcome h (_make_http_request self url method headers body) w)
    as [response | e]; [| exact Hres].
  destruct Hres as (l0 & e & -> & _ & He & Hnone).
  rewrite omap_app, Hnone, last_snoc. simpl. rewrite He. split; reflexivity.
Qed.

Lemma attempt_loop_raises {W : Type} (h : handler W) (self : TachiSDK)
    (url method : string) (headers : gmap string string) (body : option string) (k : nat) :
  forall (a : Z) (last_error : option exn) (w w' : W) (e : exn) (l : list entry),
    max_retries (config self) + 1 - a = Z.of_nat k ->
    run h (attempt_loop self url method headers body
             (range a (max_retries (config self) + 1)) last_error) w = (Raise e, w', l) ->
    (k = O /\ l = []
     /\ e = NetworkError ("Request failed: " +:+ from_option exn_str "None" last_error)
              NoDetails)
    \/ (exists d,
          requests_made l = k
          /\ last (omap failure_of l) = Some (PyError RequestException d)
          /\ e = NetworkError
                  ("Request failed after " +:+ str_int (max_retries (config self))
                     +:+ " attempts")
                  (RequestDetails url d))
    \/ (is_RequestException e = false /\ last (omap failure_of l) = Some e).
Proof.
  induction k as [| k IH]; intros a last_error w w' e l Hk Hrun.
  - rewrite range_nil in Hrun by lia. simpl in Hrun. simplify_eq. left. auto.
  - rewrite range_cons in Hrun by lia. simpl in Hrun.
    destruct (h _ (SessionRequest method url headers body (timeout (config self))) w)
      as [[response | error] w1]; simpl in Hrun; [discriminate |].
    destruct (is_RequestException error) eqn:Hcls; simpl in Hrun.
    + destruct error as [| | | cls d]; try discriminate.
      destruct cls; try discriminate.
      destruct (Z.eqb_spec a (max_retries (config self))); simpl in Hrun.
      { simplify_eq. right. left. exists d. unfold requests_made. simpl.
        repeat split. lia. }
      destruct (h _ (Sleep (2 ^ a)) w1) as [[] w2].
      destruct (run h (attempt_loop self url method headers body
                         (range (a + 1) (max_retries (config self) + 1))
                         (Some (PyError RequestException d))) w2)
        as [[r2 w3] l2] eqn:Hrest.
      simplify_eq.
      apply (IH (a + 1)) in Hrest as [(Hk0 & _) | [(d' & Hreq & Hlast & ->) | (Hcls' & Hlast)]];
        [lia | | | lia].
      * right. left. exists d'. unfold requests_made in *. simpl.
        split; [congruence |]. split; [| reflexivity].
        change (last (PyError RequestException d :: omap failure_of l2)
                = Some (PyError RequestException d')).
        destruct (omap failure_of l2); [discriminate | exact Hlast].
      * right. right. split; [exact Hcls' |].
        change (last (PyError RequestException d :: omap failure_of l2) = Some e).
        destruct (omap failure_of l2); [discriminate | exact Hlast].
    + simplify_eq. right. right. split; [exact Hcls | reflexivity].
Qed.

(** X4: What a call can raise.  Either nothing was requested because
    [max_retries] is not positive, and the error is the [NetworkError]
    'Request failed: None' of the statement after the loop; or [max_retries]
    requests failed with a [RequestException], and the error is the
    [NetworkError] that carries the description of the last one; or the
    session raised an exception that is not a [RequestException], which
    passes unchanged.  A [RequestException] itself is never let through. *)
Theorem http_client_errors {W : Type} (h : handler W) (w : W) (self : TachiSDK)
    (url method : string) (headers : gmap string string) (body : option string) (e : exn) :
  let log := calls h (_make_http_request self url method headers body) w in
  outcome h (_make_http_request self url method headers body) w = Raise e ->
  (max_retries (config self) <= 0 /\ log = []
   /\ e = NetworkError "Request failed: None" NoDetails)
  \/ (exists d,
        requests_made log = Z.to_nat (max_retries (config self))
        /\ last (omap failure_of log) = Some (PyError RequestException d)
        /\ e = NetworkError
                ("Request failed after " +:+ str_int (max_retries (config self))
                   +:+ " attempts")
                (RequestDetails url d))
  \/ (is_RequestException e = false /\ last (omap failure_of log) = Some e).
Proof.
  intros log Hout. subst log.
  pose proof (run_eta h (_make_http_request self url method headers body) w) as Hrun.
  rewrite Hout in Hrun. unfold _make_http_request in *.
  destruct (Z.le_gt_cases (max_retries (config self)) 0) as [Hn | Hn].
  - left. split; [exact Hn |].
    rewrite range_nil in * by lia. simpl in Hrun. simplify_eq.
    unfold calls. simpl. split; reflexivity.
  - apply (attempt_loop_raises h self url method _ body
             (Z.to_nat (max_retries (config self))) 1 None) in Hrun; [| lia].
    destruct Hrun as [(Hk0 & _) | [(d & Hreq & Hlast & ->) | H]]; [lia | |].
    + right. left. exists d. repeat split; assumption.
    + right. right. exact H.
Qed.

Lemma http_client_errors_witness :
  exists d,
    outcome unplugged
      (_make_http_request (crawler 2) "https://example.com/a" "GET" ∅ None)
      (mkWorld [] 0 0 [])
    = Raise (NetworkError "Request failed after 2 attempts"
               (RequestDetails "https://example.com/a" d)).
Proof.
  destruct (http_client_errors unplugged (mkWorld [] 0 0 []) (crawler 2)
              "https://example.com/a" "GET" ∅ None
              (NetworkError "Request failed after 2 attempts"
                 (RequestDetails "https://example.com/a" "Connection refused")))
    as [(Hn & _) | [(d & _ & _ & He) | (_ & Hlast)]].
  - vm_compute. reflexivity.
  - simpl in Hn. lia.
  - exists "Connection refused". vm_compute. reflexivity.
  - vm_compute in Hlast. discriminate.
Defined.

Lemma attempt_loop_requests {W : Type} (h : handler W) (self : TachiSDK)
    (url method : string) (headers : gmap string string) (body : option string)
    (attempts : list Z) :
  forall (last_error : option exn) (w : W),
    let log := calls h (attempt_loop self url method headers body attempts last_error) w in
    omap request_of log
    = replicate (requests_made log) (method, url, headers, body, timeout (config self)).
Proof.
  induction attempts as [| attempt rest IH]; intros last_error w; unfold calls in *; simpl.
  - reflexivity.
  - destruct (h _ (SessionRequest method url headers body (timeout (config self))) w)
      as [[response | error] w1]; simpl; [reflexivity |].
    destruct (is_RequestException error); simpl; [| reflexivity].
    destruct (attempt =? max_retries (config self)); simpl; [reflexivity |].
    destruct (h _ (Sleep (2 ^ attempt)) w1) as [[] w2].
    specialize (IH (Some error) w2). simpl in IH.
    destruct (run h (attempt_loop self url method headers body rest (Some error)) w2)
      as [[r2 w3] l2].
    unfold requests_made in *. simpl in *. f_equal. exact IH.
Qed.

(** X5: Every request of a call is the same request: the method, URL, body and
    timeout it was given, and the caller's headers with [User-Agent] set to
    the configured agent, whatever the caller had put there. *)
Theorem every_attempt_repeats_the_request {W : Type} (h : handler W) (w : W)
    (self : TachiSDK) (url method : string) (headers : gmap string string)
    (body : option string) :
  let log := calls h (_make_http_request self url method headers body) w in
  exists hs,
    omap request_of log
    = replicate (requests_made log) (method, url, hs, body, timeout (config self))
    /\ hs !! "User-Agent" = Some (user_agent (config self))
    /\ (forall name, name <> "User-Agent" -> hs !! name = headers !! name).
Proof.
  intros log. subst log.
  exists (<["User-Agent" := user_agent (config self)]> headers).
  split; [apply attempt_loop_requests |].
  split; [apply lookup_insert_eq |].
  intros name Hname. apply lookup_insert_ne. congruence.
Qed.

(** ** The terms parser: errors, defaults and precedence *)

Lemma library_bind_eq {A B : Type} (r : result A) (f : A -> result B) :
  library_outcome r -> (forall a, r = Ok a -> library_outcome (f a)) ->
  library_outcome (r ≫= f).
Proof. destruct r as [a | e]; simpl; auto. Qed.

Lemma library__parse_payment_info (response : requests.Response) :
  library_outcome (_parse_payment_info response).
Proof.
  unfold _parse_payment_info.
  apply library_bind; [auto using library_or_else, library_payment_field |]. intros amount0.
  apply library_bind.
  { destruct (_ && _); [| exact I].
    apply library_bind; [apply library_Decimal_of |]. intros d0.
    apply library_bind; [apply library_truediv |]. intros q. exact I. }
  intros amount1.
  apply library_bind; [auto using library_or_else, library_payment_field |]. intros cur.
  apply library_bind; [apply library_payment_field |]. intros net.
  apply library_bind; [auto using library_or_else, library_payment_field |]. intros ch.
  apply library_bind; [apply library_py_int |]. intros chn.
  apply library_bind; [auto using library_or_else, library_payment_field |]. intros rc.
  apply library_bind_eq; [apply library_to_checksum_address |]. intros rcc Hrcc.
  apply library_bind; [auto using library_or_else, library_payment_field |]. intros tk.
  apply library_bind_eq; [apply library_to_checksum_address |]. intros tkc Htkc.
  apply library_bind; [apply library_payment_field |]. intros tid.
  rewrite (to_checksum_address_truthy _ _ Hrcc), (to_checksum_address_truthy _ _ Htkc).
  exact I.
Qed.

(** X6: Whatever the parser raises is an exception of the libraries it calls
    ([AttributeError], [ValueError], [TypeError], the signals of [decimal]):
    never one of the SDK's own errors.  Its closing validation cannot fail,
    both addresses having passed [to_checksum_address]. *)
Theorem parser_raises_only_library_errors (response : requests.Response) (e : exn) :
  _parse_payment_info response = Raise e -> exists cls m, e = PyError cls m.
Proof.
  intros H. pose proof (library__parse_payment_info response) as Hlib.
  rewrite H in Hlib. destruct e; try contradiction. eauto.
Qed.

Lemma parser_raises_only_library_errors_witness :
  exists cls m,
    PyError ValueError "Unknown format '', attempted to normalize to '0x'" = PyError cls m.
Proof.
  apply (parser_raises_only_library_errors bare_402).
  vm_compute. reflexivity.
Defined.

(** X7: With none of the five headers and a body whose [payment] object gives
    the two addresses and nothing else, the terms take the defaults: amount
    '0', currency 'USDC', network 'Base', chain id 8453, no token id.  The
    payment step reads that amount as 0 base units. *)
Theorem parse_body_defaults (response : requests.Response) (body payment : list (string * pyval))
    (r t : pyval) (r' t' : string) :
  Forall (fun name => requests.get (requests.headers response) name = None) x402_headers ->
  requests.json response = Some (PDict body) ->
  assoc "payment" body = Some (PDict payment) ->
  Forall (fun k => assoc k payment = None)
    ["amount"; "currency"; "network"; "chainId"; "tokenId"] ->
  assoc "recipient" payment = Some r ->
  assoc "tokenAddress" payment = Some t ->
  to_checksum_address r = Ok r' ->
  to_checksum_address t = Ok t' ->
  let info := mkPaymentInfo (PStr "0") (PStr "USDC") (PStr "Base") 8453 r' t' PNone in
  _parse_payment_info response = Ok info /\ amount_in_wei info = Ok 0.
Proof.
  intros Hh Hjson Hpay Hk Hr Ht Hr' Ht' info. subst info.
  split; [| vm_compute; reflexivity].
  repeat (apply Forall_cons in Hh as [? Hh]). repeat (apply Forall_cons in Hk as [? Hk]).
  cbv beta in *.
  unfold _parse_payment_info, header, payment_field, py_get.
  repeat match goal with H : requests.get _ _ = None |- _ => rewrite H; clear H end.
  rewrite Hjson. simpl default. simpl from_option.
  unfold mbind, result_bind, or_else. simpl truthy. cbv iota. simpl andb. cbv iota.
  rewrite Hpay. simpl default. cbv beta iota.
  repeat match goal with H : assoc _ payment = _ |- _ => rewrite H; clear H end.
  simpl default. change (py_int (PInt 8453)) with (Ok 8453 : result Z). cbv iota beta.
  rewrite Hr', Ht'.
  pose proof (to_checksum_address_truthy _ _ Hr') as Hr1.
  pose proof (to_checksum_address_truthy _ _ Ht') as Ht1.
  simpl in Hr1, Ht1. rewrite Hr1, Ht1. reflexivity.
Qed.

Lemma parse_body_defaults_witness :
  _parse_payment_info body_only_402
  = Ok (mkPaymentInfo (PStr "0") (PStr "USDC") (PStr "Base") 8453 processor usdc_sepolia PNone).
Proof.
  assert (Hr : to_checksum_address (PStr processor) = Ok processor) by (vm_compute; reflexivity).
  assert (Ht : to_checksum_address (PStr usdc_sepolia) = Ok usdc_sepolia)
    by (vm_compute; reflexivity).
  apply (parse_body_defaults body_only_402
           [("payment", PDict [("recipient", PStr processor);
                               ("tokenAddress", PStr usdc_sepolia)])]
           [("recipient", PStr processor); ("tokenAddress", PStr usdc_sepolia)]
           (PStr processor) (PStr usdc_sepolia) processor usdc_sepolia);
    try reflexivity; try assumption.
  - repeat constructor.
  - repeat constructor.
Defined.

(** X8: A header that is present and not empty decides its field, whatever the
    body says: recipient and token contract are the checksummed headers, the
    chain id is the header read as an integer, the currency is the header.
    Network and token id have no header: they are read from the body. *)
Theorem headers_take_precedence (response : requests.Response) (info : PaymentInfo) :
  _parse_payment_info response = Ok info ->
  let body := default (PDict []) (requests.json response) in
  (forall r, requests.get (requests.headers response) "x402-recipient" = Some r -> r <> "" ->
     to_checksum_address (PStr r) = Ok (recipient info))
  /\ (forall t, requests.get (requests.headers response) "x402-contract" = Some t -> t <> "" ->
        to_checksum_address (PStr t) = Ok (token_address info))
  /\ (forall k, requests.get (requests.headers response) "x402-chain-id" = Some k -> k <> "" ->
        int_of_str k = Ok (chain_id info))
  /\ (forall c, requests.get (requests.headers response) "x402-currency" = Some c -> c <> "" ->
        currency info = PStr c)
  /\ payment_field body "network" (PStr "Base")
     = Ok (let 'mkPaymentInfo _ _ network _ _ _ _ := info in network)
  /\ payment_field body "tokenId" PNone = Ok (token_id info).
Proof.
  intros H body. subst body. unfold _parse_payment_info in H.
  peel H amount0 H0. peel H amount1 H1.
  peel H cur Hcur. peel H net Hnet. peel H ch Hch. peel H chn Hchn.
  peel H rc Hrc. peel H rcc Hrcc. peel H tk Htk. peel H tkc Htkc. peel H tid Htid.
  destruct (_ || _); [discriminate |]. injection H as <-. simpl.
  unfold header, or_else in *.
  repeat split.
  - intros r Hr Hne. rewrite Hr in Hrc. simpl from_option in Hrc.
    rewrite (truthy_PStr r Hne) in Hrc. congruence.
  - intros t Ht Hne. rewrite Ht in Htk. simpl from_option in Htk.
    rewrite (truthy_PStr t Hne) in Htk. congruence.
  - intros k Hk Hne. rewrite Hk in Hch. simpl from_option in Hch.
    rewrite (truthy_PStr k Hne) in Hch. injection Hch as <-. exact Hchn.
  - intros c Hc Hne. rewrite Hc in Hcur. simpl from_option in Hcur.
    rewrite (truthy_PStr c Hne) in Hcur. congruence.
  - exact Hnet.
  - exact Htid.
Qed.

Lemma headers_take_precedence_witness :
  to_checksum_address (PStr processor) = Ok processor
  /\ int_of_str "84532" = Ok 84532.
Proof.
  assert (Hparse : _parse_payment_info (payment_required_response "1000000" "USDC")
                   = Ok (terms (PStr "1") (PStr "USDC"))).
  { vm_compute. reflexivity. }
  destruct (headers_take_precedence _ _ Hparse) as (Hr & _ & Hk & _).
  split.
  - apply (Hr processor); [vm_compute; reflexivity | discriminate].
  - apply (Hk "84532"); [vm_compute; reflexivity | discriminate].
Defined.

(** X9: A 402 answer whose JSON body is not an object, or whose [payment] entry
    is not an object, is never parsed, even with all five headers present:
    the parser raises the [AttributeError] of the [get] it calls on that
    value -- unless the conversion of the price header has already raised. *)
Theorem non_object_body_never_parses (response : requests.Response) (b x : pyval) :
  requests.json response = Some b ->
  (forall d, x <> PDict d) ->
  x = b \/ (exists d, b = PDict d /\ assoc "payment" d = Some x) ->
  _parse_payment_info response = Raise (no_get x)
  \/ (truthy (header response "x402-price") && is_USDC (header response "x402-currency") = true
      /\ exists e,
           (d ← Decimal_of (header response "x402-price");
            truediv d (Decimal_of_int (10 ^ 6))) = Raise e
           /\ _parse_payment_info response = Raise e).
Proof.
  intros Hjson Hx Hb.
  assert (Hpf : forall k dflt, payment_field b k dflt = Raise (no_get x)).
  { intros k dflt. unfold payment_field, py_get.
    destruct Hb as [<- | (d & -> & Hp)].
    - destruct x; try reflexivity. exfalso. eapply Hx. reflexivity.
    - rewrite Hp. simpl. destruct x; try reflexivity. exfalso. eapply Hx. reflexivity. }
  unfold _parse_payment_info. rewrite Hjson. simpl default. unfold or_else.
  rewrite !Hpf.
  destruct (truthy (header response "x402-price")) eqn:Hprice; [| left; reflexivity].
  simpl andb.
  destruct (is_USDC (header response "x402-currency")) eqn:Hcur.
  - destruct (Decimal_of (header response "x402-price")) as [d0 | e] eqn:Hd.
    + destruct (truediv d0 (Decimal_of_int (10 ^ 6))) as [q | e] eqn:Hq.
      * left. simpl. rewrite Hq. simpl.
        destruct (truthy (header response "x402-currency")); reflexivity.
      * right. split; [reflexivity |]. exists e. simpl. rewrite Hq. split; reflexivity.
    + right. split; [reflexivity |]. exists e. split; reflexivity.
  - left. simpl. destruct (truthy (header response "x402-currency")); reflexivity.
Qed.

Lemma non_object_body_never_parses_witness :
  _parse_payment_info list_body_402
  = Raise (PyError AttributeError "'list' object has no attribute 'get'").
Proof.
  destruct (non_object_body_never_parses list_body_402 (PList []) (PList []))
    as [H | (_ & e & He & _)].
  - reflexivity.
  - discriminate.
  - left. reflexivity.
  - exact H.
  - vm_compute in He. discriminate.
Defined.

(** ** The settlement step: errors, custody and order *)

(** As [step_run], keeping the equation of each pure conversion. *)
Ltac follow_run h H :=
  match type of H with
  | context [h ?X ?ev ?w] =>
      let a := fresh "a" in
      let w' := fresh "w" in
      destruct (h X ev w) as [a w']; try destruct a as [? | ?]; simpl in H
  | context [lift (balance_in_usdc ?b)] =>
      let E := fresh "Hbal" in
      destruct (balance_in_usdc b) as [? | ?] eqn:E; simpl in H
  | context [if ?x <? ?y then _ else _] =>
      destruct (Z.ltb_spec x y); simpl in H
  end.

Ltac follow_process h H Hacc Hamt :=
  unfold _process_payment in H; rewrite Hacc, Hamt in H; simpl in H;
  repeat follow_run h H; injection H as <- <- <-.

(** X10: What the settlement step raises, for a client with an account.  An
    amount that [Decimal] or [int] cannot convert raises their error as it
    is, before any call is made.  Every later failure -- of a ledger call,
    and also the insufficient balance that the step itself detects -- is
    raised as the [PaymentError] 'Payment transaction failed: ...' whose
    details are the terms and the text of the cause; for an insufficient
    balance the cause is the text 'Insufficient USDC balance. ...'. *)
Theorem settlement_errors {W : Type} (h : handler W) (w : W) (self : TachiSDK)
    (acct : Account) (info : PaymentInfo) :
  account self = Some acct ->
  match amount_in_wei info with
  | Raise e => run h (_process_payment self info) w = (Raise e, w, [])
  | Ok required =>
      forall e, outcome h (_process_payment self info) w = Raise e ->
        exists cause,
          e = PaymentError ("Payment transaction failed: " +:+ cause)
                (FailureDetails info cause)
          /\ (forall b available,
                balance_read (calls h (_process_payment self info) w) = Some b ->
                b < required ->
                balance_in_usdc b = Ok available ->
                cause = "Insufficient USDC balance. Required: " +:+ py_str (amount info)
                          +:+ ", Available: " +:+ available)
  end.
Proof.
  intros Hacc.
  destruct (amount_in_wei info) as [required | e] eqn:Hamt.
  - intros e. unfold outcome, calls.
    destruct (run h (_process_payment self info) w) as [[r w'] log] eqn:Hrun. simpl.
    follow_process h Hrun Hacc Hamt; intros He; try discriminate; injection He as <-;
      (eexists; split; [reflexivity |]);
      intros b available Hb Hlt Hav; unfold balance_read in Hb; simpl in Hb;
      simplify_eq; try lia;
      match goal with
      | Hbal : balance_in_usdc ?b = _, Hav' : balance_in_usdc ?b = Ok _ |- _ =>
          rewrite Hbal in Hav'; simplify_eq
      end;
      reflexivity.
  - unfold _process_payment. rewrite Hacc, Hamt. reflexivity.
Qed.

Lemma settlement_errors_witness :
  run scripted (_process_payment (crawler 3) (terms (PStr "one") (PStr "USDC")))
    (mkWorld [] 2000000 0 [])
  = (Raise (PyError InvalidOperation "[<class 'decimal.ConversionSyntax'>]"),
     mkWorld [] 2000000 0 [], []).
Proof.
  pose proof (settlement_errors scripted (mkWorld [] 2000000 0 []) (crawler 3)
                (mkAccount "0x1111111111111111111111111111111111111111" "0xkey")
                (terms (PStr "one") (PStr "USDC")) eq_refl) as H.
  assert (E : amount_in_wei (terms (PStr "one") (PStr "USDC"))
              = Raise (PyError InvalidOperation "[<class 'decimal.ConversionSyntax'>]")).
  { vm_compute. reflexivity. }
  rewrite E in H. exact H.
Defined.

(** X11: Chain of custody, on every path: what is signed is what a build
    returned, in the same order, and the signer is the account of the
    instance; what is submitted is what a signature returned.  Nothing else
    is signed or submitted, and a transaction that was built and signed is
    always submitted. *)
Theorem only_built_is_signed_only_signed_is_sent {W : Type} (h : handler W) (w : W)
    (self : TachiSDK) (info : PaymentInfo) :
  let log := calls h (_process_payment self info) w in
  map snd (omap signed_tx log) = omap built_tx log
  /\ Forall (fun st => account self = Some (fst st)) (omap signed_tx log)
  /\ omap sent_raw log = omap signed_raw log.
Proof.
  intros log. subst log. unfold calls.
  destruct (run h (_process_payment self info) w) as [[r w'] log] eqn:Hrun. simpl.
  destruct (account self) as [acct |] eqn:Hacc;
    [| unfold _process_payment in Hrun; rewrite Hacc in Hrun; simpl in Hrun;
       simplify_eq; repeat split; constructor].
  destruct (amount_in_wei info) as [required | e] eqn:Hamt;
    [| unfold _process_payment in Hrun; rewrite Hacc, Hamt in Hrun; simpl in Hrun;
       simplify_eq; repeat split; constructor].
  follow_process h Hrun Hacc Hamt; repeat split; repeat constructor.
Qed.

(** X12: Every transaction the step builds is one of the two the terms call for:
    an approval of the recipient for exactly the required amount on the
    token contract, with gas 100000, or a [payPublisher] of exactly the
    required amount on the recipient, with gas 200000; each is sent from the
    account's address, with the gas price and the transaction count read for
    it.  The balance and the allowance read are those of the account on the
    token contract of the terms. *)
Theorem transactions_follow_the_terms {W : Type} (h : handler W) (w : W)
    (self : TachiSDK) (acct : Account) (info : PaymentInfo) (required : Z) :
  account self = Some acct ->
  amount_in_wei info = Ok required ->
  let log := calls h (_process_payment self info) w in
  let builds := omap build_of log in
  Forall (fun cp =>
            from (snd cp) = address acct
            /\ ((fst cp = approve (token_address info) (recipient info) required
                 /\ gas (snd cp) = 100000)
                \/ (fst cp = payPublisher (recipient info) (publisher_of self info) required
                    /\ gas (snd cp) = 200000))) builds
  /\ map (fun cp => gasPrice (snd cp)) builds
     = take (length builds) (omap gas_price_answer log)
  /\ map (fun cp => nonce (snd cp)) builds
     = take (length builds) (omap nonce_answer log)
  /\ Forall (fun e =>
               match e with
               | Called (BalanceOf token owner) _ =>
                   token = Some (token_address info) /\ owner = address acct
               | Called (Allowance token owner spender) _ =>
                   token = token_address info /\ owner = address acct
                   /\ spender = recipient info
               | Called (GetTransactionCount owner) _ => owner = address acct
               | _ => True
               end) log.
Proof.
  intros Hacc Hamt log builds. subst builds log. unfold calls, publisher_of.
  destruct (run h (_process_payment self info) w) as [[r w'] log] eqn:Hrun. simpl.
  follow_process h Hrun Hacc Hamt; simpl;
    (split; [repeat constructor; simpl; tauto |]);
    (split; [reflexivity |]); (split; [reflexivity |]);
    repeat constructor.
Qed.

Lemma transactions_follow_the_terms_witness :
  let log := calls scripted (_process_payment (crawler 3) (terms (PStr "1") (PStr "USDC")))
               (mkWorld [] 2000000 0 []) in
  map fst (omap build_of log)
  = [approve usdc_sepolia processor 1000000; payPublisher processor processor 1000000]
  /\ map (fun cp => nonce (snd cp)) (omap build_of log) = [0; 1].
Proof.
  intros log.
  assert (Hamt : amount_in_wei (terms (PStr "1") (PStr "USDC")) = Ok 1000000).
  { vm_compute. reflexivity. }
  destruct (transactions_follow_the_terms scripted (mkWorld [] 2000000 0 []) (crawler 3)
              (mkAccount "0x1111111111111111111111111111111111111111" "0xkey")
              (terms (PStr "1") (PStr "USDC")) 1000000 eq_refl Hamt) as (_ & _ & Hn & _).
  split; [vm_compute; reflexivity |].
  fold log in Hn. rewrite Hn. vm_compute. reflexivity.
Defined.

(** X13: Order of the submissions, on every path: at most two transactions are
    submitted; a transaction is submitted only when every earlier one has
    been confirmed by its receipt; and a step that returns has had every
    submission confirmed. *)
Theorem each_submission_awaits_the_previous {W : Type} (h : handler W) (w : W)
    (self : TachiSDK) (info : PaymentInfo) :
  let log := calls h (_process_payment self info) w in
  let submitted := omap sent_hash log in
  let confirmed := omap confirmed_hash log in
  (transactions_sent log <= 2)%nat
  /\ confirmed = take (length confirmed) submitted
  /\ (transactions_sent log <= length confirmed + 1)%nat
  /\ (forall s, outcome h (_process_payment self info) w = Ok s -> confirmed = submitted).
Proof.
  intros log submitted confirmed. subst confirmed submitted log.
  unfold calls, outcome, transactions_sent.
  destruct (run h (_process_payment self info) w) as [[r w'] log] eqn:Hrun. simpl.
  destruct (account self) as [acct |] eqn:Hacc;
    [| unfold _process_payment in Hrun; rewrite Hacc in Hrun; simpl in Hrun;
       simplify_eq; simpl; repeat split; try lia; discriminate].
  destruct (amount_in_wei info) as [required | e] eqn:Hamt;
    [| unfold _process_payment in Hrun; rewrite Hacc, Hamt in Hrun; simpl in Hrun;
       simplify_eq; simpl; repeat split; try lia; discriminate].
  follow_process h Hrun Hacc Hamt; simpl;
    repeat split; try lia; try reflexivity; intros; discriminate.
Qed.

(** X14: When the allowance the ledger reports is below the required amount and
    the step returns, exactly two transactions were built and submitted: the
    approval first, then the payment. *)
Theorem short_allowance_approves_then_pays {W : Type} (h : handler W) (w : W)
    (self : TachiSDK) (acct : Account) (info : PaymentInfo) (required a : Z) (s : string) :
  account self = Some acct ->
  amount_in_wei info = Ok required ->
  let log := calls h (_process_payment self info) w in
  allowance_read log = Some a ->
  a < required ->
  outcome h (_process_payment self info) w = Ok s ->
  map fst (omap build_of log)
  = [approve (token_address info) (recipient info) required;
     payPublisher (recipient info) (publisher_of self info) required]
  /\ transactions_sent log = 2%nat.
Proof.
  intros Hacc Hamt log. subst log. unfold calls, outcome, publisher_of, transactions_sent.
  destruct (run h (_process_payment self info) w) as [[r w'] log] eqn:Hrun. simpl.
  follow_process h Hrun Hacc Hamt; unfold allowance_read; simpl;
    intros Ha Hlt Hs; simplify_eq; try lia; split; reflexivity.
Qed.

Lemma short_allowance_approves_then_pays_witness :
  transactions_sent
    (calls scripted (_process_payment (crawler 3) (terms (PStr "1") (PStr "USDC")))
       (mkWorld [] 2000000 0 [])) = 2%nat.
Proof.
  assert (Hamt : amount_in_wei (terms (PStr "1") (PStr "USDC")) = Ok 1000000).
  { vm_compute. reflexivity. }
  apply (short_allowance_approves_then_pays scripted (mkWorld [] 2000000 0 []) (crawler 3)
           (mkAccount "0x1111111111111111111111111111111111111111" "0xkey")
           (terms (PStr "1") (PStr "USDC")) 1000000 0 "0xab01" eq_refl Hamt).
  - vm_compute. reflexivity.
  - lia.
  - vm_compute. reflexivity.
Defined.

(** ** The orchestrator: what a fetch does on every path *)

Lemma http_only_filters l :
  Forall (fun e => is_http e = true) l ->
  List.filter (fun e => negb (is_http e)) l = [] /\ List.filter is_send l = [].
Proof.
  induction 1 as [| e l He _ [IH1 IH2]]; [split; reflexivity |].
  destruct (is_http_not_ledger e He) as [_ Hs]. simpl. rewrite He, Hs. simpl. auto.
Qed.

Lemma no_http_requests l :
  List.filter is_http l = [] ->
  List.filter is_request l = [] /\ omap request_of l = [].
Proof.
  intros H. apply filter_nil_Forall in H.
  induction H as [| e l He _ [IH1 IH2]]; [split; reflexivity |].
  destruct e as [X ev ans]; destruct ev; simpl in *; try discriminate; auto.
Qed.

Lemma _process_payment_sends_at_most_two {W : Type} (h : handler W) (w w' : W)
    (self : TachiSDK) (info : PaymentInfo) (r : result string) (log : list entry) :
  run h (_process_payment self info) w = (r, w', log) ->
  (transactions_sent log <= 2)%nat.
Proof.
  intros Hrun. unfold transactions_sent.
  destruct (account self) as [acct |] eqn:Hacc;
    [| unfold _process_payment in Hrun; rewrite Hacc in Hrun; simpl in Hrun;
       simplify_eq; simpl; lia].
  destruct (amount_in_wei info) as [required | e] eqn:Hamt;
    [| unfold _process_payment in Hrun; rewrite Hacc, Hamt in Hrun; simpl in Hrun;
       simplify_eq; simpl; lia].
  follow_process h Hrun Hacc Hamt; simpl; lia.
Qed.

(** What one call of the HTTP client logs. *)
Lemma _make_http_request_facts {W : Type} (h : handler W) (self : TachiSDK)
    (url method : string) (hdrs : gmap string string) (body : option string)
    (w w' : W) r l :
  run h (_make_http_request self url method hdrs body) w = (r, w', l) ->
  Forall (fun e => is_http e = true) l
  /\ (requests_made l <= Z.to_nat (max_retries (config self)))%nat
  /\ (length (omap response_of l) <= 1)%nat
  /\ omap request_of l
     = replicate (requests_made l)
         (method, url, <["User-Agent" := user_agent (config self)]> hdrs, body,
          timeout (config self)).
Proof.
  intros Hrun.
  pose proof (_make_http_request_log h self url method hdrs body w w' r l Hrun)
    as (Hhttp & _ & Hres).
  split; [exact Hhttp |].
  assert (Hl : l = calls h (_make_http_request self url method hdrs body) w)
    by (unfold calls; rewrite Hrun; reflexivity).
  split.
  { rewrite Hl. unfold _make_http_request.
    destruct (Z.le_gt_cases 0 (max_retries (config self))) as [Hn | Hn].
    - apply (attempt_loop_schedule h self url method _ body
               (Z.to_nat (max_retries (config self))) 1 None w). lia.
    - rewrite range_nil by lia. unfold calls, requests_made. simpl. lia. }
  split.
  { destruct r as [response | e].
    - destruct Hres as (l0 & e & -> & _ & He & Hnone).
      rewrite omap_app, Hnone. simpl. rewrite He. simpl. lia.
    - rewrite Hres. simpl. lia. }
  rewrite Hl. apply attempt_loop_requests.
Qed.

(** The log of a fetch: the first call of the HTTP client, then the
    settlement step, then the replay. *)
Lemma fetch_with_tachi_log {W : Type} (h : handler W) (w : W) (self : TachiSDK)
    (url method : string) (hdrs : option (gmap string string)) (body : option string) :
  exists l1 l2 l3 proof,
    calls h (fetch_with_tachi self url method hdrs body) w = l1 ++ l2 ++ l3
    /\ (Forall (fun e => is_http e = true) l1
        /\ (requests_made l1 <= Z.to_nat (max_retries (config self)))%nat
        /\ (length (omap response_of l1) <= 1)%nat
        /\ omap request_of l1
           = replicate (requests_made l1)
               (method, url, <["User-Agent" := user_agent (config self)]> (default ∅ hdrs),
                body, timeout (config self)))
    /\ (List.filter is_http l2 = [] /\ (transactions_sent l2 <= 2)%nat)
    /\ (Forall (fun e => is_http e = true) l3
        /\ (requests_made l3 <= Z.to_nat (max_retries (config self)))%nat
        /\ (length (omap response_of l3) <= 1)%nat
        /\ omap request_of l3
           = replicate (requests_made l3)
               (method, url,
                <["User-Agent" := user_agent (config self)]>
                  (<["Authorization" := proof]> (default ∅ hdrs)),
                body, timeout (config self))).
Proof.
  assert (Hnil : forall hs : gmap string string,
            Forall (fun e => is_http e = true) []
            /\ (requests_made [] <= Z.to_nat (max_retries (config self)))%nat
            /\ (length (omap response_of []) <= 1)%nat
            /\ omap request_of []
               = replicate (requests_made [])
                   (method, url, hs, body, timeout (config self))).
  { intros hs. unfold requests_made. simpl. repeat split; [constructor | lia | lia]. }
  assert (Hnil2 : List.filter is_http [] = [] /\ (transactions_sent [] <= 2)%nat).
  { unfold transactions_sent. simpl. split; [reflexivity | lia]. }
  unfold calls. rewrite fetch_with_tachi_run.
  destruct (run h (_make_http_request self url method (default ∅ hdrs) body) w)
    as [[r1 w1] l1] eqn:H1.
  apply _make_http_request_facts in H1.
  destruct r1 as [initial | e]; simpl;
    [| exists l1, [], [], ""; rewrite !app_nil_r; auto].
  destruct (negb (requests.status_code initial =? 402)); simpl;
    [exists l1, [], [], ""; rewrite !app_nil_r; auto |].
  destruct (_parse_payment_info initial) as [info | e]; simpl;
    [| exists l1, [], [], ""; rewrite !app_nil_r; auto].
  destruct (run h (_process_payment self info) w1) as [[r2 w2] l2] eqn:H2.
  pose proof (_process_payment_no_http h w1 w2 self info r2 l2 H2) as Hno.
  pose proof (_process_payment_sends_at_most_two h w1 w2 self info r2 l2 H2) as Htwo.
  destruct r2 as [tx | e]; simpl;
    [| exists l1, l2, [], ""; rewrite !app_nil_r; auto].
  destruct (run h (_make_http_request self url method _ body) w2) as [[r3 w3] l3] eqn:H3.
  apply _make_http_request_facts in H3.
  exists l1, l2, l3, ("Bearer " +:+ tx).
  destruct r3 as [paid | e]; simpl; [| auto].
  destruct (negb (requests.status_code paid =? 200)); simpl; auto.
Qed.

(** X15: Bounds of one fetch, on every path: at most [2 * max_retries] requests,
    at most two answers received, and at most two transactions submitted (an
    approval and a payment): a fetch pays at most once and does not go back
    to the server a third time. *)
Theorem fetch_bounds {W : Type} (h : handler W) (w : W) (self : TachiSDK)
    (url method : string) (hdrs : option (gmap string string)) (body : option string) :
  let log := calls h (fetch_with_tachi self url method hdrs body) w in
  (requests_made log <= 2 * Z.to_nat (max_retries (config self)))%nat
  /\ (length (omap response_of log) <= 2)%nat
  /\ (transactions_sent log <= 2)%nat.
Proof.
  intros log. subst log.
  destruct (fetch_with_tachi_log h w self url method hdrs body)
    as (l1 & l2 & l3 & proof & -> & (Hh1 & Hn1 & Hr1 & _) & (Hno & Htwo)
        & (Hh3 & Hn3 & Hr3 & _)).
  destruct (http_only_filters l1 Hh1) as [_ Hs1].
  destruct (http_only_filters l3 Hh3) as [_ Hs3].
  destruct (no_http_requests l2 Hno) as [Hq2 _].
  destruct (no_http_no_request l2 Hno) as [Hp2 _].
  unfold requests_made, transactions_sent in *.
  rewrite !List.filter_app, !omap_app, !length_app, Hs1, Hs3, Hq2, Hp2. simpl. lia.
Qed.

(** X16: Every request of a fetch, first call or replay, first attempt or retry,
    has the method, URL and body the caller gave and the configured timeout;
    its [User-Agent] is the configured agent; and every other header apart
    from [Authorization] is as the caller gave it. *)
Theorem every_request_is_the_callers {W : Type} (h : handler W) (w : W) (self : TachiSDK)
    (url method : string) (hdrs : option (gmap string string)) (body : option string) :
  let log := calls h (fetch_with_tachi self url method hdrs body) w in
  Forall (fun rq : string * string * gmap string string * option string * Z =>
            let '(m, u, hs, b, t) := rq in
            m = method /\ u = url /\ b = body /\ t = timeout (config self)
            /\ hs !! "User-Agent" = Some (user_agent (config self))
            /\ (forall name, name <> "User-Agent" -> name <> "Authorization" ->
                  hs !! name = default ∅ hdrs !! name))
    (omap request_of log).
Proof.
  intros log. subst log.
  destruct (fetch_with_tachi_log h w self url method hdrs body)
    as (l1 & l2 & l3 & proof & -> & (_ & _ & _ & Hq1) & (Hno & _) & (_ & _ & _ & Hq3)).
  destruct (no_http_requests l2 Hno) as [_ Hq2].
  rewrite !omap_app, Hq1, Hq2, Hq3. simpl.
  apply Forall_app. split; apply Forall_replicate; repeat split;
    try apply lookup_insert_eq; intros name Hua Hauth.
  - apply lookup_insert_ne. congruence.
  - rewrite !lookup_insert_ne by congruence. reflexivity.
Qed.

(** X17: A result is made of the last answer received: its content, status and
    headers are those of that response.  Its status is never 402, and it is
    200 when a payment was made: an answer to the replay with another status
    is not returned. *)
Theorem result_is_the_last_response {W : Type} (h : handler W) (w : W) (self : TachiSDK)
    (url method : string) (hdrs : option (gmap string string)) (body : option string)
    (res : TachiResponse) :
  outcome h (fetch_with_tachi self url method hdrs body) w = Ok res ->
  exists response,
    last (omap response_of (calls h (fetch_with_tachi self url method hdrs body) w))
    = Some response
    /\ content res = requests.text response
    /\ status_code res = requests.status_code response
    /\ headers res = requests.to_dict (requests.headers response)
    /\ status_code res <> 402
    /\ (payment_required res = true -> status_code res = 200).
Proof.
  unfold outcome, calls. rewrite fetch_with_tachi_run.
  destruct (run h (_make_http_request self url method (default ∅ hdrs) body) w)
    as [[[initial | e] w1] l1] eqn:H1; [| discriminate].
  apply _make_http_request_log in H1 as (_ & _ & l0 & e0 & -> & _ & He0 & Hnone0).
  destruct (requests.status_code initial =? 402) eqn:H402; simpl.
  - destruct (_parse_payment_info initial) as [info | e]; [| discriminate].
    destruct (run h (_process_payment self info) w1) as [[[tx | e] w2] l2] eqn:H2;
      [| discriminate].
    destruct (run h (_make_http_request self url method _ body) w2)
      as [[[paid | e] w3] l3] eqn:H3; [| discriminate].
    apply _make_http_request_log in H3 as (_ & _ & l4 & e4 & -> & _ & He4 & Hnone4).
    destruct (requests.status_code paid =? 200) eqn:H200; simpl; [| discriminate].
    intros [= <-]. exists paid. simpl.
    apply Z.eqb_eq in H200.
    split.
    { rewrite !app_assoc, omap_app. simpl. rewrite He4. apply last_snoc. }
    repeat split; try reflexivity; try lia; intros; lia.
  - intros [= <-]. exists initial. simpl.
    apply Z.eqb_neq in H402.
    split.
    { rewrite omap_app. simpl. rewrite He0. apply last_snoc. }
    repeat split; try reflexivity; try assumption. discriminate.
Qed.

Lemma result_is_the_last_response_witness :
  let fetch := fetch_with_tachi (crawler 3) "https://example.com/a" "GET" None None in
  let w := mkWorld [Ok (payment_required_response "1000000" "USDC"); Ok (page 200 "<html>")]
             2000000 0 [] in
  exists res response,
    outcome scripted fetch w = Ok res
    /\ last (omap response_of (calls scripted fetch w)) = Some response
    /\ content res = requests.text response
    /\ status_code res = 200.
Proof.
  intros fetch w.
  assert (E : exists res, outcome scripted fetch w = Ok res).
  { vm_compute. eexists. reflexivity. }
  destruct E as [res E]. exists res.
  destruct (result_is_the_last_response scripted w (crawler 3)
              "https://example.com/a" "GET" None None res E)
    as (response & Hlast & Hc & Hs & _ & _ & Hpaid).
  exists response. repeat split; try assumption.
  apply Hpaid. revert E. vm_compute. intros [= <-]. reflexivity.
Defined.

(** X18: The ledger is left alone unless the server asks for a payment: when a
    fetch makes any call other than its requests and pauses, the first
    answer it received had status 402 and its terms were parsed. *)
Theorem chain_calls_only_after_402 {W : Type} (h : handler W) (w : W) (self : TachiSDK)
    (url method : string) (hdrs : option (gmap string string)) (body : option string) :
  let log := calls h (fetch_with_tachi self url method hdrs body) w in
  List.filter (fun e => negb (is_http e)) log <> [] ->
  exists response info,
    head (omap response_of log) = Some response
    /\ requests.status_code response = 402
    /\ _parse_payment_info response = Ok info.
Proof.
  intros log. subst log. unfold calls. rewrite fetch_with_tachi_run.
  destruct (run h (_make_http_request self url method (default ∅ hdrs) body) w)
    as [[r1 w1] l1] eqn:H1.
  apply _make_http_request_log in H1 as (Hh1 & _ & Hres).
  destruct (http_only_filters l1 Hh1) as [Hf1 _].
  destruct r1 as [initial | e]; simpl; [| rewrite Hf1; contradiction].
  destruct Hres as (l0 & e0 & -> & _ & He0 & Hnone0).
  destruct (requests.status_code initial =? 402) eqn:H402; simpl;
    [| rewrite Hf1; contradiction].
  apply Z.eqb_eq in H402.
  destruct (_parse_payment_info initial) as [info | e] eqn:Hparse; simpl;
    [| rewrite Hf1; contradiction].
  assert (Hhead : forall rest, head (omap response_of ((l0 ++ [e0]) ++ rest)) = Some initial).
  { intros rest. rewrite !omap_app, Hnone0. simpl. rewrite He0. reflexivity. }
  destruct (run h (_process_payment self info) w1) as [[[tx | e] w2] l2]; simpl.
  - destruct (run h (_make_http_request self url method _ body) w2)
      as [[[paid | e] w3] l3]; simpl;
      [destruct (negb (requests.status_code paid =? 200)); simpl |];
      intros _; exists initial, info; auto.
  - intros _. exists initial, info. auto.
Qed.

Lemma chain_calls_only_after_402_witness :
  let fetch := fetch_with_tachi (crawler 3) "https://example.com/a" "GET" None None in
  let w := mkWorld [Ok (payment_required_response "1000000" "USDC"); Ok (page 200 "<html>")]
             2000000 0 [] in
  exists response,
    head (omap response_of (calls scripted fetch w)) = Some response
    /\ requests.status_code response = 402.
Proof.
  intros fetch w.
  destruct (chain_calls_only_after_402 scripted w (crawler 3)
              "https://example.com/a" "GET" None None)
    as (response & info & Hhead & H402 & _).
  - vm_compute. discriminate.
  - exists response. split; assumption.
Defined.

(** X19: With [max_retries] not positive a client fetches nothing: every fetch
    raises the [NetworkError] 'Request failed: None' without a single
    request. *)
Theorem no_retries_no_fetch {W : Type} (h : handler W) (w : W) (self : TachiSDK)
    (url method : string) (hdrs : option (gmap string string)) (body : option string) :
  max_retries (config self) <= 0 ->
  run h (fetch_with_tachi self url method hdrs body) w
  = (Raise (NetworkError "Request failed: None" NoDetails), w, []).
Proof.
  intros Hn. unfold fetch_with_tachi, _make_http_request.
  rewrite range_nil by lia. reflexivity.
Qed.

Lemma no_retries_no_fetch_witness :
  run scripted (fetch_with_tachi (crawler 0) "https://example.com/a" "GET" None None)
    (mkWorld [Ok (page 200 "<html>")] 0 0 [])
  = (Raise (NetworkError "Request failed: None" NoDetails),
     mkWorld [Ok (page 200 "<html>")] 0 0 [], []).
Proof.
  apply (no_retries_no_fetch scripted (mkWorld [Ok (page 200 "<html>")] 0 0 []) (crawler 0)).
  simpl. lia.
Defined.

(** ** The configuration and the instance *)

(** X20: Building a configuration never fails.  A token contract that is given
    is kept; without one, the networks 'base' and 'base-sepolia' get their
    USDC contract -- the two constants of the source are checksummed
    already, so [to_checksum_address] returns them as they are -- and any
    other network is left without a token contract.  No other field is
    touched. *)
Theorem post_init_sets_the_network_usdc (c : TachiConfig) :
  __post_init__ c
  = Ok (mkTachiConfig (network c) (rpc_url c) (private_key c) (account_address c)
          (match usdc_address c with
           | Some a => Some a
           | None =>
               if String.eqb (network c) "base"
               then Some "0x833589fCD6eDb6E08f4c7C32D4f71b54bdA02913"
               else if String.eqb (network c) "base-sepolia"
                    then Some "0x036CbD53842c5426634e7929541eC2318f3dCF7e"
                    else None
           end)
          (payment_processor_address c) (user_agent c) (timeout c) (max_retries c)).
Proof.
  assert (Hbase : to_checksum_address (PStr "0x833589fCD6eDb6E08f4c7C32D4f71b54bdA02913")
                  = Ok "0x833589fCD6eDb6E08f4c7C32D4f71b54bdA02913").
  { vm_compute. reflexivity. }
  assert (Hsepolia : to_checksum_address (PStr "0x036CbD53842c5426634e7929541eC2318f3dCF7e")
                     = Ok "0x036CbD53842c5426634e7929541eC2318f3dCF7e").
  { vm_compute. reflexivity. }
  unfold __post_init__. destruct c as [net rpc key acc usdc ppa ua tmo retries].
  cbn [Config.usdc_address Config.network].
  destruct usdc as [a |]; [reflexivity |].
  destruct (String.eqb net "base"); [rewrite Hbase; reflexivity |].
  destruct (String.eqb net "base-sepolia"); [rewrite Hsepolia; reflexivity |].
  reflexivity.
Qed.

(** X21: The constructor checks the connection before it reads the key.  It
    returns an instance of the configuration it was given, whose address is
    the one [Account.from_key] returned (none when no key was read).  It
    raises either the [NetworkError] of a node that is not connected -- the
    key has not been read -- or, unchanged, what [Account.from_key] raised. *)
Theorem init_connects_before_reading_the_key {W : Type} (h : handler W) (w : W)
    (c : TachiConfig) :
  let log := calls h (__init__ c) w in
  match outcome h (__init__ c) w with
  | Ok self =>
      config self = c
      /\ head log = Some (Called (IsConnected (rpc_url c)) true)
      /\ account self = head (omap key_answer log)
      /\ get_account_address self = address <$> head (omap key_answer log)
  | Raise e =>
      (log = [Called (IsConnected (rpc_url c)) false]
       /\ e = NetworkError ("Failed to connect to RPC endpoint: " +:+ rpc_url c) NoDetails)
      \/ (exists k, private_key c = Some k
                    /\ log = [Called (IsConnected (rpc_url c)) true;
                              Called (FromKey k) (Raise e)])
  end.
Proof.
  intros log. subst log.
  unfold outcome, calls, __init__, _initialize_web3, _initialize_account,
    get_account_address. simpl.
  destruct (h _ (IsConnected (rpc_url c)) w) as [[|] w1]; simpl; [| left; split; reflexivity].
  destruct (private_key c) as [k |]; simpl; [| repeat split].
  destruct (String.eqb k ""); simpl; [repeat split |].
  destruct (h _ (FromKey k) w1) as [[acct | e] w2]; simpl; [repeat split |].
  right. exists k. split; reflexivity.
Qed.

(** X22: The balance query only reads: it looks up the contract at the configured
    token address and asks it for the balance of the account's address, and
    nothing else.  What it returns is the balance the ledger answered,
    with its quotient by 10^6 written by [Decimal]; what it raises is
    what the ledger (or [Decimal]) raised, unchanged -- it is not wrapped in
    a [PaymentError] as in the settlement step. *)
Theorem balance_query_only_reads {W : Type} (h : handler W) (w : W)
    (self : TachiSDK) (acct : Account) :
  account self = Some acct ->
  let log := calls h (get_usdc_balance self) w in
  let token := usdc_address (config self) in
  (exists answer : result unit,
     log = [Called (Contract token) answer]
     \/ exists balance : result Z,
          log = [Called (Contract token) answer;
                 Called (BalanceOf token (address acct)) balance])
  /\ match outcome h (get_usdc_balance self) w with
     | Ok b =>
         balance_read log = Some (wei b) /\ balance_in_usdc (wei b) = Ok (formatted b)
     | Raise e =>
         last log = Some (Called (Contract token) (Raise e))
         \/ last log = Some (Called (BalanceOf token (address acct)) (Raise e))
         \/ exists b, balance_read log = Some b /\ balance_in_usdc b = Raise e
     end.
Proof.
  intros Hacc log token. subst log token.
  unfold outcome, calls, get_usdc_balance, balance_read. rewrite Hacc. simpl.
  destruct (h _ (Contract (usdc_address (config self))) w) as [[[] | e] w1]; simpl;
    [| split; [exists (Raise e); left; reflexivity | left; reflexivity]].
  destruct (h _ (BalanceOf (usdc_address (config self)) (address acct)) w1)
    as [[b | e] w2]; simpl;
    [| split; [exists (Ok tt); right; exists (Raise e); reflexivity
              | right; left; reflexivity]].
  destruct (balance_in_usdc b) as [text | e] eqn:Hbal; simpl.
  - split; [exists (Ok tt); right; exists (Ok b); reflexivity |].
    split; [reflexivity | exact Hbal].
  - split; [exists (Ok tt); right; exists (Ok b); reflexivity |].
    right. right. exists b. split; [reflexivity | exact Hbal].
Qed.

Lemma balance_query_only_reads_witness :
  exists b,
    outcome scripted (get_usdc_balance (crawler 3)) (mkWorld [] 2500000 0 []) = Ok b
    /\ wei b = 2500000 /\ formatted b = "2.5".
Proof.
  destruct (balance_query_only_reads scripted (mkWorld [] 2500000 0 []) (crawler 3)
              (mkAccount "0x1111111111111111111111111111111111111111" "0xkey") eq_refl)
    as [_ H].
  destruct (outcome scripted (get_usdc_balance (crawler 3)) (mkWorld [] 2500000 0 []))
    as [b | e] eqn:Hout.
  - exists b. destruct H as [Hread Hfmt].
    assert (Hw : wei b = 2500000).
    { revert Hread. vm_compute. congruence. }
    split; [reflexivity |]. split; [exact Hw |].
    rewrite Hw in Hfmt.
    assert (E : balance_in_usdc 2500000 = Ok "2.5") by (vm_compute; reflexivity).
    rewrite E in Hfmt. congruence.
  - exfalso. revert Hout. vm_compute. discriminate.
Defined.

(** ** The convenience functions *)

Lemma init_config {W : Type} (h : handler W) (w : W) (c : TachiConfig) :
  match outcome h (__init__ c) w with
  | Ok self => config self = c
  | Raise _ => True
  end.
Proof.
  unfold outcome, __init__, _initialize_web3, _initialize_account. simpl.
  destruct (h _ (IsConnected (rpc_url c)) w) as [[|] w1]; simpl; [| exact I].
  destruct (private_key c) as [k |]; simpl; [| reflexivity].
  destruct (String.eqb k ""); simpl; [reflexivity |].
  destruct (h _ (FromKey k) w1) as [[acct | e] w2]; simpl; [reflexivity | exact I].
Qed.

(** X23: An instance made by a factory, with no token contract among the keyword
    arguments, has the USDC contract of its network, the key, processor and
    endpoint it was given, and the defaults of the configuration for what
    the keyword arguments leave out.  The factories fail only as the
    constructor does. *)
Theorem factories_set_the_network_usdc {W : Type} (h : handler W) (w : W)
    (rpc : string) (key ppa : option string) (kwargs : Kwargs) (sdk : TachiSDK) :
  kw_usdc_address kwargs = None ->
  let made network token :=
    config sdk
    = mkTachiConfig network rpc key (kw_account_address kwargs) (Some token) ppa
        (default "TachiSDK-Python/1.0" (kw_user_agent kwargs))
        (default 30 (kw_timeout kwargs))
        (default 3 (kw_max_retries kwargs)) in
  (outcome h (create_base_sdk rpc key ppa kwargs) w = Ok sdk ->
   made "base" "0x833589fCD6eDb6E08f4c7C32D4f71b54bdA02913")
  /\ (outcome h (create_base_sepolia_sdk rpc key ppa kwargs) w = Ok sdk ->
      made "base-sepolia" "0x036CbD53842c5426634e7929541eC2318f3dCF7e").
Proof.
  intros Hkw made. subst made.
  assert (Hbase : to_checksum_address (PStr "0x833589fCD6eDb6E08f4c7C32D4f71b54bdA02913")
                  = Ok "0x833589fCD6eDb6E08f4c7C32D4f71b54bdA02913").
  { vm_compute. reflexivity. }
  assert (Hsepolia : to_checksum_address (PStr "0x036CbD53842c5426634e7929541eC2318f3dCF7e")
                     = Ok "0x036CbD53842c5426634e7929541eC2318f3dCF7e").
  { vm_compute. reflexivity. }
  unfold create_base_sdk, create_base_sepolia_sdk, new_TachiConfig, __post_init__.
  cbn [Config.usdc_address Config.network]. rewrite Hkw.
  change (String.eqb "base" "base") with true.
  change (String.eqb "base-sepolia" "base") with false.
  change (String.eqb "base-sepolia" "base-sepolia") with true.
  cbv iota. rewrite Hbase, Hsepolia.
  split;
    match goal with
    | |- outcome h ?p w = Ok sdk -> config sdk = ?c =>
        intros Hout; change p with (__init__ c) in Hout;
        pose proof (init_config h w c) as Hc; rewrite Hout in Hc; exact Hc
    end.
Qed.

Lemma factories_set_the_network_usdc_witness :
  exists sdk,
    outcome scripted
      (create_base_sepolia_sdk "https://sepolia.base.org" (Some "0xkey") None
         (mkKwargs None None None None None)) (mkWorld [] 0 0 []) = Ok sdk
    /\ usdc_address (config sdk) = Some usdc_sepolia
    /\ max_retries (config sdk) = 3.
Proof.
  assert (E : exists sdk,
             outcome scripted
               (create_base_sepolia_sdk "https://sepolia.base.org" (Some "0xkey") None
                  (mkKwargs None None None None None)) (mkWorld [] 0 0 []) = Ok sdk).
  { vm_compute. eexists. reflexivity. }
  destruct E as [sdk E]. exists sdk. split; [exact E |].
  destruct (factories_set_the_network_usdc scripted (mkWorld [] 0 0 [])
              "https://sepolia.base.org" (Some "0xkey") None
              (mkKwargs None None None None None) sdk eq_refl) as [_ H].
  rewrite (H E). split; reflexivity.
Defined.

(** X24: The function of the module connects before it fetches: its first call
    asks the node whether it is connected, and when the node is not, it
    raises the [NetworkError] of the constructor without any request. *)
Theorem convenience_fetch_connects_first {W : Type} (h : handler W) (w : W)
    (url : string) (c : TachiConfig) (method : string)
    (hdrs : option (gmap string string)) (body : option string) :
  let p := convenience.fetch_with_tachi url c method hdrs body in
  exists connected,
    head (calls h p w) = Some (Called (IsConnected (rpc_url c)) connected)
    /\ (connected = false ->
        calls h p w = [Called (IsConnected (rpc_url c)) false]
        /\ outcome h p w
           = Raise (NetworkError ("Failed to connect to RPC endpoint: " +:+ rpc_url c)
                      NoDetails)).
Proof.
  intros p. subst p.
  unfold convenience.fetch_with_tachi, mbind, prog_bind, calls, outcome.
  rewrite run_bind.
  unfold __init__, _initialize_web3. simpl.
  destruct (h _ (IsConnected (rpc_url c)) w) as [[|] w1]; simpl.
  - exists true. split; [| discriminate].
    destruct (run h (_ ← _initialize_account c; _) w1) as [[[sdk | e] w2] l2]; simpl;
      [| reflexivity].
    destruct (run h (fetch_with_tachi sdk url method hdrs body) w2) as [[r3 w3] l3].
    reflexivity.
  - exists false. split; [reflexivity |]. intros _. split; reflexivity.
Qed.

(** * The amount paid *)

(** ** Decimal numerals as text *)

(** The characters of a numeral, most significant digit first. *)
Lemma digits_value_acc (d : Decimal.uint) :
  forall acc : positive,
    digits_value (Z.pos acc) (chars (NilEmpty.string_of_uint d))
    = Z.pos (Pos.of_uint_acc d acc).
Proof.
  induction d; intros acc; simpl; try reflexivity;
    rewrite <- IHd; f_equal;
    match goal with
    | |- context [ord ?c] => let v := eval vm_compute in (ord c) in change (ord c) with v
    end; lia.
Qed.

Lemma digits_value_uint (d : Decimal.uint) :
  digits_value 0 (chars (NilEmpty.string_of_uint d)) = Z.of_N (N.of_uint d).
Proof.
  induction d; simpl; try reflexivity; try exact IHd;
    apply (digits_value_acc d).
Qed.

Lemma digits_of_uint (d : Decimal.uint) :
  Forall (fun c => is_digit c = true) (chars (NilEmpty.string_of_uint d)).
Proof. induction d; simpl; constructor; auto. Qed.

Lemma length_of_uint (d : Decimal.uint) :
  length (chars (NilEmpty.string_of_uint d)) = Decimal.nb_digits d.
Proof. induction d; simpl; congruence. Qed.

Lemma to_uint_nonnil (n : N) : N.to_uint n <> Decimal.Nil.
Proof.
  destruct n as [| p]; [discriminate |]. apply DecimalPos.Unsigned.to_uint_nonnil.
Qed.

Lemma chars_str_N (n : N) : chars (str_N n) = chars (NilEmpty.string_of_uint (N.to_uint n)).
Proof.
  unfold str_N, NilZero.string_of_uint.
  pose proof (to_uint_nonnil n). destruct (N.to_uint n); congruence.
Qed.

Lemma digits_value_str_N (n : N) : digits_value 0 (chars (str_N n)) = Z.of_N n.
Proof. rewrite chars_str_N, digits_value_uint, DecimalN.Unsigned.of_to. reflexivity. Qed.

Lemma digits_str_N (n : N) : Forall (fun c => is_digit c = true) (chars (str_N n)).
Proof. rewrite chars_str_N. apply digits_of_uint. Qed.

Lemma length_str_N (n : N) : Z.of_nat (length (chars (str_N n))) = ndigits n.
Proof. rewrite chars_str_N, length_of_uint. reflexivity. Qed.

Lemma ndigits_pos (n : N) : 1 <= ndigits n.
Proof.
  unfold ndigits. pose proof (to_uint_nonnil n) as H.
  destruct (N.to_uint n); simpl; try lia. congruence.
Qed.

Lemma is_digit_value c : is_digit c = true -> 0 <= ord c - 48 <= 9.
Proof. unfold is_digit. lia. Qed.

Lemma digits_value_split (l : list ascii) :
  Forall (fun c => is_digit c = true) l ->
  forall acc,
    digits_value acc l = acc * 10 ^ Z.of_nat (length l) + digits_value 0 l
    /\ 0 <= digits_value 0 l < 10 ^ Z.of_nat (length l).
Proof.
  induction 1 as [| c r Hc _ IH]; intros acc.
  - simpl. lia.
  - apply is_digit_value in Hc.
    cbn [digits_value length].
    destruct (IH (10 * acc + (ord c - 48))) as [E1 B].
    destruct (IH (10 * 0 + (ord c - 48))) as [E2 _].
    rewrite E1, E2. rewrite Nat2Z.inj_succ, Z.pow_succ_r by lia.
    split; [lia | nia].
Qed.

Lemma digits_value_lower (c : ascii) (r : list ascii) :
  Forall (fun c => is_digit c = true) (c :: r) ->
  ord c <> 48 ->
  10 ^ Z.of_nat (length r) <= digits_value 0 (c :: r).
Proof.
  intros H Hc. inversion H as [| ? ? Hd Hr]; subst.
  apply is_digit_value in Hd.
  cbn [digits_value].
  destruct (digits_value_split r Hr (10 * 0 + (ord c - 48))) as [E B].
  rewrite E. nia.
Qed.

Lemma str_N_head (n : N) :
  n <> 0%N -> exists c r, chars (str_N n) = c :: r /\ ord c <> 48.
Proof.
  intros Hn. rewrite chars_str_N.
  assert (Hnorm : Decimal.unorm (N.to_uint n) = N.to_uint n).
  { rewrite <- (DecimalN.Unsigned.of_to n) at 2. symmetry. apply DecimalN.Unsigned.to_of. }
  destruct (N.to_uint n) as [| u | u | u | u | u | u | u | u | u | u] eqn:Hu;
    try (simpl; eexists _, _; split; [reflexivity | vm_compute; discriminate]).
  - exfalso. revert Hu. apply to_uint_nonnil.
  - exfalso. rewrite DecimalFacts.unorm_D0 in Hnorm.
    destruct u as [| | | | | | | | | |] eqn:Eu;
      try (pose proof (DecimalFacts.nb_digits_unorm u ltac:(subst; discriminate)) as Hle;
           subst u; rewrite Hnorm in Hle; simpl in Hle; lia).
    apply Hn. apply DecimalN.Unsigned.to_uint_inj. rewrite Hu. reflexivity.
Qed.

(** The number of digits of [n] is the one power of ten brackets. *)
Lemma ndigits_spec (n : N) :
  n <> 0%N -> 10 ^ (ndigits n - 1) <= Z.of_N n < 10 ^ ndigits n.
Proof.
  intros Hn. rewrite <- (digits_value_str_N n), <- (length_str_N n).
  destruct (str_N_head n Hn) as (c & r & E & Hc).
  pose proof (digits_str_N n) as Hd. rewrite E in *.
  split.
  - replace (Z.of_nat (length (c :: r)) - 1) with (Z.of_nat (length r))
      by (simpl length; lia).
    apply digits_value_lower; assumption.
  - apply (digits_value_split _ Hd 0).
Qed.

Lemma ndigits_unique (n : N) (k : Z) :
  10 ^ (k - 1) <= Z.of_N n < 10 ^ k -> n <> 0%N -> ndigits n = k.
Proof.
  intros [Hlo Hhi] Hn. pose proof (ndigits_spec n Hn) as [Hlo' Hhi'].
  pose proof (ndigits_pos n) as Hp.
  assert (Hk : 1 <= k).
  { destruct (Z.le_gt_cases 1 k); [assumption |].
    destruct (Z.eq_dec k 0) as [-> | Hk0]; [simpl in Hhi; lia |].
    rewrite (Z.pow_neg_r 10 k) in Hhi by lia. lia. }
  destruct (Z.lt_trichotomy (ndigits n) k) as [Hlt | [Heq | Hgt]]; [| exact Heq |].
  - assert (10 ^ ndigits n <= 10 ^ (k - 1)) by (apply Z.pow_le_mono_r; lia). lia.
  - assert (10 ^ k <= 10 ^ (ndigits n - 1)) by (apply Z.pow_le_mono_r; lia). lia.
Qed.

Lemma ndigits_le (n : N) (k : Z) : 0 <= k -> Z.of_N n < 10 ^ k -> n <> 0%N -> ndigits n <= k.
Proof.
  intros Hk Hlt Hn. pose proof (ndigits_spec n Hn) as [Hlo _].
  destruct (Z.le_gt_cases (ndigits n) k) as [| Hgt]; [assumption |].
  assert (10 ^ k <= 10 ^ (ndigits n - 1)) by (apply Z.pow_le_mono_r; lia). lia.
Qed.

Lemma ndigits_bound (n : N) (k : Z) : ndigits n <= k -> Z.of_N n < 10 ^ k.
Proof.
  intros Hk. destruct (N.eq_dec n 0%N) as [-> | Hn].
  - simpl. apply Z.pow_pos_nonneg; [lia |]. pose proof (ndigits_pos 0). lia.
  - pose proof (ndigits_spec n Hn) as [_ Hhi].
    assert (10 ^ ndigits n <= 10 ^ k) by (apply Z.pow_le_mono_r; lia). lia.
Qed.

(** ** Exact quotients by 10^6 *)

Lemma pow10_Z (k : Z) : 0 <= k -> Z.of_N (pow10 k) = 10 ^ k.
Proof. intros Hk. unfold pow10. rewrite N2Z.inj_pow, Z2N.id by lia. reflexivity. Qed.

Lemma div_eucl_pair (a b : N) : N.div_eucl a b = ((a / b)%N, (a mod b)%N).
Proof. unfold N.div, N.modulo. destruct (N.div_eucl a b). reflexivity. Qed.

Lemma strip_zeros_spec (fuel : nat) :
  forall (coeff : N) (exp ideal : Z),
    coeff <> 0%N -> exp <= ideal -> ideal - exp <= Z.of_nat fuel ->
    exists c' e',
      strip_zeros fuel coeff exp ideal = (c', e')
      /\ exp <= e' <= ideal
      /\ Z.of_N coeff = Z.of_N c' * 10 ^ (e' - exp)
      /\ c' <> 0%N
      /\ (e' = ideal \/ (c' mod 10)%N <> 0%N).
Proof.
  induction fuel as [| f IH]; intros coeff exp ideal Hc He Hf.
  - exists coeff, exp. simpl. replace (exp - exp) with 0 by lia.
    repeat split; try lia; left; lia.
  - cbn [strip_zeros].
    destruct (Z.ltb_spec exp ideal) as [Hlt | Hge]; simpl andb.
    + destruct (N.eqb_spec (coeff mod 10) 0) as [Hm | Hm].
      * assert (Hd : coeff = (10 * (coeff / 10))%N).
        { pose proof (N.div_mod coeff 10 ltac:(discriminate)). lia. }
        destruct (IH (coeff / 10)%N (exp + 1) ideal ltac:(lia) ltac:(lia) ltac:(lia))
          as (c' & e' & E & Hb & Hv & Hn & Hstop).
        exists c', e'. split; [exact E |]. repeat split; try lia; try assumption.
        rewrite Hd at 1. rewrite N2Z.inj_mul, Hv.
        replace (e' - exp) with (Z.succ (e' - (exp + 1))) by lia.
        rewrite Z.pow_succ_r by lia. simpl Z.of_N. lia.
      * exists coeff, exp. replace (exp - exp) with 0 by lia.
        repeat split; try lia; right; exact Hm.
    + exists coeff, exp. replace (exp - exp) with 0 by lia.
      repeat split; try lia; left; lia.
Qed.

Lemma no_rounding (s : bool) (c : N) (e : Z) :
  c <> 0%N -> ndigits c <= prec -> -100 <= e <= 0 ->
  _fix (Finite s c e) = Ok (Finite s c e).
Proof.
  intros Hc Hd He. unfold _fix.
  destruct (N.eqb_spec c 0) as [| _]; [contradiction |].
  pose proof (ndigits_pos c) as Hp.
  unfold Etop, Etiny, Emax, Emin, prec in *.
  decide_comparisons. reflexivity.
Qed.

Lemma truediv_million (c : N) :
  c <> 0%N -> ndigits c <= prec ->
  exists c' e',
    truediv (Finite false c 0) (Decimal_of_int (10 ^ 6)) = Ok (Finite false c' e')
    /\ -6 <= e' <= 0
    /\ c' <> 0%N
    /\ Z.of_N c = Z.of_N c' * 10 ^ (6 + e')
    /\ (e' = 0 \/ (c' mod 10)%N <> 0%N).
Proof.
  intros Hc Hd.
  change (Decimal_of_int (10 ^ 6)) with (Finite false 1000000 0).
  unfold truediv. simpl _check_nans. cbv iota. simpl xorb.
  change (1000000 =? 0)%N with false. cbv iota.
  destruct (N.eqb_spec c 0) as [| _]; [contradiction |].
  change (ndigits 1000000) with 7.
  pose proof (ndigits_pos c) as Hp.
  set (shift := 7 - ndigits c + prec + 1).
  assert (Hshift : 8 <= shift) by (unfold shift, prec in *; lia).
  replace (0 <=? shift) with true by (symmetry; apply Z.leb_le; lia).
  assert (Hpow : pow10 shift = (pow10 (shift - 6) * 1000000)%N).
  { apply N2Z.inj. rewrite N2Z.inj_mul, !pow10_Z by lia.
    change (Z.of_N 1000000) with (10 ^ 6). rewrite <- Z.pow_add_r by lia.
    f_equal. lia. }
  rewrite div_eucl_pair, Hpow, N.mul_assoc.
  rewrite N.div_mul by discriminate. rewrite N.Div0.mod_mul.
  change (negb (0 =? 0)%N) with false. cbv iota.
  assert (Hq : (c * pow10 (shift - 6))%N <> 0%N).
  { intros H0. apply (f_equal Z.of_N) in H0. rewrite N2Z.inj_mul, pow10_Z in H0 by lia.
    assert (0 < 10 ^ (shift - 6)) by (apply Z.pow_pos_nonneg; lia). simpl in H0. nia. }
  destruct (strip_zeros_spec (Z.to_nat (0 - 0 - (0 - 0 - shift)))
              (c * pow10 (shift - 6))%N (0 - 0 - shift) (0 - 0) Hq ltac:(lia) ltac:(lia))
    as (c' & e' & E & Hb & Hv & Hn & Hstop).
  rewrite E.
  rewrite N2Z.inj_mul, pow10_Z in Hv by lia.
  replace (e' - (0 - 0 - shift)) with (e' + shift) in Hv by lia.
  assert (He : -6 <= e').
  { destruct (Z.le_gt_cases (-6) e') as [| Hlt]; [assumption |]. exfalso.
    destruct Hstop as [-> | Hm]; [lia |]. apply Hm.
    assert (Hc' : Z.of_N c' = Z.of_N c * 10 ^ (- 6 - e')).
    { assert (Hsplit : 10 ^ (shift - 6) = 10 ^ (- 6 - e') * 10 ^ (e' + shift)).
      { rewrite <- Z.pow_add_r by lia. f_equal. lia. }
      rewrite Hsplit in Hv.
      assert (0 < 10 ^ (e' + shift)) by (apply Z.pow_pos_nonneg; lia). nia. }
    replace (- 6 - e') with (Z.succ (- 7 - e')) in Hc' by lia.
    rewrite Z.pow_succ_r in Hc' by lia.
    apply N2Z.inj. rewrite N2Z.inj_mod, Hc'. simpl Z.of_N.
    replace (Z.of_N c * (10 * 10 ^ (-7 - e'))) with ((Z.of_N c * 10 ^ (-7 - e')) * 10) by lia.
    apply Z.mod_mul. lia. }
  assert (Hval : Z.of_N c = Z.of_N c' * 10 ^ (6 + e')).
  { assert (Hsplit : 10 ^ (e' + shift) = 10 ^ (6 + e') * 10 ^ (shift - 6)).
    { rewrite <- Z.pow_add_r by lia. f_equal. lia. }
    rewrite Hsplit in Hv.
    assert (0 < 10 ^ (shift - 6)) by (apply Z.pow_pos_nonneg; lia). nia. }
  exists c', e'.
  split.
  { apply no_rounding; [exact Hn | | lia].
    apply ndigits_le; [unfold prec; lia | | exact Hn].
    pose proof (ndigits_bound c prec Hd) as Hlt.
    assert (0 < 10 ^ (6 + e')) by (apply Z.pow_pos_nonneg; lia).
    assert (0 <= Z.of_N c') by lia. nia. }
  repeat split; try lia; try assumption.
Qed.

Lemma scale_million_back (c' : N) (e' : Z) :
  c' <> 0%N -> -6 <= e' <= 0 -> ndigits (c' * 1000000) <= prec ->
  (m ← mul (Finite false c' e') (Decimal_of_int (10 ^ 6)); int_Decimal m)
  = Ok (Z.of_N c' * 10 ^ (6 + e')).
Proof.
  intros Hc He Hd.
  change (Decimal_of_int (10 ^ 6)) with (Finite false 1000000 0).
  unfold mul. simpl _check_nans. cbv iota. simpl xorb.
  assert (Hm : (c' * 1000000)%N <> 0%N) by lia.
  rewrite no_rounding by (try assumption; lia).
  simpl. f_equal.
  replace (e' + 0) with e' by lia.
  destruct (Z.leb_spec 0 e') as [H0 | Hneg].
  - replace e' with 0 by lia. rewrite N2Z.inj_mul. simpl. lia.
  - assert (Hnd : 7 <= ndigits (c' * 1000000)).
    { destruct (Z.le_gt_cases 7 (ndigits (c' * 1000000))) as [| Hlt]; [assumption |].
      pose proof (ndigits_bound (c' * 1000000) 6 ltac:(lia)) as Hb.
      rewrite N2Z.inj_mul in Hb. simpl in Hb. lia. }
    replace (ndigits (c' * 1000000) <=? - e') with false by (symmetry; apply Z.leb_gt; lia).
    rewrite N2Z.inj_mul. change (Z.of_N 1000000) with (10 ^ 6).
    replace (10 ^ 6) with (10 ^ (6 + e') * 10 ^ (- e')).
    + rewrite Z.mul_assoc. apply Z.div_mul.
      assert (0 < 10 ^ (- e')) by (apply Z.pow_pos_nonneg; lia). lia.
    + rewrite <- Z.pow_add_r by lia. f_equal. lia.
Qed.

(** ** Writing and reading a decimal *)

Lemma chars_app (a b : string) : chars (a +:+ b) = chars a ++ chars b.
Proof. induction a as [| c a IH]; simpl; [reflexivity | rewrite <- IH; reflexivity]. Qed.

Lemma chars_of_chars (l : list ascii) : chars (of_chars l) = l.
Proof. apply list_ascii_of_string_of_list_ascii. Qed.

Lemma of_chars_chars (s : string) : of_chars (chars s) = s.
Proof. apply string_of_list_ascii_of_string. Qed.

Lemma digit_facts (c : ascii) :
  is_digit c = true ->
  is_space c = false /\ Ascii.eqb c "_" = false /\ lower_char c = c
  /\ Ascii.eqb c "-" = false /\ Ascii.eqb c "+" = false /\ Ascii.eqb c "." = false.
Proof.
  destruct c as [[] [] [] [] [] [] [] []]; vm_compute; intros; try discriminate;
    repeat split.
Qed.

Lemma plain_facts (c : ascii) :
  plain c -> is_space c = false /\ Ascii.eqb c "_" = false /\ lower_char c = c.
Proof.
  intros [H | ->]; [| repeat split].
  destruct (digit_facts c H) as (? & ? & ? & _). auto.
Qed.

Lemma lstrip_id (l : list ascii) :
  Forall (fun c => is_space c = false) l -> lstrip l = l.
Proof. destruct 1 as [| c r Hc _]; simpl; [reflexivity | rewrite Hc; reflexivity]. Qed.

Lemma normalize_plain (v : string) :
  Forall plain (chars v) ->
  map lower_char (List.filter (fun c => negb (Ascii.eqb c "_")) (strip v)) = chars v.
Proof.
  intros H.
  assert (Hs : Forall (fun c => is_space c = false) (chars v)).
  { eapply Forall_impl; [exact H |]. intros c Hc. apply (plain_facts c Hc). }
  unfold strip. rewrite (lstrip_id _ Hs).
  rewrite lstrip_id by (apply Forall_rev; exact Hs).
  rewrite rev_involutive.
  induction H as [| c r Hc _ IH]; [reflexivity |].
  inversion Hs; subst.
  destruct (plain_facts c Hc) as (_ & Hu & Hl).
  simpl. rewrite Hu. simpl. rewrite Hl, IH by assumption. reflexivity.
Qed.

Lemma span_digits (a rest : list ascii) :
  Forall (fun c => is_digit c = true) a ->
  match rest with [] => True | c :: _ => is_digit c = false end ->
  span is_digit (a ++ rest) = (a, rest).
Proof.
  intros Ha Hr. induction Ha as [| c r Hc _ IH]; simpl.
  - destruct rest as [| c r]; [reflexivity |]. simpl. rewrite Hr. reflexivity.
  - rewrite Hc, IH. reflexivity.
Qed.

Lemma digits_value_app (a b : list ascii) (acc : Z) :
  digits_value acc (a ++ b) = digits_value (digits_value acc a) b.
Proof. revert acc. induction a as [| c a IH]; intros acc; simpl; [reflexivity | apply IH]. Qed.

Lemma digits_value_zeros (k : nat) : digits_value 0 (repeat "0"%char k) = 0.
Proof. induction k as [| k IH]; simpl; [reflexivity | exact IH]. Qed.

(** Reading digits, a point and digits. *)
Lemma Decimal_of_fraction (v : string) (ip fp : list ascii) :
  Forall (fun c => is_digit c = true) ip ->
  Forall (fun c => is_digit c = true) fp ->
  ip <> [] ->
  chars v = ip ++ "."%char :: fp ->
  Decimal_of_str v
  = exact false (Z.to_N (digits_value 0 (ip ++ fp))) (- Z.of_nat (length fp)).
Proof.
  intros Hip Hfp Hne Hv. unfold Decimal_of_str.
  rewrite normalize_plain.
  2:{ rewrite Hv. apply Forall_app. split.
      - eapply Forall_impl; [exact Hip |]. intros c Hc. left. exact Hc.
      - constructor; [right; reflexivity |].
        eapply Forall_impl; [exact Hfp |]. intros c Hc. left. exact Hc. }
  rewrite Hv.
  destruct ip as [| c r]; [contradiction |].
  inversion Hip as [| ? ? Hc Hr]; subst.
  destruct (digit_facts c Hc) as (_ & _ & _ & Hm & Hp & _).
  change ((c :: r) ++ "."%char :: fp) with (c :: (r ++ "."%char :: fp)).
  unfold split_sign. rewrite Hm, Hp.
  unfold parse_number.
  change (c :: r ++ "."%char :: fp) with ((c :: r) ++ "."%char :: fp).
  rewrite (span_digits (c :: r) ("."%char :: fp) Hip) by reflexivity.
  change (Ascii.eqb "." ".") with true. cbv iota.
  rewrite <- (app_nil_r fp) at 1. rewrite (span_digits fp [] Hfp) by exact I.
  simpl. reflexivity.
Qed.

(** Reading digits alone. *)
Lemma Decimal_of_integer (v : string) (ip : list ascii) :
  Forall (fun c => is_digit c = true) ip ->
  ip <> [] ->
  chars v = ip ->
  Decimal_of_str v = exact false (Z.to_N (digits_value 0 ip)) 0.
Proof.
  intros Hip Hne Hv. unfold Decimal_of_str.
  rewrite normalize_plain.
  2:{ rewrite Hv. eapply Forall_impl; [exact Hip |]. intros c Hc. left. exact Hc. }
  rewrite Hv.
  destruct ip as [| c r]; [contradiction |].
  inversion Hip as [| ? ? Hc Hr]; subst.
  destruct (digit_facts c Hc) as (_ & _ & _ & Hm & Hp & _).
  unfold split_sign. rewrite Hm, Hp.
  unfold parse_number.
  rewrite <- (app_nil_r (c :: r)) at 1.
  rewrite (span_digits (c :: r) [] Hip) by exact I.
  simpl. rewrite app_nil_r. reflexivity.
Qed.

Lemma exact_small (c : N) (e : Z) :
  -100 <= e <= 0 -> ndigits c <= prec -> exact false c e = Ok (Finite false c e).
Proof.
  intros He Hd. unfold exact, MAX_EMAX, MAX_ETINY, prec in *.
  pose proof (ndigits_pos c).
  destruct (c =? 0)%N; decide_comparisons; reflexivity.
Qed.

(** What [str] writes in plain notation, [Decimal] reads back as the same
    value, with the same exponent. *)
Lemma Decimal_of_str_Decimal (c : N) (e : Z) :
  e <= 0 -> -6 < e + ndigits c -> ndigits c <= prec ->
  Decimal_of_str (str_Decimal (Finite false c e)) = Ok (Finite false c e).
Proof.
  intros He Hleft Hd. unfold str_Decimal.
  pose proof (digits_str_N c) as Hdig.
  pose proof (length_str_N c) as Hlen.
  pose proof (digits_value_str_N c) as Hval.
  pose proof (ndigits_pos c) as Hp.
  set (int_ := chars (str_N c)) in *.
  set (len := ndigits c) in *.
  replace ((e <=? 0) && (e + len >? -6)) with true
    by (symmetry; apply andb_true_iff; split; [apply Z.leb_le | apply Z.gtb_lt]; lia).
  rewrite Z.eqb_refl.
  destruct (Z.leb_spec (e + len) 0) as [Hle | Hgt].
  - (* 0.000ddd *)
    rewrite (Decimal_of_fraction _ ["0"%char] (repeat "0"%char (Z.to_nat (- (e + len))) ++ int_)).
    + change (["0"%char] ++ ?l) with ("0"%char :: l).
      cbn [digits_value]. change (10 * 0 + (ord "0" - 48)) with 0.
      rewrite digits_value_app, digits_value_zeros, Hval, N2Z.id.
      rewrite length_app, repeat_length, Nat2Z.inj_add, Hlen, Z2Nat.id by lia.
      replace (- (- (e + len) + len)) with e by lia.
      apply exact_small; [unfold prec in *; lia | exact Hd].
    + repeat constructor.
    + apply Forall_app. split; [| exact Hdig].
      induction (Z.to_nat (- (e + len))); simpl; constructor; auto.
    + discriminate.
    + unfold zeros. rewrite !chars_app, !chars_of_chars. simpl. rewrite app_nil_r. reflexivity.
  - destruct (Z.geb_spec (e + len) len) as [Hge | Hlt].
    + (* ddd *)
      assert (e = 0) by lia. subst e.
      rewrite (Decimal_of_integer _ int_).
      * rewrite Hval, N2Z.id. apply exact_small; [lia | exact Hd].
      * exact Hdig.
      * intros Hnil. rewrite Hnil in Hlen. simpl in Hlen. lia.
      * unfold zeros. replace (0 + len - len) with 0 by lia.
        rewrite !chars_app, !chars_of_chars. simpl. rewrite !app_nil_r. reflexivity.
    + (* dd.ddd *)
      rewrite (Decimal_of_fraction _ (take (Z.to_nat (e + len)) int_)
                 (drop (Z.to_nat (e + len)) int_)).
      * rewrite take_drop, Hval, N2Z.id.
        rewrite length_drop, Nat2Z.inj_sub, Hlen, Z2Nat.id by lia.
        replace (- (len - (e + len))) with e by lia.
        apply exact_small; [unfold prec in *; lia | exact Hd].
      * apply Forall_take. exact Hdig.
      * apply Forall_drop. exact Hdig.
      * intros Hnil. apply (f_equal length) in Hnil. rewrite length_take in Hnil.
        simpl in Hnil. lia.
      * rewrite !chars_app, !chars_of_chars. simpl. rewrite app_nil_r. reflexivity.
Qed.

(** Scaling the quotient back by 10^6: when the product has more digits than
    the context keeps, the digits rounded away are zeros. *)
Lemma scale_back (c c' : N) (e' : Z) :
  c' <> 0%N -> -6 <= e' <= 0 ->
  Z.of_N c = Z.of_N c' * 10 ^ (6 + e') ->
  ndigits c <= prec ->
  (m ← mul (Finite false c' e') (Decimal_of_int (10 ^ 6)); int_Decimal m) = Ok (Z.of_N c).
Proof.
  intros Hc' He Hval Hd.
  destruct (Z.le_gt_cases (ndigits (c' * 1000000)) prec) as [Hfit | Hbig].
  { rewrite Hval. apply scale_million_back; assumption. }
  change (Decimal_of_int (10 ^ 6)) with (Finite false 1000000 0).
  unfold mul. simpl _check_nans. cbv iota. simpl xorb.
  replace (e' + 0) with e' by lia.
  set (P := (c' * 1000000)%N) in *.
  assert (HP0 : P <> 0%N) by (unfold P; lia).
  assert (Hc0 : c <> 0%N).
  { intros ->. simpl in Hval.
    assert (0 < 10 ^ (6 + e')) by (apply Z.pow_pos_nonneg; lia). nia. }
  assert (HP : Z.of_N P = Z.of_N c * 10 ^ (- e')).
  { unfold P. rewrite N2Z.inj_mul, Hval. change (Z.of_N 1000000) with (10 ^ 6).
    rewrite <- Z.mul_assoc, <- Z.pow_add_r by lia. do 2 f_equal. lia. }
  pose proof (ndigits_spec P HP0) as [HPlo HPhi].
  pose proof (ndigits_bound c prec Hd) as Hcb.
  set (k := ndigits P - prec) in *.
  assert (Hk : 1 <= k <= - e').
  { split; [unfold k; lia |].
    destruct (Z.le_gt_cases k (- e')) as [| Hgt]; [assumption |]. exfalso.
    assert (Z.of_N P < 10 ^ (prec + - e')).
    { rewrite HP, Z.pow_add_r by (unfold prec; lia).
      assert (0 < 10 ^ (- e')) by (apply Z.pow_pos_nonneg; lia). nia. }
    assert (10 ^ (prec + - e') <= 10 ^ (ndigits P - 1))
      by (apply Z.pow_le_mono_r; unfold k in *; lia).
    lia. }
  assert (Hsplit : Z.of_N P = Z.of_N c * 10 ^ (- e' - k) * 10 ^ k).
  { rewrite HP, <- Z.mul_assoc, <- Z.pow_add_r by lia. do 2 f_equal. lia. }
  assert (Hpk : (pow10 k <> 0)%N).
  { intros H0. apply (f_equal Z.of_N) in H0. rewrite pow10_Z in H0 by lia.
    assert (0 < 10 ^ k) by (apply Z.pow_pos_nonneg; lia). simpl in H0. lia. }
  assert (Hq : Z.of_N (P / pow10 k) = Z.of_N c * 10 ^ (- e' - k)).
  { rewrite N2Z.inj_div, pow10_Z, Hsplit by lia. apply Z.div_mul.
    assert (0 < 10 ^ k) by (apply Z.pow_pos_nonneg; lia). lia. }
  assert (Hr : (P mod pow10 k)%N = 0%N).
  { apply N2Z.inj. rewrite N2Z.inj_mod, pow10_Z, Hsplit by lia.
    apply Z.mod_mul. assert (0 < 10 ^ k) by (apply Z.pow_pos_nonneg; lia). lia. }
  assert (Hq0 : (P / pow10 k)%N <> 0%N).
  { intros H0. rewrite H0 in Hq. simpl in Hq.
    assert (0 < 10 ^ (- e' - k)) by (apply Z.pow_pos_nonneg; lia). nia. }
  assert (Hndq : ndigits (P / pow10 k) = prec).
  { apply ndigits_unique; [| exact Hq0].
    assert (Hten : 0 < 10 ^ k) by (apply Z.pow_pos_nonneg; lia).
    assert (E1 : 10 ^ (ndigits P - 1) = 10 ^ (prec - 1) * 10 ^ k).
    { rewrite <- Z.pow_add_r by (unfold prec; lia). f_equal. unfold k. lia. }
    assert (E2 : 10 ^ ndigits P = 10 ^ prec * 10 ^ k).
    { rewrite <- Z.pow_add_r by (unfold prec; lia). f_equal. unfold k. lia. }
    rewrite Hq. rewrite Hsplit, E1 in HPlo. rewrite Hsplit, E2 in HPhi.
    split; nia. }
  assert (Hhalf : (5 * pow10 (k - 1))%N <> 0%N).
  { intros H0. apply (f_equal Z.of_N) in H0. rewrite N2Z.inj_mul, pow10_Z in H0 by lia.
    assert (0 < 10 ^ (k - 1)) by (apply Z.pow_pos_nonneg; lia). simpl in H0. lia. }
  assert (Hround : round_half_even P prec = (P / pow10 k)%N).
  { unfold round_half_even. fold k. rewrite Hr.
    replace (5 * pow10 (k - 1) <? 0)%N with false by (symmetry; apply N.ltb_ge; lia).
    replace (0 =? 5 * pow10 (k - 1))%N with false by (symmetry; apply N.eqb_neq; lia).
    reflexivity. }
  unfold _fix.
  destruct (N.eqb_spec P 0) as [| _]; [contradiction |].
  replace (ndigits P + e' - prec) with (e' + k) by (unfold k; lia).
  replace (e' + k >? Etop) with false
    by (symmetry; rewrite Z.gtb_ltb; apply Z.ltb_ge; unfold Etop, Emax, prec; lia).
  replace (e' + k <? Etiny) with false
    by (symmetry; apply Z.ltb_ge; unfold Etiny, Emin, prec; lia).
  replace (e' <? e' + k) with true by (symmetry; apply Z.ltb_lt; lia).
  replace (ndigits P + e' - (e' + k)) with prec by (unfold k; lia).
  change (prec <? 0) with false. cbv iota.
  rewrite Hround, Hndq.
  change (prec >? prec) with false. cbv iota.
  replace (e' + k >? Etop) with false
    by (symmetry; rewrite Z.gtb_ltb; apply Z.ltb_ge; unfold Etop, Emax, prec; lia).
  simpl. f_equal.
  destruct (Z.leb_spec 0 (e' + k)) as [H0 | Hneg].
  - replace (e' + k) with 0 by lia. rewrite Hq.
    replace (- e' - k) with 0 by lia. simpl. lia.
  - rewrite Hndq.
    replace (prec <=? - (e' + k)) with false
      by (symmetry; apply Z.leb_gt; unfold prec; lia).
    rewrite Hq.
    replace (- e' - k) with (- (e' + k)) by lia.
    apply Z.div_mul.
    assert (0 < 10 ^ (- (e' + k))) by (apply Z.pow_pos_nonneg; lia). lia.
Qed.

(** The quotient of a price by 10^6, written by [str], read by [Decimal]
    and multiplied by 10^6 again, is the price: nothing is lost as long as
    the price has at most the 28 digits of the context. *)
Lemma price_round_trip (c : N) :
  ndigits c <= prec ->
  exists q,
    truediv (Finite false c 0) (Decimal_of_int (10 ^ 6)) = Ok q
    /\ (d ← Decimal_of_str (str_Decimal q);
        m ← mul d (Decimal_of_int (10 ^ 6));
        int_Decimal m) = Ok (Z.of_N c).
Proof.
  intros Hd. destruct (N.eq_dec c 0%N) as [-> | Hc].
  { exists (Finite false 0 0). split; vm_compute; reflexivity. }
  destruct (truediv_million c Hc Hd) as (c' & e' & Hq & He & Hc' & Hval & _).
  exists (Finite false c' e'). split; [exact Hq |].
  assert (Hd' : ndigits c' <= prec).
  { apply ndigits_le; [unfold prec; lia | | exact Hc'].
    pose proof (ndigits_bound c prec Hd).
    assert (0 < 10 ^ (6 + e')) by (apply Z.pow_pos_nonneg; lia).
    assert (0 <= Z.of_N c') by lia. nia. }
  pose proof (ndigits_pos c').
  rewrite Decimal_of_str_Decimal by lia.
  apply (scale_back c c' e'); assumption.
Qed.

Lemma price_of_29_digits_is_rounded :
  exists q,
    truediv (Finite false (10 ^ 28 + 1) 0) (Decimal_of_int (10 ^ 6)) = Ok q
    /\ (d ← Decimal_of_str (str_Decimal q);
        m ← mul d (Decimal_of_int (10 ^ 6));
        int_Decimal m) = Ok (10 ^ 28).
Proof. eexists. split; [vm_compute; reflexivity | vm_compute; reflexivity]. Qed.

(** The terms of a priced answer. *)
Lemma parsed_price (response : requests.Response) (p : string) (c : N) (info : PaymentInfo) :
  requests.get (requests.headers response) "x402-price" = Some p ->
  requests.get (requests.headers response) "x402-currency" = Some "USDC" ->
  Decimal_of_str p = Ok (Finite false c 0) ->
  _parse_payment_info response = Ok info ->
  exists q, truediv (Finite false c 0) (Decimal_of_int (10 ^ 6)) = Ok q
            /\ amount info = PStr (str_Decimal q).
Proof.
  intros Hp Hcur Hdec Hparse.
  assert (Hne : p <> "").
  { intros ->. revert Hdec. vm_compute. discriminate. }
  apply parse_amount in Hparse as (amount0 & _ & H).
  unfold header in H. rewrite Hp, Hcur in H. simpl from_option in H.
  rewrite (truthy_PStr p Hne) in H.
  change (is_USDC (PStr "USDC")) with true in H. simpl andb in H. cbv iota in H.
  change (Decimal_of (PStr p)) with (Decimal_of_str p) in H. rewrite Hdec in H.
  unfold mbind, result_bind in H. cbv beta iota in H.
  destruct (truediv (Finite false c 0) (Decimal_of_int (10 ^ 6))) as [q | e];
    [| discriminate].
  exists q. split; [reflexivity | congruence].
Qed.

Lemma quoted_price_in_wei (response : requests.Response) (p : string) (c : N)
    (info : PaymentInfo) :
  requests.get (requests.headers response) "x402-price" = Some p ->
  requests.get (requests.headers response) "x402-currency" = Some "USDC" ->
  Decimal_of_str p = Ok (Finite false c 0) ->
  ndigits c <= prec ->
  _parse_payment_info response = Ok info ->
  amount_in_wei info = Ok (Z.of_N c).
Proof.
  intros Hp Hcur Hdec Hd Hparse.
  destruct (parsed_price response p c info Hp Hcur Hdec Hparse) as (q & Hq & Ha).
  destruct (price_round_trip c Hd) as (q' & Hq' & Hback).
  rewrite Hq in Hq'. injection Hq' as <-.
  unfold amount_in_wei. rewrite Ha. exact Hback.
Qed.

(** X25: The client pays what the server quotes.  When the price header reads as
    a non-negative integer of at most 28 digits (the precision of the
    context) and the currency header is 'USDC', the amount of the terms is
    the text of the exact quotient of the price by 10^6, with at most six
    digits after the point, and the payment step reads it back as exactly
    the price, in base units. *)
Theorem quoted_price_is_paid_exactly (response : requests.Response) (p : string) (c : N)
    (info : PaymentInfo) :
  requests.get (requests.headers response) "x402-price" = Some p ->
  requests.get (requests.headers response) "x402-currency" = Some "USDC" ->
  Decimal_of_str p = Ok (Finite false c 0) ->
  ndigits c <= prec ->
  _parse_payment_info response = Ok info ->
  (exists c' e',
     amount info = PStr (str_Decimal (Finite false c' e'))
     /\ -6 <= e' <= 0
     /\ Z.of_N c = Z.of_N c' * 10 ^ (6 + e'))
  /\ amount_in_wei info = Ok (Z.of_N c).
Proof.
  intros Hp Hcur Hdec Hd Hparse.
  split; [| apply (quoted_price_in_wei response p); assumption].
  destruct (parsed_price response p c info Hp Hcur Hdec Hparse) as (q & Hq & Ha).
  destruct (N.eq_dec c 0%N) as [-> | Hc].
  - exists 0%N, 0. revert Hq. vm_compute. intros [= <-].
    split; [exact Ha |]. split; [split; discriminate | reflexivity].
  - destruct (truediv_million c Hc Hd) as (c' & e' & Hq' & He & _ & Hval & _).
    rewrite Hq in Hq'. injection Hq' as ->.
    exists c', e'. split; [exact Ha |]. split; assumption.
Qed.

Lemma quoted_price_is_paid_exactly_witness :
  exists info,
    _parse_payment_info (payment_required_response "2500000" "USDC") = Ok info
    /\ amount info = PStr "2.5"
    /\ amount_in_wei info = Ok 2500000.
Proof.
  assert (Hparse : _parse_payment_info (payment_required_response "2500000" "USDC")
                   = Ok (terms (PStr "2.5") (PStr "USDC"))).
  { vm_compute. reflexivity. }
  exists (terms (PStr "2.5") (PStr "USDC")). split; [exact Hparse |].
  split; [reflexivity |].
  apply (quoted_price_is_paid_exactly (payment_required_response "2500000" "USDC")
           "2500000" 2500000 (terms (PStr "2.5") (PStr "USDC"))).
  - vm_compute. reflexivity.
  - vm_compute. reflexivity.
  - vm_compute. reflexivity.
  - vm_compute. discriminate.
  - exact Hparse.
Defined.

Lemma http_builds_nothing l :
  Forall (fun e => is_http e = true) l -> omap build_of l = [].
Proof.
  induction 1 as [| e l He _ IH]; [reflexivity |].
  destruct e as [X ev ans]; destruct ev; simpl in *; try discriminate; exact IH.
Qed.

Lemma _process_payment_amounts {W : Type} (h : handler W) (w w' : W)
    (self : TachiSDK) (info : PaymentInfo) (required : Z) (r : result string)
    (log : list entry) :
  amount_in_wei info = Ok required ->
  run h (_process_payment self info) w = (r, w', log) ->
  Forall (fun cp => amount_of (fst cp) = required) (omap build_of log).
Proof.
  intros Hamt Hrun.
  destruct (account self) as [acct |] eqn:Hacc;
    [| unfold _process_payment in Hrun; rewrite Hacc in Hrun; simpl in Hrun;
       simplify_eq; constructor].
  follow_process h Hrun Hacc Hamt; simpl; repeat constructor.
Qed.

(** X26: End to end: when the first answer of a fetch quotes a price in USDC -- a
    non-negative integer of at most 28 digits in the price header -- every
    transaction the fetch builds, the approval and the payment, is for
    exactly that number of base units. *)
Theorem fetch_pays_the_quoted_price {W : Type} (h : handler W) (w : W) (self : TachiSDK)
    (url method : string) (hdrs : option (gmap string string)) (body : option string)
    (response : requests.Response) (p : string) (c : N) :
  let log := calls h (fetch_with_tachi self url method hdrs body) w in
  head (omap response_of log) = Some response ->
  requests.get (requests.headers response) "x402-price" = Some p ->
  requests.get (requests.headers response) "x402-currency" = Some "USDC" ->
  Decimal_of_str p = Ok (Finite false c 0) ->
  ndigits c <= prec ->
  Forall (fun cp => amount_of (fst cp) = Z.of_N c) (omap build_of log).
Proof.
  intros log. subst log. unfold calls. rewrite fetch_with_tachi_run.
  destruct (run h (_make_http_request self url method (default ∅ hdrs) body) w)
    as [[r1 w1] l1] eqn:H1.
  apply _make_http_request_log in H1 as (Hh1 & _ & Hres).
  pose proof (http_builds_nothing l1 Hh1) as Hb1.
  destruct r1 as [initial | e]; simpl; [| rewrite Hb1; constructor].
  destruct Hres as (l0 & e0 & -> & _ & He0 & Hnone0).
  destruct (negb (requests.status_code initial =? 402)); simpl;
    [rewrite Hb1; constructor |].
  destruct (_parse_payment_info initial) as [info | e] eqn:Hparse; simpl;
    [| rewrite Hb1; constructor].
  assert (Hhead : forall rest, head (omap response_of ((l0 ++ [e0]) ++ rest)) = Some initial).
  { intros rest. rewrite !omap_app, Hnone0. simpl. rewrite He0. reflexivity. }
  destruct (run h (_process_payment self info) w1) as [[r2 w2] l2] eqn:H2.
  assert (Hpaid : head (omap response_of ((l0 ++ [e0]) ++ l2)) = Some response ->
                  requests.get (requests.headers response) "x402-price" = Some p ->
                  requests.get (requests.headers response) "x402-currency" = Some "USDC" ->
                  Decimal_of_str p = Ok (Finite false c 0) ->
                  ndigits c <= prec ->
                  Forall (fun cp => amount_of (fst cp) = Z.of_N c) (omap build_of l2)).
  { rewrite Hhead. intros [= <-] Hp Hcur Hdec Hd.
    eapply _process_payment_amounts; [| exact H2].
    apply (quoted_price_in_wei initial p); assumption. }
  destruct r2 as [tx | e]; simpl.
  - destruct (run h (_make_http_request self url method _ body) w2)
      as [[r3 w3] l3] eqn:H3.
    apply _make_http_request_log in H3 as (Hh3 & _ & _).
    pose proof (http_builds_nothing l3 Hh3) as Hb3.
    assert (Hgoal : head (omap response_of ((l0 ++ [e0]) ++ l2 ++ l3)) = Some response ->
                    requests.get (requests.headers response) "x402-price" = Some p ->
                    requests.get (requests.headers response) "x402-currency" = Some "USDC" ->
                    Decimal_of_str p = Ok (Finite false c 0) ->
                    ndigits c <= prec ->
                    Forall (fun cp => amount_of (fst cp) = Z.of_N c)
                      (omap build_of ((l0 ++ [e0]) ++ l2 ++ l3))).
    { rewrite Hhead. intros Hr Hp Hcur Hdec Hd.
      rewrite (omap_app _ (l0 ++ [e0])), (omap_app _ l2), Hb1, Hb3, app_nil_r. simpl.
      apply Hpaid; try assumption. rewrite Hhead. exact Hr. }
    destruct r3 as [paid | e]; simpl;
      [destruct (negb (requests.status_code paid =? 200)); simpl |]; exact Hgoal.
  - intros Hr Hp Hcur Hdec Hd.
    rewrite (omap_app _ (l0 ++ [e0])), Hb1. simpl.
    apply Hpaid; assumption.
Qed.

Lemma fetch_pays_the_quoted_price_witness :
  let fetch := fetch_with_tachi (crawler 3) "https://example.com/a" "GET" None None in
  let w := mkWorld [Ok (payment_required_response "2500000" "USDC"); Ok (page 200 "<html>")]
             3000000 0 [] in
  map (fun cp => amount_of (fst cp)) (omap build_of (calls scripted fetch w))
  = [2500000; 2500000].
Proof.
  intros fetch w.
  pose proof (fetch_pays_the_quoted_price scripted w (crawler 3)
                "https://example.com/a" "GET" None None
                (payment_required_response "2500000" "USDC") "2500000" 2500000) as H.
  assert (Hlen : length (omap build_of (calls scripted fetch w)) = 2%nat).
  { vm_compute. reflexivity. }
  assert (Hall : Forall (fun cp => amount_of (fst cp) = 2500000)
                   (omap build_of (calls scripted fetch w))).
  { apply H.
    - vm_compute. reflexivity.
    - vm_compute. reflexivity.
    - vm_compute. reflexivity.
    - vm_compute. reflexivity.
    - vm_compute. discriminate. }
  destruct (omap build_of (calls scripted fetch w)) as [| x [| y [| z l]]];
    try discriminate.
  inversion Hall as [| ? ? Hx Hrest]; subst. inversion Hrest as [| ? ? Hy _]; subst.
  simpl. rewrite Hx, Hy. reflexivity.
Defined.

(** X27: The two fields of a balance agree.  For a balance of at most 28 digits,
    the text in [formatted] is exact: [Decimal] reads it, and times 10^6 it
    is the integer in [wei] again. *)
Theorem formatted_balance_reads_back {W : Type} (h : handler W) (w : W)
    (self : TachiSDK) (b : Balance) :
  outcome h (get_usdc_balance self) w = Ok b ->
  0 <= wei b ->
  ndigits (Z.to_N (wei b)) <= prec ->
  (d ← Decimal_of_str (formatted b);
   m ← mul d (Decimal_of_int (10 ^ 6));
   int_Decimal m) = Ok (wei b).
Proof.
  unfold outcome, get_usdc_balance.
  destruct (account self) as [acct |]; [| discriminate]. simpl.
  destruct (h _ (Contract (usdc_address (config self))) w) as [[[] | e] w1]; simpl;
    [| discriminate].
  destruct (h _ (BalanceOf (usdc_address (config self)) (address acct)) w1)
    as [[balance | e] w2]; simpl; [| discriminate].
  destruct (balance_in_usdc balance) as [text | e] eqn:Hbal; simpl; [| discriminate].
  intros [= <-]. simpl. intros Hpos Hd.
  destruct (price_round_trip (Z.to_N balance) Hd) as (q & Hq & Hback).
  unfold balance_in_usdc, Decimal_of_int in Hbal.
  replace (balance <? 0) with false in Hbal by (symmetry; apply Z.ltb_ge; lia).
  replace (Z.abs_N balance) with (Z.to_N balance) in Hbal by lia.
  change (Finite (10 ^ 6 <? 0) (Z.abs_N (10 ^ 6)) 0) with (Decimal_of_int (10 ^ 6)) in Hbal.
  rewrite Hq in Hbal. injection Hbal as <-.
  rewrite Z2N.id in Hback by lia. exact Hback.
Qed.

Lemma formatted_balance_reads_back_witness :
  exists b,
    outcome scripted (get_usdc_balance (crawler 3)) (mkWorld [] 2500000 0 []) = Ok b
    /\ (d ← Decimal_of_str (formatted b);
        m ← mul d (Decimal_of_int (10 ^ 6));
        int_Decimal m) = Ok (wei b).
Proof.
  assert (E : outcome scripted (get_usdc_balance (crawler 3)) (mkWorld [] 2500000 0 [])
              = Ok (mkBalance 2500000 "2.5")).
  { vm_compute. reflexivity. }
  exists (mkBalance 2500000 "2.5"). split; [exact E |].
  apply (formatted_balance_reads_back scripted (mkWorld [] 2500000 0 []) (crawler 3)).
  - exact E.
  - simpl. lia.
  - vm_compute. discriminate.
Defined.

(** ** What a fetch raises *)

Lemma library_amount_in_wei (info : PaymentInfo) : library_outcome (amount_in_wei info).
Proof.
  unfold amount_in_wei.
  apply library_bind; [apply library_Decimal_of |]. intros d.
  apply library_bind; [apply library_mul |]. intros m. apply library_int_Decimal.
Qed.

Lemma _process_payment_raises {W : Type} (h : handler W) (w w' : W)
    (self : TachiSDK) (info : PaymentInfo) (e : exn) (log : list entry) :
  run h (_process_payment self info) w = (Raise e, w', log) ->
  (exists m d, e = PaymentError m d) \/ amount_in_wei info = Raise e.
Proof.
  unfold _process_payment. intros Hrun.
  destruct (account self) as [acct |]; [| simpl in Hrun; simplify_eq; eauto].
  unfold mbind at 1, prog_bind at 1 in Hrun. rewrite run_bind, run_lift in Hrun.
  destruct (amount_in_wei info) as [required | e0]; cbv beta iota in Hrun;
    [| simplify_eq; auto].
  rewrite run_try_except in Hrun.
  match type of Hrun with
  | context [run h ?p w] => destruct (run h p w) as [[[s | e0] w1] l1]
  end; simpl in Hrun; simplify_eq. eauto.
Qed.

(** X28: The exceptions of a fetch.  What [fetch_with_tachi] raises is a
    [NetworkError] or a [PaymentError] of the SDK, or an exception of a
    library (the parser's and the amount conversion's [ValueError],
    [AttributeError], [TypeError] and [decimal] signals, which are not
    wrapped), or an exception that the HTTP session itself raised during the
    fetch.  It is never a plain [TachiError]. *)
Theorem fetch_errors {W : Type} (h : handler W) (w : W) (self : TachiSDK)
    (url method : string) (hdrs : option (gmap string string)) (body : option string)
    (e : exn) :
  outcome h (fetch_with_tachi self url method hdrs body) w = Raise e ->
  (exists m d, e = NetworkError m d)
  \/ (exists m d, e = PaymentError m d)
  \/ (exists cls m, e = PyError cls m)
  \/ e ∈ omap failure_of (calls h (fetch_with_tachi self url method hdrs body) w).
Proof.
  assert (Hhttp : forall hs w0 w1 l,
             run h (_make_http_request self url method hs body) w0 = (Raise e, w1, l) ->
             (exists m d, e = NetworkError m d) \/ e ∈ omap failure_of l).
  { intros hs w0 w1 l Hrun. unfold _make_http_request in Hrun.
    destruct (Z.le_gt_cases (max_retries (config self)) 0) as [Hn | Hn].
    - rewrite range_nil in Hrun by lia. simpl in Hrun. simplify_eq. left. eauto.
    - apply (attempt_loop_raises h self url method _ body
               (Z.to_nat (max_retries (config self))) 1 None) in Hrun; [| lia].
      destruct Hrun as [(_ & _ & ->) | [(d & _ & _ & ->) | (_ & Hlast)]];
        [left; eauto | left; eauto |].
      right. apply last_Some_elem_of. exact Hlast. }
  unfold outcome, calls. rewrite fetch_with_tachi_run.
  destruct (run h (_make_http_request self url method (default ∅ hdrs) body) w)
    as [[[initial | e1] w1] l1] eqn:H1; simpl.
  2:{ intros [= ->]. destruct (Hhttp _ _ _ _ H1) as [H | H]; auto. }
  destruct (negb (requests.status_code initial =? 402)); simpl; [discriminate |].
  destruct (_parse_payment_info initial) as [info | e1] eqn:Hparse; simpl.
  2:{ intros [= ->]. pose proof (library__parse_payment_info initial) as Hlib.
      rewrite Hparse in Hlib. destruct e; try contradiction. eauto 10. }
  destruct (run h (_process_payment self info) w1) as [[[tx | e2] w2] l2] eqn:H2; simpl.
  2:{ intros [= ->]. apply _process_payment_raises in H2 as [H | H]; [auto |].
      pose proof (library_amount_in_wei info) as Hlib.
      rewrite H in Hlib. destruct e; try contradiction. eauto 10. }
  destruct (run h (_make_http_request self url method _ body) w2)
    as [[[paid | e3] w3] l3] eqn:H3; simpl.
  2:{ intros [= ->]. destruct (Hhttp _ _ _ _ H3) as [H | H]; [auto |].
      right. right. right. rewrite !omap_app, !elem_of_app. auto. }
  destruct (negb (requests.status_code paid =? 200)); simpl; [| discriminate].
  intros [= <-]. eauto 10.
Qed.

Lemma fetch_errors_witness :
  exists cls m,
    outcome scripted (fetch_with_tachi (crawler 3) "https://example.com/a" "GET" None None)
      (mkWorld [Ok bare_402] 2000000 0 []) = Raise (PyError cls m).
Proof.
  assert (E : outcome scripted
                (fetch_with_tachi (crawler 3) "https://example.com/a" "GET" None None)
                (mkWorld [Ok bare_402] 2000000 0 [])
              = Raise (PyError ValueError "Unknown format '', attempted to normalize to '0x'")).
  { vm_compute. reflexivity. }
  destruct (fetch_errors scripted (mkWorld [Ok bare_402] 2000000 0 []) (crawler 3)
              "https://example.com/a" "GET" None None _ E)
    as [(m & d & H) | [(m & d & H) | [(cls & m & H) | H]]]; try discriminate.
  - exists cls, m. rewrite E, H. reflexivity.
  - exfalso. revert H. vm_compute. intros H. inversion H.
Defined.
